(** * restful: the caching and connection-reuse core of [rest/net.go]

  A shallow embedding of [rest/net.go] (package [rest]) and of the parts
  of the Go standard library whose behaviour the functions of that file
  depend on ([time.Parse], [regexp.FindStringSubmatch], [strconv.Atoi],
  [http.Header]), followed by the properties of the freshness evaluator,
  of the header injection, of the connection pool and of the dispatch
  pipeline. *)

From Stdlib Require Import ZArith Ascii String List Lia Bool DecimalString.
From stdpp Require Import base option list gmap strings fin_maps.

Local Open Scope string_scope.
Local Open Scope list_scope.
Local Open Scope Z_scope.

(** ** Bytes and strings

  A Go [string] is a sequence of bytes; it is modelled by [string], whose
  characters are the 256 values of [ascii]. *)

Module Bytes.

Definition code (c : ascii) : Z := Z.of_N (N_of_ascii c).

(** [isDigit(s, i)] of package [time], at the head of the string. *)
Definition isDigitChar (c : ascii) : bool :=
  (code "0"%char <=? code c)%Z && (code c <=? code "9"%char)%Z.

Definition digitVal (c : ascii) : Z := code c - code "0"%char.

Definition isLowerChar (c : ascii) : bool :=
  (code "a"%char <=? code c)%Z && (code c <=? code "z"%char)%Z.

Definition isUpperChar (c : ascii) : bool :=
  (code "A"%char <=? code c)%Z && (code c <=? code "Z"%char)%Z.

Definition toLowerChar (c : ascii) : ascii :=
  if isUpperChar c then ascii_of_N (Z.to_N (code c + 32)) else c.

Definition toUpperChar (c : ascii) : ascii :=
  if isLowerChar c then ascii_of_N (Z.to_N (code c - 32)) else c.

(** [s[n:]], for [n <= len(s)]. *)
Fixpoint drop (n : nat) (s : string) : string :=
  match n, s with
  | O, _ => s
  | S n', String _ s' => drop n' s'
  | S _, EmptyString => EmptyString
  end.

(** [s[:n]], for [n <= len(s)]. *)
Fixpoint take (n : nat) (s : string) : string :=
  match n, s with
  | O, _ => EmptyString
  | S n', String c s' => String c (take n' s')
  | S _, EmptyString => EmptyString
  end.

(** [strings.HasPrefix(s, p)] with the rest of [s] after [p]. *)
Fixpoint stripPrefix (p s : string) : option string :=
  match p, s with
  | EmptyString, _ => Some s
  | String a p', String b s' =>
      if Ascii.eqb a b then stripPrefix p' s' else None
  | String _ _, EmptyString => None
  end.

(** The longest prefix of [s] made of decimal digits, and the rest. *)
Fixpoint spanDigits (s : string) : string * string :=
  match s with
  | String c s' =>
      if isDigitChar c
      then let '(d, r) := spanDigits s' in (String c d, r)
      else (EmptyString, s)
  | EmptyString => (EmptyString, EmptyString)
  end.

(** The value of a string of decimal digits, most significant first. *)
Fixpoint decimal (acc : Z) (s : string) : option Z :=
  match s with
  | EmptyString => Some acc
  | String c s' =>
      if isDigitChar c then decimal (acc * 10 + digitVal c) s' else None
  end.

End Bytes.

(** ** Fixed-width integers *)

Module Int64.

Definition min : Z := - 2 ^ 63.
Definition max : Z := 2 ^ 63 - 1.

(** The value an [int64] holds after an arithmetic result [z]: Go
    integer arithmetic wraps around silently. *)
Definition wrap (z : Z) : Z := (z + 2 ^ 63) mod 2 ^ 64 - 2 ^ 63.

Definition inRange (z : Z) : bool := (min <=? z) && (z <=? max).

End Int64.

(** ** Package [time]

  An instant is the number of nanoseconds since the Unix epoch; a
  [Duration] is an [int64] count of nanoseconds.  [Parse] follows
  [time/format.go] for the layout elements of the dates of HTTP. *)

Module GoTime.
Import Bytes.

Definition Time := Z.
Definition Duration := Z.

Definition Nanosecond : Duration := 1.
Definition Second : Duration := 1000000000.

(** [Duration(n) * time.Second]: a product of [int64]. *)
Definition Seconds (n : Z) : Duration := Int64.wrap (n * Second).

(** [t.Add(d)]. *)
Definition Add (t : Time) (d : Duration) : Time := t + d.

(** [t.Sub(u)]: the difference, saturated to the range of [Duration]. *)
Definition Sub (t u : Time) : Duration :=
  if t - u <? Int64.min then Int64.min
  else if Int64.max <? t - u then Int64.max
  else t - u.

Definition isLeap (year : Z) : bool :=
  (year mod 4 =? 0) && (negb (year mod 100 =? 0) || (year mod 400 =? 0)).

Definition daysIn (month year : Z) : Z :=
  if month =? 2 then (if isLeap year then 29 else 28)
  else if (month =? 4) || (month =? 6) || (month =? 9) || (month =? 11)
       then 30 else 31.

(** Days from 1970-01-01 to the given civil date of the proleptic
    Gregorian calendar. *)
Definition daysSinceEpoch (year month day : Z) : Z :=
  let y := if month <=? 2 then year - 1 else year in
  let era := y / 400 in
  let yoe := y - era * 400 in
  let mp := if month <=? 2 then month + 9 else month - 3 in
  let doy := (153 * mp + 2) / 5 + day - 1 in
  let doe := yoe * 365 + yoe / 4 - yoe / 100 + doy in
  era * 146097 + doe - 719468.

(** [time.Date(year, month, day, hour, min, sec, nsec, time.UTC)]. *)
Definition Date (year month day hour min sec nsec : Z) : Time :=
  (daysSinceEpoch year month day * 86400 + hour * 3600 + min * 60 + sec)
  * Second + nsec.

(** The elements of a layout ([stdLongMonth], ... in [format.go]).
    [stdOther] stands for the elements that no layout of this program
    contains and whose values [Parse] below does not read: two-digit
    years, days of the year, 12-hour clocks, AM/PM marks and time
    zones. *)
Inductive std : Type :=
| stdNone
| stdLongMonth | stdMonth | stdNumMonth | stdZeroMonth
| stdLongWeekDay | stdWeekDay
| stdDay | stdZeroDay
| stdHour | stdMinute | stdZeroMinute | stdSecond | stdZeroSecond
| stdLongYear
| stdFracSecond
| stdOther.

Definition startsWithLowerCase (s : string) : bool :=
  match s with
  | String c _ => isLowerChar c
  | EmptyString => false
  end.

Definition hasPrefix (p s : string) : bool :=
  match stripPrefix p s with Some _ => true | None => false end.

(** [s] without its leading bytes equal to [d]. *)
Fixpoint dropRun (d : ascii) (s : string) : string :=
  match s with
  | String c s' => if Ascii.eqb c d then dropRun d s' else s
  | EmptyString => EmptyString
  end.

Definition startsWithDigit (s : string) : bool :=
  match s with
  | String c _ => isDigitChar c
  | EmptyString => false
  end.

(** [std0x]: the elements written [01] to [06]; [03] (12-hour clock)
    and [06] (two-digit year) are not modelled further. *)
Definition std0x (d : ascii) : std :=
  if Ascii.eqb d "1" then stdZeroMonth
  else if Ascii.eqb d "2" then stdZeroDay
  else if Ascii.eqb d "4" then stdZeroMinute
  else if Ascii.eqb d "5" then stdZeroSecond
  else stdOther.

(** The element that starts at the head of [l], if one does, and what
    follows it: the body of the loop of [nextStdChunk], a [switch] on
    the first byte of [l]. *)
Definition stdAt (l : string) : option (std * string) :=
  if hasPrefix "J" l then
    if hasPrefix "Jan" l then
      if hasPrefix "January" l then Some (stdLongMonth, drop 7 l)
      else if negb (startsWithLowerCase (drop 3 l))
           then Some (stdMonth, drop 3 l) else None
    else None
  else if hasPrefix "M" l then
    if hasPrefix "Mon" l then
      if hasPrefix "Monday" l then Some (stdLongWeekDay, drop 6 l)
      else if negb (startsWithLowerCase (drop 3 l))
           then Some (stdWeekDay, drop 3 l) else None
    else if hasPrefix "MST" l then Some (stdOther, drop 3 l)
    else None
  else if hasPrefix "0" l then
    match drop 1 l with
    | String d r =>
        if (code "1"%char <=? code d)%Z && (code d <=? code "6"%char)%Z
        then Some (std0x d, r)
        else if hasPrefix "002" l then Some (stdOther, drop 3 l)
        else None
    | EmptyString => None
    end
  else if hasPrefix "1" l then
    if hasPrefix "15" l then Some (stdHour, drop 2 l)
    else Some (stdNumMonth, drop 1 l)
  else if hasPrefix "2" l then
    if hasPrefix "2006" l then Some (stdLongYear, drop 4 l)
    else Some (stdDay, drop 1 l)
  else if hasPrefix "_" l then
    if hasPrefix "_2" l || hasPrefix "__2" l
    then Some (stdOther, drop 2 l) else None
  else if hasPrefix "3" l then Some (stdOther, drop 1 l)
  else if hasPrefix "4" l then Some (stdMinute, drop 1 l)
  else if hasPrefix "5" l then Some (stdSecond, drop 1 l)
  else if hasPrefix "P" l then
    if hasPrefix "PM" l then Some (stdOther, drop 2 l) else None
  else if hasPrefix "p" l then
    if hasPrefix "pm" l then Some (stdOther, drop 2 l) else None
  else if hasPrefix "-" l then
    if hasPrefix "-07" l then Some (stdOther, drop 3 l) else None
  else if hasPrefix "Z" l then
    if hasPrefix "Z07" l then Some (stdOther, drop 3 l) else None
  else if hasPrefix "." l || hasPrefix "," l then
    match drop 1 l with
    | String d r =>
        if (Ascii.eqb d "0" || Ascii.eqb d "9")
           && negb (startsWithDigit (dropRun d r))
        then Some (stdFracSecond, dropRun d r) else None
    | EmptyString => None
    end
  else None.

(** [nextStdChunk(layout)]: the literal text before the first element,
    the element, and the layout after it. *)
Fixpoint nextStdChunk (layout : string) : string * std * string :=
  match stdAt layout with
  | Some (k, suffix) => (EmptyString, k, suffix)
  | None =>
      match layout with
      | EmptyString => (EmptyString, stdNone, EmptyString)
      | String c l' =>
          let '(prefix, k, suffix) := nextStdChunk l' in
          match k with
          | stdNone => (layout, stdNone, EmptyString)
          | _ => (String c prefix, k, suffix)
          end
      end
  end.

Inductive ParseError : Type :=
| errBad                        (* the value does not fit the layout *)
| errRange (elem : string)      (* "month out of range", ... *)
| errExtraText                  (* text left after the layout *)
| errLayout.                    (* a layout element that is not modelled *)

Definition isSpace (c : ascii) : bool := Ascii.eqb c " ".

Fixpoint cutspace (s : string) : string :=
  match s with
  | String c s' => if isSpace c then cutspace s' else s
  | EmptyString => EmptyString
  end.

(** [skip(value, prefix)]: remove the literal text [prefix] from the
    front of [value]; a run of spaces of the layout stands for any
    number of spaces of the value.  [inSpaces] holds while the run of
    spaces of the layout that was met is being cut. *)
Fixpoint skipFrom (inSpaces : bool) (value prefix : string) : option string :=
  match prefix with
  | EmptyString => Some value
  | String c prefix' =>
      if isSpace c then
        if inSpaces then skipFrom true value prefix'
        else
          match value with
          | String v _ =>
              if isSpace v then skipFrom true (cutspace value) prefix'
              else None
          | EmptyString => skipFrom true value prefix'
          end
      else
        match value with
        | String v value' =>
            if Ascii.eqb v c then skipFrom false value' prefix' else None
        | EmptyString => None
        end
  end.

Definition skip (value prefix : string) : option string :=
  skipFrom false value prefix.

(** [match(s1, s2)] of [format.go]: equality of two strings of one
    length, ignoring the case of letters. *)
Definition matchByte (c1 c2 : ascii) : bool :=
  if Ascii.eqb c1 c2 then true
  else
    let l1 := Z.lor (code c1) 32 in
    let l2 := Z.lor (code c2) 32 in
    (l1 =? l2) && (code "a"%char <=? l1) && (l1 <=? code "z"%char).

(** The rest of [val] after a prefix that matches [v]. *)
Fixpoint matchPrefix (v val : string) : option string :=
  match v, val with
  | EmptyString, _ => Some val
  | String a v', String b val' =>
      if matchByte b a then matchPrefix v' val' else None
  | String _ _, EmptyString => None
  end.

(** [lookup(tab, val)]: the index of the first name of [tab] that
    starts [val], and the rest of [val]. *)
Fixpoint lookupFrom (i : Z) (tab : list string) (val : string)
  : option (Z * string) :=
  match tab with
  | nil => None
  | v :: tab' =>
      match matchPrefix v val with
      | Some rest => Some (i, rest)
      | None => lookupFrom (i + 1) tab' val
      end
  end.

Definition lookup (tab : list string) (val : string) : option (Z * string) :=
  lookupFrom 0 tab val.

Definition shortDayNames : list string :=
  ["Sun"; "Mon"; "Tue"; "Wed"; "Thu"; "Fri"; "Sat"].
Definition longDayNames : list string :=
  ["Sunday"; "Monday"; "Tuesday"; "Wednesday"; "Thursday"; "Friday";
   "Saturday"].
Definition shortMonthNames : list string :=
  ["Jan"; "Feb"; "Mar"; "Apr"; "May"; "Jun"; "Jul"; "Aug"; "Sep"; "Oct";
   "Nov"; "Dec"].
Definition longMonthNames : list string :=
  ["January"; "February"; "March"; "April"; "May"; "June"; "July";
   "August"; "September"; "October"; "November"; "December"].

(** [getnum(s, fixed)]: a number of one or two digits, of exactly two
    when [fixed]. *)
Definition getnum (s : string) (fixed : bool) : option (Z * string) :=
  match s with
  | String c0 s1 =>
      if isDigitChar c0 then
        match s1 with
        | String c1 s2 =>
            if isDigitChar c1
            then Some (digitVal c0 * 10 + digitVal c1, s2)
            else if fixed then None else Some (digitVal c0, s1)
        | EmptyString => if fixed then None else Some (digitVal c0, s1)
        end
      else None
  | EmptyString => None
  end.

Definition commaOrPeriod (c : ascii) : bool :=
  Ascii.eqb c "." || Ascii.eqb c ",".

(** The fields of the time under construction in [parse]. *)
Record fields : Type := mkFields {
  year : Z; month : Z; day : Z;
  hour : Z; min : Z; sec : Z; nsec : Z
}.

Definition fields0 : fields :=
  {| year := 0; month := -1; day := -1;
     hour := 0; min := 0; sec := 0; nsec := 0 |}.

(** A fraction of a second in the value after an element of seconds
    that no fractional element of the layout follows: the digits after
    the separator, as nanoseconds ([parseNanoseconds]). *)
Definition fraction (value : string) : option (Z * string) :=
  match value with
  | String c0 (String c1 _) =>
      if commaOrPeriod c0 && isDigitChar c1 then
        let '(ds, rest) := spanDigits (drop 1 value) in
        let used := take 9 ds in
        match decimal 0 used with
        | Some ns => Some (ns * 10 ^ (9 - Z.of_nat (String.length used)), rest)
        | None => None
        end
      else None
  | _ => None
  end.

(** The [switch] of [parse] on the element [k]: the fields and the rest
    of the value after the element was read.  [suffix] is the layout
    that follows the element. *)
Definition parseElem (k : std) (suffix value : string) (f : fields)
  : ParseError + (fields * string) :=
  let num (fixed : bool) (lo hi : Z) (what : string)
          (set : Z -> fields) : ParseError + (fields * string) :=
    match getnum value fixed with
    | Some (n, rest) =>
        if (n <? lo) || (hi <? n) then inl (errRange what)
        else inr (set n, rest)
    | None => inl errBad
    end in
  let name (tab : list string) (set : Z -> fields)
    : ParseError + (fields * string) :=
    match lookup tab value with
    | Some (i, rest) => inr (set i, rest)
    | None => inl errBad
    end in
  let setMonth n := {| year := year f; month := n; day := day f;
                       hour := hour f; min := min f; sec := sec f;
                       nsec := nsec f |} in
  let setDay n := {| year := year f; month := month f; day := n;
                     hour := hour f; min := min f; sec := sec f;
                     nsec := nsec f |} in
  match k with
  | stdLongYear =>
      if (String.length value <? 4)%nat || negb (startsWithDigit value)
      then inl errBad
      else
        match decimal 0 (take 4 value) with
        | Some y =>
            inr ({| year := y; month := month f; day := day f;
                    hour := hour f; min := min f; sec := sec f;
                    nsec := nsec f |}, drop 4 value)
        | None => inl errBad
        end
  | stdMonth => name shortMonthNames (fun i => setMonth (i + 1))
  | stdLongMonth => name longMonthNames (fun i => setMonth (i + 1))
  | stdNumMonth => num false 1 12 "month" setMonth
  | stdZeroMonth => num true 1 12 "month" setMonth
  | stdWeekDay => name shortDayNames (fun _ => f)
  | stdLongWeekDay => name longDayNames (fun _ => f)
  | stdDay => num false 0 99 "day" setDay
  | stdZeroDay => num true 0 99 "day" setDay
  | stdHour =>
      num false 0 23 "hour"
          (fun n => {| year := year f; month := month f; day := day f;
                       hour := n; min := min f; sec := sec f;
                       nsec := nsec f |})
  | stdMinute | stdZeroMinute =>
      num (match k with stdZeroMinute => true | _ => false end)
          0 59 "minute"
          (fun n => {| year := year f; month := month f; day := day f;
                       hour := hour f; min := n; sec := sec f;
                       nsec := nsec f |})
  | stdSecond | stdZeroSecond =>
      match getnum value (match k with stdZeroSecond => true | _ => false end) with
      | Some (n, rest) =>
          if (n <? 0) || (59 <? n) then inl (errRange "second")
          else
            let f' ns := {| year := year f; month := month f; day := day f;
                            hour := hour f; min := min f; sec := n;
                            nsec := ns |} in
            match fraction rest with
            | Some (ns, rest') =>
                match nextStdChunk suffix with
                | (_, stdFracSecond, _) => inr (f' (nsec f), rest)
                | _ => inr (f' ns, rest')
                end
            | None => inr (f' (nsec f), rest)
            end
      | None => inl errBad
      end
  | stdFracSecond | stdOther | stdNone => inl errLayout
  end.

(** The loop of [parse]: one element of the layout at each turn.  Each
    turn shortens the layout, so [String.length layout] turns and one
    more for the closing literal text are enough. *)
Fixpoint parseLoop (fuel : nat) (layout value : string) (f : fields)
  : ParseError + fields :=
  match fuel with
  | O => inl errLayout
  | S fuel' =>
      let '(prefix, k, suffix) := nextStdChunk layout in
      match skip value prefix with
      | None => inl errBad
      | Some value1 =>
          match k with
          | stdNone =>
              match value1 with
              | EmptyString => inr f
              | String _ _ => inl errExtraText
              end
          | _ =>
              match parseElem k suffix value1 f with
              | inl e => inl e
              | inr (f', value2) => parseLoop fuel' suffix value2 f'
              end
          end
      end
  end.

(** [time.Parse(layout, value)]: the instant, in UTC. *)
Definition Parse (layout value : string) : ParseError + Time :=
  match parseLoop (S (String.length layout)) layout value fields0 with
  | inl e => inl e
  | inr f =>
      let m := if month f <? 0 then 1 else month f in
      let d := if day f <? 0 then 1 else day f in
      if (d <? 1) || (daysIn m (year f) <? d) then inl (errRange "day")
      else inr (Date (year f) m d (hour f) (min f) (sec f) (nsec f))
  end.

(** Whether none of the first [fuel] elements of the layout is a day of
    the month. *)
Fixpoint noDay (fuel : nat) (layout : string) : bool :=
  match fuel with
  | O => true
  | S fuel' =>
      let '(_, k, suffix) := nextStdChunk layout in
      match k with
      | stdDay | stdZeroDay => false
      | stdNone => true
      | _ => noDay fuel' suffix
      end
  end.

(** The fields of a value whose day was not read, within the ranges
    that [parse] checks as it reads them. *)
Definition dayless (f : fields) : Prop :=
  day f = -1
  /\ (month f = -1 \/ 1 <= month f <= 12)
  /\ 0 <= hour f <= 23 /\ 0 <= min f <= 59 /\ 0 <= sec f <= 59
  /\ 0 <= nsec f < 1000000000.

(** The civil date, in UTC, of the day that lies [z] days after
    1970-01-01, as year, month and day. *)
Definition civilFromDays (z : Z) : Z * Z * Z :=
  let z := z + 719468 in
  let era := z / 146097 in
  let doe := z - era * 146097 in
  let yoe := (doe - doe / 1460 + doe / 36524 - doe / 146096) / 365 in
  let doy := doe - (365 * yoe + yoe / 4 - yoe / 100) in
  let mp := (5 * doy + 2) / 153 in
  let d := doy - (153 * mp + 2) / 5 + 1 in
  let m := if mp <? 10 then mp + 3 else mp - 9 in
  ((yoe + era * 400) + (if m <=? 2 then 1 else 0), m, d).

(** [appendInt(b, x, width)]: [x] in decimal, with zeros on the left up
    to [width] digits. *)
Definition appendInt (x : Z) (width : nat) : string :=
  let ds := NilZero.string_of_uint (N.to_uint (Z.to_N (Z.abs x))) in
  let pad := String.concat "" (repeat "0" (width - String.length ds)%nat) in
  (if x <? 0 then "-" else "") +:+ pad +:+ ds.

(** The text that [Format] writes for one element of the layout. *)
Definition formatElem (k : std) (t : Time) : option string :=
  let secs := t / Second in
  let days := secs / 86400 in
  let rem := secs mod 86400 in
  let '(y, m, d) := civilFromDays days in
  match k with
  | stdLongYear => Some (appendInt y 4)
  | stdMonth => Some (take 3 (nth (Z.to_nat (m - 1)) longMonthNames ""))
  | stdLongMonth => Some (nth (Z.to_nat (m - 1)) longMonthNames "")
  | stdNumMonth => Some (appendInt m 0)
  | stdZeroMonth => Some (appendInt m 2)
  | stdWeekDay =>
      Some (take 3 (nth (Z.to_nat ((days + 4) mod 7)) longDayNames ""))
  | stdLongWeekDay => Some (nth (Z.to_nat ((days + 4) mod 7)) longDayNames "")
  | stdDay => Some (appendInt d 0)
  | stdZeroDay => Some (appendInt d 2)
  | stdHour => Some (appendInt (rem / 3600) 2)
  | stdMinute => Some (appendInt (rem mod 3600 / 60) 0)
  | stdZeroMinute => Some (appendInt (rem mod 3600 / 60) 2)
  | stdSecond => Some (appendInt (rem mod 60) 0)
  | stdZeroSecond => Some (appendInt (rem mod 60) 2)
  | stdFracSecond | stdOther | stdNone => None
  end.

Fixpoint formatLoop (fuel : nat) (layout : string) (t : Time) : string :=
  match fuel with
  | O => EmptyString
  | S fuel' =>
      let '(prefix, k, suffix) := nextStdChunk layout in
      match k with
      | stdNone => prefix
      | _ => prefix +:+ default "" (formatElem k t) +:+ formatLoop fuel' suffix t
      end
  end.

(** [t.Format(layout)] for a time in UTC; an element of the layout that
    is not modelled writes nothing. *)
Definition Format (t : Time) (layout : string) : string :=
  formatLoop (S (String.length layout)) layout t.

End GoTime.

(** ** Package [regexp]

  The regular expressions of this program are built from literal text,
  alternation, concatenation, [\d+] and one capturing group.  Matching
  is the backtracking, leftmost-first matching of Go (and Perl): the
  first alternative that leads to a match wins, and [\d+] is greedy. *)

Module Regexp.
Import Bytes.

Inductive re : Type :=
| Lit (s : string)
| Alt (r1 r2 : re)
| Cat (r1 r2 : re)
| Digits1
| Group (r : re).

(** The first success of [k] on [drop n s], [drop (n-1) s], ...,
    [drop 1 s]: the greedy choice of what [\d+] consumes. *)
Fixpoint longestFirst {R : Type} (n : nat) (s : string)
         (k : string -> option R) : option R :=
  match n with
  | O => None
  | S n' =>
      match k (drop n s) with
      | Some x => Some x
      | None => longestFirst n' s k
      end
  end.

(** [matchAt r s cap k]: match [r] at the head of [s], then continue
    with [k] on the rest of [s] and the text of the group. *)
Fixpoint matchAt {R : Type} (r : re) (s : string) (cap : option string)
         (k : string -> option string -> option R) : option R :=
  match r with
  | Lit l =>
      match stripPrefix l s with
      | Some s' => k s' cap
      | None => None
      end
  | Alt r1 r2 =>
      match matchAt r1 s cap k with
      | Some x => Some x
      | None => matchAt r2 s cap k
      end
  | Cat r1 r2 => matchAt r1 s cap (fun s' cap' => matchAt r2 s' cap' k)
  | Digits1 =>
      longestFirst (String.length (fst (spanDigits s))) s (fun s' => k s' cap)
  | Group r1 =>
      matchAt r1 s cap
        (fun s' _ => k s' (Some (take (String.length s - String.length s') s)))
  end.

(** [re.FindStringSubmatch(s)]: the text of the leftmost match and of
    its group, or [nil] (the empty list) when nothing matches. *)
Fixpoint FindStringSubmatch (r : re) (s : string) : list string :=
  match matchAt r s None (fun s' cap => Some (s', cap)) with
  | Some (s', cap) =>
      [take (String.length s - String.length s') s; default "" cap]
  | None =>
      match s with
      | String _ s' => FindStringSubmatch r s'
      | EmptyString => []
      end
  end.

End Regexp.

(** ** Package [strconv] *)

Module Strconv.
Import Bytes.

(** [strconv.Atoi(s)] where [int] has 64 bits: an optional sign and
    decimal digits; [None] is a syntax or range error. *)
Definition Atoi (s : string) : option Z :=
  let unsigned (d : string) : option Z :=
    match d with
    | EmptyString => None
    | String _ _ => decimal 0 d
    end in
  let v :=
    match s with
    | String "+" d => unsigned d
    | String "-" d => Z.opp <$> unsigned d
    | _ => unsigned s
    end in
  match v with
  | Some n => if Int64.inRange n then Some n else None
  | None => None
  end.

End Strconv.

(** ** Package [net/http]: headers, requests, responses, clients *)

Module Http.
Import Bytes.

(** [http.Header], a [map[string][]string]. *)
Abbreviation Header := (gmap string (list string)).

Definition validHeaderFieldByte (c : ascii) : bool :=
  isDigitChar c || isLowerChar c || isUpperChar c
  || existsb (Ascii.eqb c)
       ["!"; "#"; "$"; "%"; "&"; "'"; "*"; "+"; "-"; "."; "^"; "_"; "`";
        "|"; "~"]%char.

Fixpoint allBytes (p : ascii -> bool) (s : string) : bool :=
  match s with
  | String c s' => p c && allBytes p s'
  | EmptyString => true
  end.

(** Upper case for the first letter and for a letter after a dash,
    lower case for the other letters. *)
Fixpoint canonicalize (upper : bool) (s : string) : string :=
  match s with
  | String c s' =>
      let c' := if upper then toUpperChar c else toLowerChar c in
      String c' (canonicalize (Ascii.eqb c' "-") s')
  | EmptyString => EmptyString
  end.

(** [textproto.CanonicalMIMEHeaderKey(s)]: a key with a byte that is
    not allowed in a header name is returned as it is. *)
Definition CanonicalMIMEHeaderKey (s : string) : string :=
  if allBytes validHeaderFieldByte s then canonicalize true s else s.

(** [h.Get(key)]: the first value of the key, or [""]. *)
Definition Get (h : Header) (key : string) : string :=
  match h !! CanonicalMIMEHeaderKey key with
  | Some (v :: _) => v
  | _ => ""
  end.

(** [h.Set(key, value)]: the key has the single value [value]. *)
Definition Set_ (h : Header) (key value : string) : Header :=
  <[CanonicalMIMEHeaderKey key := [value]]> h.

Definition MethodGet := "GET".
Definition MethodHead := "HEAD".
Definition MethodOptions := "OPTIONS".
Definition MethodPost := "POST".
Definition MethodPut := "PUT".
Definition MethodPatch := "PATCH".

Definition StatusNotModified : Z := 304.
Definition DefaultMaxIdleConnsPerHost : Z := 2.

(** [validMethod(method)]: a non-empty token. *)
Definition validMethod (method : string) : bool :=
  negb (String.eqb method "") && allBytes validHeaderFieldByte method.

(** The error of [http.NewRequest] for a method that is not valid,
    [fmt.Errorf] with the format [net/http: invalid method %q]:
    [quoted] is the method as [%q] writes it. *)
Definition errInvalidMethod (quoted : string) : string :=
  "net/http: invalid method " +:+ quoted.

End Http.

(** ** Package [rest]: the data model *)

Module Rest.
Import Bytes GoTime Regexp Strconv Http.

(** Objects that the program reaches through pointers live in stores
    indexed by addresses; an address is an index of the store. *)
Definition loc := nat.

Definition Error := string.

(** [url.URL]: the two fields that the program reads and writes, and the
    rest of the URL. *)
Record URL : Type := mkURL {
  Scheme : string;
  Host : string;
  Rest : string
}.

(** [http.Transport] and [http.Client].  The [Proxy] of a transport is
    the function [http.ProxyURL(u)], given by [u], or [nil]. *)
Record Transport : Type := mkTransport {
  Transport_MaxIdleConnsPerHost : Z;
  Transport_Proxy : option URL
}.

Record Client : Type := mkClient {
  Client_Transport : option loc;
  Client_Timeout : Duration
}.

(** [http.Request]: [Header] is a map, that is a reference. *)
Record Request : Type := mkRequest {
  Request_Method : string;
  Request_URL : string;
  Request_Header : loc;
  Request_Body : string
}.

(** [http.Response], with what [ioutil.ReadAll] gives for its body. *)
Record HttpResponse : Type := mkHttpResponse {
  StatusCode : Z;
  Header_ : Header;
  Body : Error + string
}.

(** [Response]: the embedded [*http.Response] is [httpResponse]. *)
Record Response : Type := mkResponse {
  httpResponse : option HttpResponse;
  Err : option Error;
  byteBody : string;
  ttl : option Time;
  lastModified : option Time;
  etag : string;
  revalidate : bool
}.

Inductive ContentTypeT : Type := JSON | XML | ContentTypeOther.

(** The values of a [syncMap] are of type [interface{}]. *)
Inductive any : Type :=
| AnyClient (c : loc)
| AnyTransport (t : loc).

(** Modelled from the spec: the type [syncMap] of the client and
    transport caches, a thread-safe map from keys to values with the two
    operations [get] and [setNX]. *)
Abbreviation syncMap := (gmap string any).

(** [RequestBuilder]: the configuration and the client cache, which is
    empty ([None]) until the first use of the builder. *)
Record RequestBuilder : Type := mkRequestBuilder {
  BaseURL : string;
  ContentType : ContentTypeT;
  Headers : option loc;
  Timeout : Duration;
  DisableTimeout : bool;
  MaxIdleConnsPerHost : Z;
  Proxy : string;
  DisableCache : bool;
  clientCache : option syncMap
}.

(** What a call does that is visible outside of the stores: the accesses
    to the Resource Cache, the encoding of a body, the acquisition of a
    connection, and the requests sent, each with the headers it carries
    when it is sent. *)
Inductive Event : Type :=
| EvCacheGet (url : string)
| EvCacheSetNX (url : string) (resp : loc)
| EvMarshal
| EvConnect (url : string)
| EvSend (client : loc) (req : Request) (hdr : Header).

(** The state of the process. *)
Record State : Type := mkState {
  builders : list RequestBuilder;
  responses : list Response;
  headerMaps : list Header;
  transports : list Transport;
  clients : list Client;
  resourceCache : gmap string loc;
  transportCache : syncMap;
  trace : list Event
}.

Definition setBuilders (f : list RequestBuilder -> list RequestBuilder)
  (s : State) : State :=
  mkState (f (builders s)) (responses s) (headerMaps s) (transports s)
          (clients s) (resourceCache s) (transportCache s) (trace s).
Definition setResponses (f : list Response -> list Response) (s : State)
  : State :=
  mkState (builders s) (f (responses s)) (headerMaps s) (transports s)
          (clients s) (resourceCache s) (transportCache s) (trace s).
Definition setHeaderMaps (f : list Header -> list Header) (s : State)
  : State :=
  mkState (builders s) (responses s) (f (headerMaps s)) (transports s)
          (clients s) (resourceCache s) (transportCache s) (trace s).
Definition setTransports (f : list Transport -> list Transport) (s : State)
  : State :=
  mkState (builders s) (responses s) (headerMaps s) (f (transports s))
          (clients s) (resourceCache s) (transportCache s) (trace s).
Definition setClients (f : list Client -> list Client) (s : State) : State :=
  mkState (builders s) (responses s) (headerMaps s) (transports s)
          (f (clients s)) (resourceCache s) (transportCache s) (trace s).
Definition setResourceCache (f : gmap string loc -> gmap string loc)
  (s : State) : State :=
  mkState (builders s) (responses s) (headerMaps s) (transports s)
          (clients s) (f (resourceCache s)) (transportCache s) (trace s).
Definition setTransportCache (f : syncMap -> syncMap) (s : State) : State :=
  mkState (builders s) (responses s) (headerMaps s) (transports s)
          (clients s) (resourceCache s) (f (transportCache s)) (trace s).
Definition emit (e : Event) (s : State) : State :=
  mkState (builders s) (responses s) (headerMaps s) (transports s)
          (clients s) (resourceCache s) (transportCache s) (trace s ++ [e]).

(** *** Computations

    A computation runs on a state and ends with a value and a state, or
    panics (a [nil] pointer is dereferenced). *)

Inductive Outcome (A : Type) : Type :=
| Done (a : A) (s : State)
| Panic.
Arguments Done {A} a s.
Arguments Panic {A}.

Definition M (A : Type) : Type := State -> Outcome A.

Definition ret {A : Type} (a : A) : M A := fun s => Done a s.

Definition bind {A B : Type} (m : M A) (k : A -> M B) : M B :=
  fun s => match m s with
           | Done a s' => k a s'
           | Panic => Panic
           end.

Definition panic {A : Type} : M A := fun _ => Panic.

Definition gets {A : Type} (f : State -> A) : M A := fun s => Done (f s) s.

Definition modify (f : State -> State) : M unit := fun s => Done tt (f s).

#[global] Instance M_ret : MRet M := @ret.
#[global] Instance M_bind : MBind M := fun A B k m => bind m k.

(** The object at the address [p] of one of the stores. *)
Definition deref {A : Type} (store : State -> list A) (p : loc) : M A :=
  fun s => match store s !! p with
           | Some a => Done a s
           | None => Panic
           end.

(** [&T{...}] and [new(T)]: a new object at the end of its store. *)
Definition new {A : Type} (store : State -> list A)
  (set : (list A -> list A) -> State -> State) (a : A) : M loc :=
  fun s => Done (length (store s)) (set (fun l => l ++ [a]) s).

(** The object at [p] becomes [f] of what it was. *)
Definition update {A : Type} (store : State -> list A)
  (set : (list A -> list A) -> State -> State) (p : loc) (f : A -> A)
  : M unit :=
  a ← deref store p; modify (set (fun l => <[p := f a]> l)).

(** *** The environment of a call

    What the program obtains from its environment: the clock; the
    variables of the package that [net.go] reads and does not declare
    (the test mode, its server and the default timeout); the parser and
    the printer of URLs; the quoting of a string by the verb [%q] of
    [fmt], which is [strconv.Quote]; the encoders of request bodies; and
    the outcome of the exchange with the server for the request that the
    call sends (the answer of [client.Do], or its error). *)
Record Env : Type := mkEnv {
  now : Time;
  mockUpEnv : bool;
  mockServerURL : URL;
  DefaultTimeout : Duration;
  url_Parse : string -> Error + URL;
  url_String : URL -> string;
  strconv_Quote : string -> string;
  json_Marshal : string -> Error + string;
  xml_Marshal : string -> Error + string;
  client_Do : Error + HttpResponse
}.

(** ** Package [rest]: [net.go] *)

Definition readVerbs : list string := [MethodGet; MethodHead; MethodOptions].
Definition contentVerbs : list string := [MethodPost; MethodPut; MethodPatch].

Definition maxAge : re :=
  Cat (Alt (Lit "max-age") (Lit "s-maxage")) (Cat (Lit "=") (Group Digits1)).

Definition httpDateFormat : string := "Mon, 01 Jan 2006 15:04:05 GMT".

(** [match(s, sarray)]. *)
Fixpoint match_ (s : string) (sarray : list string) : bool :=
  match sarray with
  | nil => false
  | v :: rest => if String.eqb v s then true else match_ s rest
  end.

(** Modelled from the spec: the operations [get] and [setNX] of
    [syncMap], which are not in [net.go]; [setNX] stores the value only
    if the key has none and tells whether it did. *)
Definition syncMap_get (m : syncMap) (key : string) : option any := m !! key.

Definition syncMap_setNX (m : syncMap) (key : string) (v : any)
  : syncMap * bool :=
  match m !! key with
  | Some _ => (m, false)
  | None => (<[key := v]> m, true)
  end.

(** The type assertions of a value of a [syncMap] to a pointer to
    [http.Client] and to a pointer to [http.Transport]; [None] when the
    assertion does not hold. *)
Definition asClient (x : option any) : option loc :=
  match x with Some (AnyClient c) => Some c | _ => None end.

Definition asTransport (x : option any) : option loc :=
  match x with Some (AnyTransport t) => Some t | _ => None end.

Definition withTTL (t : Time) (r : Response) : Response :=
  mkResponse (httpResponse r) (Err r) (byteBody r) (Some t) (lastModified r)
             (etag r) (revalidate r).
Definition withLastModified (t : Time) (r : Response) : Response :=
  mkResponse (httpResponse r) (Err r) (byteBody r) (ttl r) (Some t) (etag r)
             (revalidate r).
Definition withETag (e : string) (r : Response) : Response :=
  mkResponse (httpResponse r) (Err r) (byteBody r) (ttl r) (lastModified r) e
             (revalidate r).
Definition withRevalidate (b : bool) (r : Response) : Response :=
  mkResponse (httpResponse r) (Err r) (byteBody r) (ttl r) (lastModified r)
             (etag r) b.
Definition withErr (e : Error) (r : Response) : Response :=
  mkResponse (httpResponse r) (Some e) (byteBody r) (ttl r) (lastModified r)
             (etag r) (revalidate r).
Definition withHttpResponse (h : HttpResponse) (body : string) (r : Response)
  : Response :=
  mkResponse (Some h) (Err r) body (ttl r) (lastModified r) (etag r)
             (revalidate r).
Definition withClientCache (m : syncMap) (b : RequestBuilder)
  : RequestBuilder :=
  mkRequestBuilder (BaseURL b) (ContentType b) (Headers b) (Timeout b)
                   (DisableTimeout b) (MaxIdleConnsPerHost b) (Proxy b)
                   (DisableCache b) (Some m).
Definition withProxy (u : URL) (t : Transport) : Transport :=
  mkTransport (Transport_MaxIdleConnsPerHost t) (Some u).
Definition withHeader (h : loc) (r : Request) : Request :=
  mkRequest (Request_Method r) (Request_URL r) h (Request_Body r).

(** Modelled from the spec: the pointer that [get] of the Resource Cache
    returns for a URL that has an entry.  In the spec an entry whose
    [ttl] has elapsed is still returned, but flagged for revalidation
    (4.1), and no operation writes to a published [Response] (5): the
    pointer is the address of the stored [Response] together with the
    flag that [get] gave, and [flag] is the [Response] that the caller
    reads behind the pointer. *)
Record Hit : Type := mkHit { hitAt : loc; hitStale : bool }.

(** Whether the [ttl] of the response has elapsed at the instant [now]:
    it is set and does not lie after [now]. *)
Definition elapsed (now : Time) (r : Response) : bool :=
  match ttl r with
  | Some t => t <=? now
  | None => false
  end.

Definition flag (stale : bool) (r : Response) : Response :=
  if stale then withRevalidate true r else r.

(** The zero value of [Response]. *)
Definition Response0 : Response := mkResponse None None "" None None "" false.

Section Program.
Context (E : Env).

(** [resp.Header], a field of the embedded [*http.Response]. *)
Definition respHeader (resp : loc) : M Header :=
  r ← deref responses resp;
  match httpResponse r with
  | Some h => mret (Header_ h)
  | None => panic
  end.

(** [req.Header.Set(key, value)] on the map at [h]. *)
Definition Header_Set (h : loc) (key value : string) : M unit :=
  update headerMaps setHeaderMaps h (fun m => Set_ m key value).

Definition setTTL (resp : loc) : M bool :=
  let now := now E in
  h ← respHeader resp;
  let cacheControl := FindStringSubmatch maxAge (Get h "Cache-Control") in
  if (1 <? length cacheControl)%nat then
    match Atoi (nth 1 cacheControl "") with
    | None => mret false
    | Some ttl =>
        if 0 <? ttl then
          let t := Add now (Seconds ttl) in
          update responses setResponses resp (withTTL t);; mret true
        else mret false
    end
  else
    match Parse httpDateFormat (Get h "Expires") with
    | inl _ => mret false
    | inr expires =>
        if 0 <? Sub expires now then
          update responses setResponses resp (withTTL expires);; mret true
        else mret false
    end.

Definition setLastModified (resp : loc) : M bool :=
  h ← respHeader resp;
  match Parse httpDateFormat (Get h "Last-Modified") with
  | inl _ => mret false
  | inr lastModified =>
      update responses setResponses resp (withLastModified lastModified);;
      mret true
  end.

Definition setETag (resp : loc) : M bool :=
  h ← respHeader resp;
  update responses setResponses resp (withETag (Get h "ETag"));;
  r ← deref responses resp;
  if negb (String.eqb (etag r) "") then mret true else mret false.

Definition getMaxIdle (rb : RequestBuilder) : Z :=
  if 0 <? MaxIdleConnsPerHost rb then MaxIdleConnsPerHost rb
  else DefaultMaxIdleConnsPerHost.

Definition getTimeout (rb : RequestBuilder) : Duration :=
  if DisableTimeout rb then 0
  else if 0 <? Timeout rb then Timeout rb
  else DefaultTimeout E.

(** [rb.getClientCache()]: the client cache of the builder, created at
    its first use.  The check and the creation are one step under the
    lock of the builder. *)
Definition getClientCache (rb : loc) : M unit :=
  b ← deref builders rb;
  match clientCache b with
  | Some _ => mret tt
  | None => update builders setBuilders rb (withClientCache ∅)
  end.

Definition clientCache_get (rb : loc) (key : string) : M (option any) :=
  b ← deref builders rb;
  match clientCache b with
  | Some m => mret (syncMap_get m key)
  | None => panic
  end.

Definition clientCache_setNX (rb : loc) (key : string) (v : any) : M bool :=
  b ← deref builders rb;
  match clientCache b with
  | Some m =>
      let '(m', set) := syncMap_setNX m key v in
      update builders setBuilders rb (withClientCache m');; mret set
  | None => panic
  end.

Definition transportCache_get (key : string) : M (option any) :=
  gets (fun s => syncMap_get (transportCache s) key).

Definition transportCache_setNX (key : string) (v : any) : M bool :=
  m ← gets transportCache;
  let '(m', set) := syncMap_setNX m key v in
  modify (setTransportCache (fun _ => m'));; mret set.

(** Modelled from the spec: the operations [get] and [setNX] of the
    Resource Cache, which are not in [net.go].  [get] returns the stored
    entry of the URL if there is one, flagged for revalidation if its
    [ttl] has elapsed at the instant of the call; it deletes nothing and
    writes to no response.  [setNX] stores the response only if the URL
    has no entry. *)
Definition resourceCache_get (key : string) : M (option Hit) :=
  modify (emit (EvCacheGet key));;
  gets (fun s =>
          match resourceCache s !! key with
          | Some q =>
              Some (mkHit q match responses s !! q with
                            | Some r => elapsed (now E) r
                            | None => false
                            end)
          | None => None
          end).

(** The [Response] behind a pointer that [get] returned, where the
    program reads its fields ([cacheResp.revalidate], [cacheResp.etag],
    [cacheResp.lastModified]). *)
Definition held (h : Hit) : M Response :=
  r ← deref responses (hitAt h);
  mret (flag (hitStale h) r).

Definition resourceCache_setNX (key : string) (resp : loc) : M bool :=
  modify (emit (EvCacheSetNX key resp));;
  c ← gets resourceCache;
  match c !! key with
  | Some _ => mret false
  | None => modify (setResourceCache (fun _ => <[key := resp]> c));; mret true
  end.

Definition checkMockup (reqURL : string) : string * string * option Error :=
  let cacheURL := reqURL in
  if mockUpEnv E then
    match url_Parse E reqURL with
    | inl err => (reqURL, cacheURL, Some err)
    | inr rURL =>
        let rURL := mkURL (Scheme (mockServerURL E)) (Host (mockServerURL E))
                          (Rest rURL) in
        (url_String E rURL, cacheURL, None)
    end
  else (reqURL, cacheURL, None).

Definition marshalReqBody (rb : RequestBuilder) (body : option string)
  : M (Error + string) :=
  modify (emit EvMarshal);;
  match body with
  | Some v =>
      match ContentType rb with
      | JSON => mret (json_Marshal E v)
      | XML => mret (xml_Marshal E v)
      | ContentTypeOther => mret (inr "")
      end
  | None => mret (inr "")
  end.

(** [rb.connect(urlStr)].  The client and transport caches are shared
    with the other goroutines: [other n] is what they do to the state
    between the [n]-th access of this call to a cache and the next one. *)
Definition connect (other : nat -> State -> State) (rb : loc)
  (urlStr : string) : M (Error + loc) :=
  modify (emit (EvConnect urlStr));;
  getClientCache rb;;
  match url_Parse E urlStr with
  | inl err => mret (inl err)
  | inr parsedURL =>
      let schemeHost := Scheme parsedURL +:+ "://" +:+ Host parsedURL in
      modify (other 0%nat);;
      c ← clientCache_get rb schemeHost;
      match asClient c with
      | Some client => mret (inr client)
      | None =>
          b ← deref builders rb;
          modify (other 1%nat);;
          t ← transportCache_get schemeHost;
          tr ← match asTransport t with
               | Some tr => mret (Some tr)
               | None =>
                   tr ← new transports setTransports
                          (mkTransport (getMaxIdle b) None);
                   modify (other 2%nat);;
                   set ← transportCache_setNX schemeHost (AnyTransport tr);
                   if set : bool then mret (Some tr)
                   else
                     modify (other 3%nat);;
                     t' ← transportCache_get schemeHost;
                     mret (asTransport t')
               end;
          client ← new clients setClients (mkClient tr (getTimeout b));
          (if negb (String.eqb (Proxy b) "") then
             match url_Parse E (Proxy b) with
             | inr proxy =>
                 match tr with
                 | Some t => update transports setTransports t (withProxy proxy)
                 | None => panic
                 end
             | inl _ => mret tt
             end
           else mret tt);;
          modify (other 4%nat);;
          clientCache_setNX rb schemeHost (AnyClient client);;
          mret (inr client)
      end
  end.

(** The schedule of a call that no other goroutine interleaves with. *)
Definition alone : nat -> State -> State := fun _ s => s.

(** [http.NewRequest(method, url, body)]. *)
Definition NewRequest (method url : string) (body : string)
  : M (Error + Request) :=
  let method := if String.eqb method "" then MethodGet else method in
  if negb (validMethod method)
  then mret (inl (errInvalidMethod (strconv_Quote E method)))
  else
    match url_Parse E url with
    | inl err => mret (inl err)
    | inr _ =>
        h ← new headerMaps setHeaderMaps (∅ : Header);
        mret (inr (mkRequest method url h body))
    end.

(** [rb.setParams(client, req, cacheResp, cacheURL)].  [cacheResp] is
    [nil] or the pointer that [resourceCache.get] returned; its fields
    are read with [held]. *)
Definition setParams (rb : RequestBuilder) (client : loc) (req : Request)
  (cacheResp : option Hit) (cacheURL : string) : M Request :=
  Header_Set (Request_Header req) "Connection" "keep-alive";;
  Header_Set (Request_Header req) "Cache-Control" "no-cache";;
  (if mockUpEnv E
   then Header_Set (Request_Header req) "X-Original-URL" cacheURL
   else mret tt);;
  let req := match Headers rb with
             | Some h => withHeader h req
             | None => req
             end in
  let cType := match ContentType rb with
               | JSON => "json"
               | XML => "xml"
               | ContentTypeOther => ""
               end in
  Header_Set (Request_Header req) "Accept" ("application/" +:+ cType);;
  (if match_ (Request_Method req) contentVerbs
   then Header_Set (Request_Header req) "Content-Type" ("application/" +:+ cType)
   else mret tt);;
  match cacheResp with
  | Some hit =>
      c ← held hit;
      if revalidate c then
        if negb (String.eqb (etag c) "")
        then Header_Set (Request_Header req) "If-None-Match" (etag c)
        else
          match lastModified c with
          | Some t =>
              Header_Set (Request_Header req) "If-Modified-Since"
                         (Format t httpDateFormat)
          | None => mret tt
          end
      else mret tt
  | None => mret tt
  end;;
  mret req.

(** [client.Do(request)] and [ioutil.ReadAll(httpResp.Body)]. *)
Definition Do (client : loc) (req : Request) : M (Error + HttpResponse) :=
  h ← deref headerMaps (Request_Header req);
  modify (emit (EvSend client req h));;
  mret (client_Do E).

(** [response.Err = err; return]. *)
Definition fail (response : loc) (err : Error) : M (option loc) :=
  update responses setResponses response (withErr err);;
  mret (Some response).

(** The stages of [doRequest] between the cache check and the answer
    of the server: the body is encoded, a client is obtained, the request
    is built, its headers are set, and it is sent.  The result is the
    error that ends the call, or the key of the cache, the answer of the
    server and its body. *)
Definition send (rb : loc) (b : RequestBuilder) (verb reqURL : string)
  (reqBody : option string) (cacheResp : option Hit)
  : M (Error + (string * HttpResponse * string)) :=
  body ← marshalReqBody b reqBody;
  match body with
  | inl err => mret (inl err)
  | inr body =>
      match checkMockup reqURL with
      | (_, _, Some err) => mret (inl err)
      | (reqURL, cacheURL, None) =>
          client ← connect alone rb reqURL;
          match client with
          | inl err => mret (inl err)
          | inr client =>
              request ← NewRequest verb reqURL body;
              match request with
              | inl err => mret (inl err)
              | inr request =>
                  request ← setParams b client request cacheResp cacheURL;
                  httpResp ← Do client request;
                  match httpResp with
                  | inl err => mret (inl err)
                  | inr httpResp =>
                      match Body httpResp with
                      | inl err => mret (inl err)
                      | inr respBody => mret (inr (cacheURL, httpResp, respBody))
                      end
                  end
              end
          end
      end
  end.

(** The last stages of [doRequest], once the answer of the server was
    read: the 304 short-circuit, then the freshness of the new response
    and its storage. *)
Definition settle (b : RequestBuilder) (verb : string) (response : loc)
  (cacheResp : option Hit) (cacheURL : string) (httpResp : HttpResponse)
  (respBody : string) : M (option loc) :=
  if StatusCode httpResp =? StatusNotModified then mret (hitAt <$> cacheResp)
  else
    update responses setResponses response
           (withHttpResponse httpResp respBody);;
    ttl ← setTTL response;
    lastModified ← setLastModified response;
    etag ← setETag response;
    (if negb ttl && (lastModified || etag)
     then update responses setResponses response (withRevalidate true)
     else mret tt);;
    (if negb (DisableCache b) && match_ verb readVerbs
        && (ttl || lastModified || etag)
     then resourceCache_setNX cacheURL response;; mret tt
     else mret tt);;
    mret (Some response).

(** [doRequest] after the cache check, when the Resource Cache did not
    settle the request. *)
Definition exchange (rb : loc) (b : RequestBuilder) (verb reqURL : string)
  (reqBody : option string) (response : loc) (cacheResp : option Hit)
  : M (option loc) :=
  r ← send rb b verb reqURL reqBody cacheResp;
  match r with
  | inl err => fail response err
  | inr (cacheURL, httpResp, respBody) =>
      settle b verb response cacheResp cacheURL httpResp respBody
  end.

(** [rb.doRequest(verb, reqURL, reqBody)].  The result is the address
    of the [Response] that the call returns: of the new [Response], or of
    the stored entry that [resourceCache.get] returned. *)
Definition doRequest (rb : loc) (verb reqURL : string)
  (reqBody : option string) : M (option loc) :=
  b ← deref builders rb;
  response ← new responses setResponses Response0;
  let reqURL := BaseURL b +:+ reqURL in
  if negb (DisableCache b) && match_ verb readVerbs then
    cacheResp ← resourceCache_get reqURL;
    match cacheResp with
    | Some hit =>
        c ← held hit;
        if negb (revalidate c) then mret (Some (hitAt hit))
        else exchange rb b verb reqURL reqBody response cacheResp
    | None => exchange rb b verb reqURL reqBody response None
    end
  else exchange rb b verb reqURL reqBody response None.

End Program.

(** *** What the freshness evaluator derives from the headers *)

Definition isSet {A : Type} (o : option A) : bool :=
  match o with Some _ => true | None => false end.

(** The expiry instant that [setTTL] derives at the instant [now]. *)
Definition ttlOf (now : Time) (h : Header) : option Time :=
  match FindStringSubmatch maxAge (Get h "Cache-Control") with
  | _ :: digits :: _ =>
      match Atoi digits with
      | Some n => if 0 <? n then Some (Add now (Seconds n)) else None
      | None => None
      end
  | _ =>
      match Parse httpDateFormat (Get h "Expires") with
      | inr expires => if now <? expires then Some expires else None
      | inl _ => None
      end
  end.

(** The instant that [setLastModified] derives. *)
Definition lastModifiedOf (h : Header) : option Time :=
  match Parse httpDateFormat (Get h "Last-Modified") with
  | inr t => Some t
  | inl _ => None
  end.

Definition withTTL' (t : option Time) (r : Response) : Response :=
  match t with Some t => withTTL t r | None => r end.

Definition withLastModified' (t : option Time) (r : Response) : Response :=
  match t with Some t => withLastModified t r | None => r end.

(** The [Response] that [doRequest] builds from the answer [hr] of the
    server, read at the instant [now], when the status is not 304. *)
Definition stored (now : Time) (hr : HttpResponse) (body : string) : Response :=
  let h := Header_ hr in
  let ttl := ttlOf now h in
  let lm := lastModifiedOf h in
  let tag := Get h "ETag" in
  mkResponse (Some hr) None body ttl lm tag
             (negb (isSet ttl) && (isSet lm || negb (String.eqb tag ""))).

(** Whether [doRequest] offers the response [r] to the Resource Cache. *)
Definition cacheable (b : RequestBuilder) (verb : string) (r : Response) : bool :=
  negb (DisableCache b) && match_ verb readVerbs
  && (isSet (ttl r) || isSet (lastModified r) || negb (String.eqb (etag r) "")).

(** *** What [setParams] writes into a header map *)

(** The default headers. *)
Definition defaults (E : Env) (cacheURL : string) (m : Header) : Header :=
  let m := Set_ (Set_ m "Connection" "keep-alive") "Cache-Control" "no-cache" in
  if mockUpEnv E then Set_ m "X-Original-URL" cacheURL else m.

Definition cTypeOf (b : RequestBuilder) : string :=
  match ContentType b with
  | JSON => "json"
  | XML => "xml"
  | ContentTypeOther => ""
  end.

(** The headers of the content negotiation. *)
Definition negotiated (b : RequestBuilder) (method : string) (m : Header)
  : Header :=
  let m := Set_ m "Accept" ("application/" +:+ cTypeOf b) in
  if match_ method contentVerbs
  then Set_ m "Content-Type" ("application/" +:+ cTypeOf b)
  else m.

(** The conditional header, for the cached response [c] if there is
    one. *)
Definition conditional (c : option Response) (m : Header) : Header :=
  match c with
  | Some c =>
      if revalidate c then
        if negb (String.eqb (etag c) "") then Set_ m "If-None-Match" (etag c)
        else
          match lastModified c with
          | Some t => Set_ m "If-Modified-Since" (Format t httpDateFormat)
          | None => m
          end
      else m
  | None => m
  end.

(** The cached response behind the pointer [cacheResp], which is [nil]
    or a pointer that [get] returned: the response that [held] reads. *)
Definition cachedAt (s : State) (cacheResp : option Hit)
  : option (option Response) :=
  match cacheResp with
  | Some h => (fun r => Some (flag (hitStale h) r)) <$> responses s !! hitAt h
  | None => Some None
  end.

(** The statement that the request carries every custom header of the
    builder with the value that the builder gives to it. *)
Definition customHeadersCarried (E : Env) (b : RequestBuilder) (client : loc)
  (req : Request) (cacheResp : option Hit) (cacheURL : string) (s : State)
  : Prop :=
  forall l custom req' s' sent,
    Headers b = Some l ->
    headerMaps s !! l = Some custom ->
    setParams E b client req cacheResp cacheURL s = Done req' s' ->
    headerMaps s' !! Request_Header req' = Some sent ->
    forall k v, custom !! k = Some v -> sent !! k = Some v.

(** The statement that a call of [connect] leaves the [Proxy] of the
    transport that the transport cache holds for the origin as it is. *)
Definition cachedTransportProxyKept (E : Env) (rb : loc) (urlStr : string)
  (s : State) : Prop :=
  forall u t tr x s',
    url_Parse E urlStr = inr u ->
    transportCache s !! (Scheme u +:+ "://" +:+ Host u) = Some (AnyTransport t) ->
    transports s !! t = Some tr ->
    connect E alone rb urlStr s = Done x s' ->
    exists tr', transports s' !! t = Some tr'
                /\ Transport_Proxy tr' = Transport_Proxy tr.

(** The client that the client cache of the builder [b] holds for the
    key, if it holds one. *)
Definition cachedClient (b : RequestBuilder) (key : string) : option loc :=
  asClient (clientCache b ≫= fun m => m !! key).

(** *** Classes of events *)

Definition isCacheSet (e : Event) : bool :=
  match e with EvCacheSetNX _ _ => true | _ => false end.


Definition isSend (e : Event) : bool :=
  match e with EvSend _ _ _ => true | _ => false end.

Definition isCache (e : Event) : bool :=
  match e with EvCacheGet _ | EvCacheSetNX _ _ => true | _ => false end.

(** A computation from [s] to [s'] that leaves the responses and the
    Resource Cache as they are and adds the events [evs] to the trace. *)
Definition quiet (s s' : State) (evs : list Event) : Prop :=
  responses s' = responses s
  /\ resourceCache s' = resourceCache s
  /\ trace s' = trace s ++ evs.

(** Whether [doRequest] consults the Resource Cache, and the entry that
    the lookup gives. *)
Definition caching (b : RequestBuilder) (verb : string) : bool :=
  negb (DisableCache b) && match_ verb readVerbs.

Definition lookedUp (s : State) (b : RequestBuilder) (verb u : string)
  : option loc :=
  if caching b verb then resourceCache s !! (BaseURL b +:+ u) else None.

(** The pointer that the lookup gives as [get] returns it at the instant
    [now]: flagged if the [ttl] of the entry has elapsed. *)
Definition got (now : Time) (s : State) (b : RequestBuilder) (verb u : string)
  : option Hit :=
  (fun q => mkHit q match responses s !! q with
                    | Some r => elapsed now r
                    | None => false
                    end) <$> lookedUp s b verb u.

(** The state in which [doRequest] goes on after the cache check. *)
Definition checked (s : State) (b : RequestBuilder) (verb u : string) : State :=
  let s0 := setResponses (fun l => l ++ [Response0]) s in
  if caching b verb then emit (EvCacheGet (BaseURL b +:+ u)) s0 else s0.


(** What [doRequest] reads from the server once its request is sent. *)
Definition answered (E : Env) : Error + (HttpResponse * string) :=
  match client_Do E with
  | inl err => inl err
  | inr hr =>
      match Body hr with
      | inl err => inl err
      | inr body => inr (hr, body)
      end
  end.

(** The three ways [doRequest] ends once the Resource Cache did not
    settle the request, from the state [s] with the new response at [p]
    to the state [s'], with the result [res] and the events [evs] of the
    stages before the answer of the server: with an error; with the
    cached response, after a 304; with the new response. *)
Definition ended (E : Env) (b : RequestBuilder) (verb u : string) (p : loc)
  (cacheResp : option loc) (s s' : State) (res : option loc)
  (evs : list Event) : Prop :=
  (exists err,
      res = Some p
      /\ responses s' = <[p := withErr err Response0]> (responses s)
      /\ resourceCache s' = resourceCache s
      /\ trace s' = trace s ++ evs
      /\ (existsb isSend evs = false \/ answered E = inl err))
  \/ (exists hr respBody,
        answered E = inr (hr, respBody)
        /\ StatusCode hr = StatusNotModified
        /\ existsb isSend evs = true
        /\ res = cacheResp
        /\ responses s' = responses s
        /\ resourceCache s' = resourceCache s
        /\ trace s' = trace s ++ evs)
  \/ (exists hr respBody,
        answered E = inr (hr, respBody)
        /\ StatusCode hr <> StatusNotModified
        /\ existsb isSend evs = true
        /\ res = Some p
        /\ responses s' = <[p := stored (now E) hr respBody]> (responses s)
        /\ (if cacheable b verb (stored (now E) hr respBody)
            then trace s' = trace s ++ evs ++ [EvCacheSetNX u p]
                 /\ resourceCache s'
                    = match resourceCache s !! u with
                      | Some _ => resourceCache s
                      | None => <[u := p]> (resourceCache s)
                      end
            else trace s' = trace s ++ evs
                 /\ resourceCache s' = resourceCache s)).


(** *** Well-formed states

    The addresses that the caches and the builders hold are addresses of
    their stores, the transport cache holds transports and the client
    caches hold clients. *)

Definition validTransports (s : State) : Prop :=
  forall k v, transportCache s !! k = Some v ->
    exists t, v = AnyTransport t /\ (t < length (transports s))%nat.

Definition validClients (s : State) : Prop :=
  forall i b m k v,
    builders s !! i = Some b -> clientCache b = Some m -> m !! k = Some v ->
    exists c, v = AnyClient c /\ (c < length (clients s))%nat.

Definition validHeaders (s : State) : Prop :=
  forall i b l,
    builders s !! i = Some b -> Headers b = Some l ->
    (l < length (headerMaps s))%nat.

Definition validCache (s : State) : Prop :=
  forall k q, resourceCache s !! k = Some q -> (q < length (responses s))%nat.

Definition wellFormed (s : State) : Prop :=
  validTransports s /\ validClients s /\ validHeaders s /\ validCache s.

(** The same conditions as a test. *)
Definition holdsTransport (n : nat) (kv : string * any) : bool :=
  match kv.2 with AnyTransport t => (t <? n)%nat | AnyClient _ => false end.

Definition holdsClient (n : nat) (kv : string * any) : bool :=
  match kv.2 with AnyClient c => (c <? n)%nat | AnyTransport _ => false end.

Definition wellFormedb (s : State) : bool :=
  forallb (holdsTransport (length (transports s)))
    (map_to_list (transportCache s))
  && forallb (fun b => match clientCache b with
                       | Some m => forallb (holdsClient (length (clients s)))
                                     (map_to_list m)
                       | None => true
                       end) (builders s)
  && forallb (fun b => match Headers b with
                       | Some l => (l <? length (headerMaps s))%nat
                       | None => true
                       end) (builders s)
  && forallb (fun kq : string * loc => (kq.2 <? length (responses s))%nat)
       (map_to_list (resourceCache s)).

(** The states that a call of [doRequest] of the builder at [rb], read
    as [b] at the start of the call, goes through before the answer of
    the server is stored: a well-formed state whose responses are [R],
    where the builder is still there and the custom headers of [b] are
    a map of the store. *)
Definition running (b : RequestBuilder) (rb : loc) (R : list Response)
  (s : State) : Prop :=
  wellFormed s
  /\ responses s = R
  /\ (exists b', builders s !! rb = Some b')
  /\ (forall l, Headers b = Some l -> (l < length (headerMaps s))%nat).

(** *** The request that [doRequest] sends *)

(** The body that [marshalReqBody] returns. *)
Definition encoded (E : Env) (b : RequestBuilder) (body : option string)
  : Error + string :=
  match body with
  | Some v =>
      match ContentType b with
      | JSON => json_Marshal E v
      | XML => xml_Marshal E v
      | ContentTypeOther => inr ""
      end
  | None => inr ""
  end.

(** The stages of [doRequest] before [setParams], in their order: the
    error of the first of them that fails (the encoding of the body, the
    URL of the test mode, the URL that [connect] parses, the method that
    [http.NewRequest] checks), or the method, the URL, the key of the
    cache and the body of the request. *)
Definition prepared (E : Env) (b : RequestBuilder) (verb url : string)
  (body : option string) : Error + (string * string * string * string) :=
  match encoded E b body with
  | inl err => inl err
  | inr body' =>
      match checkMockup E url with
      | (_, _, Some err) => inl err
      | (url', cacheURL, None) =>
          match url_Parse E url' with
          | inl err => inl err
          | inr _ =>
              let method := if String.eqb verb "" then MethodGet else verb in
              if negb (validMethod method)
              then inl (errInvalidMethod (strconv_Quote E method))
              else inr (method, url', cacheURL, body')
          end
      end
  end.

(** The header map that the request carries when it is sent from the
    state [s]: the map of the builder if it has custom headers, and
    otherwise the new map of the request; and what this map holds, for
    the cached response [c] if there is one. *)
Definition sentAt (b : RequestBuilder) (s : State) : loc :=
  match Headers b with
  | Some l => l
  | None => length (headerMaps s)
  end.

Definition sentHeaders (E : Env) (b : RequestBuilder) (s : State)
  (method cacheURL : string) (c : option Response) : option Header :=
  match Headers b with
  | Some l =>
      (fun custom => conditional c (negotiated b method custom))
        <$> headerMaps s !! l
  | None => Some (conditional c (negotiated b method (defaults E cacheURL ∅)))
  end.

(** Two states that differ at most by their responses. *)
Definition sameButResponses (s s' : State) : Prop :=
  builders s' = builders s /\ headerMaps s' = headerMaps s
  /\ transports s' = transports s /\ clients s' = clients s
  /\ resourceCache s' = resourceCache s
  /\ transportCache s' = transportCache s /\ trace s' = trace s.

(** Two responses that differ at most by the fields that the freshness
    evaluator derives. *)
Definition sameExchange (r r' : Response) : Prop :=
  httpResponse r' = httpResponse r /\ Err r' = Err r
  /\ byteBody r' = byteBody r /\ revalidate r' = revalidate r.

(** The key of the client and transport caches for a URL. *)
Definition originOf (u : URL) : string := Scheme u +:+ "://" +:+ Host u.

(** The configuration of a builder: all of its fields but the client
    cache. *)
Definition sameConfig (b b' : RequestBuilder) : Prop :=
  BaseURL b' = BaseURL b /\ ContentType b' = ContentType b
  /\ Headers b' = Headers b /\ Timeout b' = Timeout b
  /\ DisableTimeout b' = DisableTimeout b
  /\ MaxIdleConnsPerHost b' = MaxIdleConnsPerHost b
  /\ Proxy b' = Proxy b /\ DisableCache b' = DisableCache b.

End Rest.

(** ** Concrete environments and states *)

Module Examples.
Import Bytes GoTime Regexp Strconv Http Rest.

(** The text before and after the first occurrence of [sep] in [s]. *)
Fixpoint cut (sep s : string) : option (string * string) :=
  match stripPrefix sep s with
  | Some rest => Some (EmptyString, rest)
  | None =>
      match s with
      | String c s' =>
          match cut sep s' with
          | Some (before, after) => Some (String c before, after)
          | None => None
          end
      | EmptyString => None
      end
  end.

(** A parser of URLs of the form [scheme://host/rest]. *)
Definition parseURL (s : string) : Error + URL :=
  match cut "://" s with
  | Some (scheme, rest) =>
      match cut "/" rest with
      | Some (host, path) => inr (mkURL scheme host ("/" +:+ path))
      | None => inr (mkURL scheme rest "")
      end
  | None => inl "parse: missing protocol scheme"
  end.

Definition printURL (u : URL) : string :=
  Scheme u +:+ "://" +:+ Host u +:+ Rest u.

(** [strconv.Quote] for ASCII text: the text between double quotes,
    where a double quote and a backslash are written after a backslash,
    the control characters with their letter ([\a], [\b], [\f], [\n],
    [\r], [\t], [\v]) or as [\x] and two hexadecimal digits, and the other
    characters as they are.  A byte above 127 is written as [\x] and two
    digits too, as [Quote] does for a byte that is not part of a
    character in UTF-8. *)
Definition hexDigit (n : Z) : ascii :=
  nth (Z.to_nat n) (list_ascii_of_string "0123456789abcdef") "0"%char.

Definition quoteByte (c : ascii) : string :=
  let n := code c in
  let esc (l : ascii) := String "092"%char (String l EmptyString) in
  if (n =? 34) || (n =? 92) then esc c
  else if (32 <=? n) && (n <? 127) then String c EmptyString
  else if n =? 7 then esc "a"%char
  else if n =? 8 then esc "b"%char
  else if n =? 12 then esc "f"%char
  else if n =? 10 then esc "n"%char
  else if n =? 13 then esc "r"%char
  else if n =? 9 then esc "t"%char
  else if n =? 11 then esc "v"%char
  else String "092"%char
         (String "x"%char
            (String (hexDigit (n / 16)) (String (hexDigit (n mod 16)) EmptyString))).

Definition quote (s : string) : string :=
  String "034"%char
    (String.concat "" (map quoteByte (list_ascii_of_string s))
     +:+ String "034"%char EmptyString).

(** An environment outside of the test mode, at the instant [t], where
    the server answers [answer]. *)
Definition env (t : Time) (answer : Error + HttpResponse) : Env :=
  mkEnv t false (mkURL "http" "localhost:8080" "") 500000000 parseURL printURL
        quote
        (fun v => inr v) (fun v => inr v) answer.

(** 2020-01-01 00:00:00 UTC. *)
Definition t2020 : Time := Date 2020 1 1 0 0 0 0.

Definition answer (status : Z) (hdr : list (string * string)) (body : string)
  : Error + HttpResponse :=
  inr (mkHttpResponse status
         (list_to_map (prod_map id (fun v => [v]) <$> hdr)) (inr body)).

(** A builder for [http://api.example.com] with the default options. *)
Definition builder (headers : option loc) (proxy : string) : RequestBuilder :=
  mkRequestBuilder "http://api.example.com" JSON headers 0 false 0 proxy
                   false None.

(** A process with the builders [bs] and the header maps [hs], where
    nothing was cached yet. *)
Definition start (bs : list RequestBuilder) (hs : list Header) : State :=
  mkState bs [] hs [] [] ∅ ∅ [].

(** A response as it is received, with the headers [hdr]. *)
Definition received (hdr : list (string * string)) : Response :=
  match answer 200 hdr "" with
  | inr hr => withHttpResponse hr "" Response0
  | inl _ => Response0
  end.

(** A process that holds the responses [rs] and nothing else. *)
Definition holding (rs : list Response) : State :=
  mkState [] rs [] [] [] ∅ ∅ [].

(** A response with a [Last-Modified] and an [Expires] date on the 31st
    of a month; a response with an entity tag as it is received, and
    once [setETag] has read the tag. *)
Definition late : State :=
  holding [received [("Last-Modified", "Wed, 31 Dec 2025 23:59:59 GMT");
                     ("Expires", "Wed, 31 Dec 2025 23:59:59 GMT")]].
Definition unread : State := holding [received [("Etag", "abc")]].
Definition read : State :=
  holding [withETag "abc" (received [("Etag", "abc")])].

(** The state after a computation, or the state it started from when it
    panics. *)
Definition after {A : Type} (m : M A) (s : State) : State :=
  match m s with
  | Done _ s' => s'
  | Panic => s
  end.

(** The builder at the address 0. *)
Definition builder0 (s : State) : RequestBuilder :=
  default (builder None "") (builders s !! 0%nat).

(** The events that a computation adds to the trace. *)
Definition events {A : Type} (m : M A) (s : State) : list Event :=
  skipn (length (trace s)) (trace (after m s)).

(** A first request [GET /a] of a builder without custom headers,
    answered with an entity tag and no expiry. *)
Definition tagged : Env := env t2020 (answer 200 [("Etag", "abc")] "hello").
Definition hrTagged : HttpResponse :=
  mkHttpResponse 200 {["Etag" := ["abc"]]} (inr "hello").
Definition s0 : State := start [builder None ""] [].
Definition s1 : State := after (doRequest tagged 0%nat "GET" "/a" None) s0.

(** The same request again, answered with 304. *)
Definition notModified : Env := env t2020 (answer 304 [] "").
Definition hr304 : HttpResponse := mkHttpResponse 304 ∅ (inr "").
Definition s2 : State := after (doRequest notModified 0%nat "GET" "/a" None) s1.

(** A request [GET /b], for which nothing is cached, answered with 304. *)
Definition s3 : State := after (doRequest notModified 0%nat "GET" "/b" None) s1.

(** A first request answered with [Cache-Control: max-age=60], and the
    state after it. *)
Definition aged : Env :=
  env t2020 (answer 200 [("Cache-Control", "max-age=60")] "hello").
Definition s4 : State := after (doRequest aged 0%nat "GET" "/a" None) s0.


(** The headers of the last request that was sent. *)
Definition lastSent (s : State) : option Header :=
  last (omap (fun e => match e with
                       | EvSend _ _ h => Some h
                       | _ => None
                       end) (trace s)).

(** A builder whose custom headers are the map at the address 0, and a
    request as [http.NewRequest] makes it, with its own map at the
    address 1. *)
Definition customBuilder : RequestBuilder := builder (Some 0%nat) "".
Definition getA : Request := mkRequest "GET" "http://api.example.com/a" 1%nat "".
Definition plain : State :=
  start [customBuilder]
        [{["Accept" := ["text/plain"]; "X-Auth" := ["token"]]}; ∅].
Definition injected : State :=
  after (setParams tagged customBuilder 0%nat getA None
           "http://api.example.com/a") plain.

(** Five requests of a builder whose custom headers are [X-Auth: token]:
    [/a] is answered with a [Last-Modified] date and [/b] with an entity
    tag; both are asked again and answered with 304; then [/c], for which
    nothing is cached, is asked. *)
Definition dated : Env :=
  env t2020 (answer 200 [("Last-Modified", "Sun, 06 Nov 1994 08:49:37 GMT")] "a").
Definition c0 : State := start [customBuilder] [{["X-Auth" := ["token"]]}].
Definition c1 : State := after (doRequest dated 0%nat "GET" "/a" None) c0.
Definition c2 : State := after (doRequest tagged 0%nat "GET" "/b" None) c1.
Definition c3 : State := after (doRequest notModified 0%nat "GET" "/a" None) c2.
Definition c4 : State := after (doRequest notModified 0%nat "GET" "/b" None) c3.
Definition c5 : State := after (doRequest notModified 0%nat "GET" "/c" None) c4.

(** Two builders with different proxies, and the state after the first
    one connected to [http://api.example.com]. *)
Definition proxies : State :=
  start [builder None "http://proxy-a:3128"; builder None "http://proxy-b:3128"]
        [].
Definition origin : string := "http://api.example.com/a".
Definition proxied : State := after (connect tagged alone 0%nat origin) proxies.

(** A schedule where, at the point [k] of this call, another goroutine
    runs a whole call of [connect] for the same builder and the same
    URL.  At the point 1 this call has looked up the client cache; at
    the point 2 it has also created its transport. *)
Definition overtaken (k : nat) (rb : loc) (urlStr : string)
  : nat -> State -> State :=
  fun n s => if Nat.eqb n k then after (connect tagged alone rb urlStr) s else s.

(** The value that a computation returns, if it does not panic. *)
Definition result {A : Type} (m : M A) (s : State) : option A :=
  match m s with
  | Done a _ => Some a
  | Panic => None
  end.

End Examples.

(** ** Properties of the standard library model *)

Module GoFacts.
Import Bytes GoTime Regexp Strconv Http.

Lemma wrap_in_range (z : Z) : Int64.inRange z = true -> Int64.wrap z = z.
Proof.
  unfold Int64.inRange, Int64.wrap, Int64.min, Int64.max.
  intros H. apply andb_true_iff in H as [H1 H2].
  apply Z.leb_le in H1, H2.
  rewrite Z.mod_small; lia.
Qed.

(** A positive number of seconds is a [Duration] of that many seconds as
    long as the count of nanoseconds fits in 64 bits. *)
Lemma Seconds_small (n : Z) :
  0 <= n <= 9223372036 -> Seconds n = n * Second.
Proof.
  intros H. unfold Seconds. apply wrap_in_range.
  unfold Int64.inRange, Int64.min, Int64.max, Second.
  apply andb_true_iff. split; apply Z.leb_le; lia.
Qed.

(** [t.Sub(u) > 0] exactly when [t] is after [u]. *)
Lemma Sub_pos (t u : Time) : (0 <? Sub t u) = (u <? t).
Proof.
  unfold Sub, Int64.min, Int64.max.
  destruct (Z.ltb_spec (t - u) (- 2 ^ 63)) as [H1 | H1];
    [ | destruct (Z.ltb_spec (2 ^ 63 - 1) (t - u)) as [H2 | H2] ];
    destruct (Z.ltb_spec u t) as [H3 | H3];
    first [ apply Z.ltb_lt; lia | apply Z.ltb_ge; lia ].
Qed.

Lemma digit_not_space (c : ascii) : isDigitChar c = true -> isSpace c = false.
Proof.
  intros H. unfold isSpace. destruct (Ascii.eqb_spec c " ") as [-> | ];
    [ discriminate H | reflexivity ].
Qed.

Lemma getnum_two (c1 c2 : ascii) (rest : string) (fixed : bool) :
  isDigitChar c1 = true -> isDigitChar c2 = true ->
  getnum (String c1 (String c2 rest)) fixed
  = Some (digitVal c1 * 10 + digitVal c2, rest).
Proof. intros H1 H2. unfold getnum. rewrite H1, H2. reflexivity. Qed.

(** One turn of the loop of [parse], when the element is read and when
    it is refused. *)
Lemma parseLoop_next (fuel : nat) (layout value : string) (f : fields)
  (prefix suffix value1 value2 : string) (k : std) (f' : fields) :
  nextStdChunk layout = (prefix, k, suffix) ->
  k <> stdNone ->
  skip value prefix = Some value1 ->
  parseElem k suffix value1 f = inr (f', value2) ->
  parseLoop (S fuel) layout value f = parseLoop fuel suffix value2 f'.
Proof.
  intros Hc Hk Hs He. cbn [parseLoop]. rewrite Hc, Hs, He.
  destruct k; congruence.
Qed.

Lemma parseLoop_stop (fuel : nat) (layout value : string) (f : fields)
  (prefix suffix value1 : string) (k : std) (e : ParseError) :
  nextStdChunk layout = (prefix, k, suffix) ->
  k <> stdNone ->
  skip value prefix = Some value1 ->
  parseElem k suffix value1 f = inl e ->
  parseLoop (S fuel) layout value f = inl e.
Proof.
  intros Hc Hk Hs He. cbn [parseLoop]. rewrite Hc, Hs, He.
  destruct k; congruence.
Qed.

(** The dates of RFC 7231 carry the day of the month where
    [httpDateFormat] has [01], the month as a number: a date whose day is
    after the 12th is refused, whatever follows the day. *)
Lemma Parse_zero_month_day_above_12 (wd : string) (c1 c2 : ascii)
  (rest : string) :
  In wd shortDayNames ->
  isDigitChar c1 = true -> isDigitChar c2 = true ->
  12 < digitVal c1 * 10 + digitVal c2 ->
  Parse Rest.httpDateFormat (wd +:+ ", " +:+ String c1 (String c2 rest))
  = inl (errRange "month").
Proof.
  intros Hwd H1 H2 Hd.
  assert (Hr : ((digitVal c1 * 10 + digitVal c2 <? 1)
                || (12 <? digitVal c1 * 10 + digitVal c2)) = true).
  { apply orb_true_iff. right. apply Z.ltb_lt. exact Hd. }
  assert (Hloop : forall n,
             parseLoop (S (S n)) Rest.httpDateFormat
                       (wd +:+ ", " +:+ String c1 (String c2 rest)) fields0
             = inl (errRange "month")).
  { intros n.
    rewrite (parseLoop_next _ _ _ _ "" ", 01 Jan 2006 15:04:05 GMT"
               (wd +:+ ", " +:+ String c1 (String c2 rest))
               (", " +:+ String c1 (String c2 rest)) stdWeekDay fields0);
      [ | reflexivity | discriminate | reflexivity | ].
    - apply (parseLoop_stop _ _ _ _ ", " " Jan 2006 15:04:05 GMT"
               (String c1 (String c2 rest)) stdZeroMonth).
      + reflexivity.
      + discriminate.
      + pose proof (digit_not_space _ H1) as Hsp.
        unfold skip, isSpace in *. simpl. unfold isSpace. rewrite Hsp.
        reflexivity.
      + unfold parseElem. rewrite (getnum_two _ _ _ _ H1 H2), Hr. reflexivity.
    - simpl in Hwd.
      repeat (destruct Hwd as [<- | Hwd]); try reflexivity.
      contradiction. }
  unfold Parse. cbn [String.length Rest.httpDateFormat].
  rewrite Hloop. reflexivity.
Qed.

Lemma spanDigits_app (ds rest : string) :
  allBytes isDigitChar ds = true ->
  startsWithDigit rest = false ->
  spanDigits (ds +:+ rest) = (ds, rest).
Proof.
  intros Hd Hr. induction ds as [ | c ds IH]; simpl in *.
  - destruct rest as [ | c r]; [ reflexivity | ]. simpl in *.
    rewrite Hr. reflexivity.
  - apply andb_true_iff in Hd as [Hc Hd]. rewrite Hc, (IH Hd). reflexivity.
Qed.

Lemma length_append (p rest : string) :
  String.length (p +:+ rest) = (String.length p + String.length rest)%nat.
Proof. induction p as [ | c p IH]; simpl; [ | rewrite IH ]; reflexivity. Qed.

Lemma drop_append (p rest : string) :
  drop (String.length p) (p +:+ rest) = rest.
Proof. induction p as [ | c p IH]; simpl; [ reflexivity | exact IH ]. Qed.

Lemma take_append (p rest : string) :
  take (String.length (p +:+ rest) - String.length rest) (p +:+ rest) = p.
Proof.
  rewrite length_append, Nat.add_sub.
  induction p as [ | c p IH]; simpl; [ | rewrite IH ]; reflexivity.
Qed.

(** A [Cache-Control] value that starts with [max-age=] and a number:
    the match is at the start, and its group is the whole number. *)
Lemma FindStringSubmatch_max_age (d : ascii) (ds rest : string) :
  allBytes isDigitChar (String d ds) = true ->
  startsWithDigit rest = false ->
  FindStringSubmatch Rest.maxAge ("max-age=" +:+ String d ds +:+ rest)
  = ["max-age=" +:+ String d ds; String d ds].
Proof.
  intros Hd Hr.
  change ("max-age=" +:+ String d ds +:+ rest)
    with (("max-age=" +:+ String d ds) +:+ rest).
  set (whole := "max-age=" +:+ String d ds).
  assert (Hm : matchAt Rest.maxAge (whole +:+ rest) None
                       (fun s' cap => Some (s', cap))
               = Some (rest, Some (String d ds))).
  { unfold whole, Rest.maxAge.
    change (("max-age=" +:+ String d ds) +:+ rest)
      with ("max-age=" +:+ (String d ds +:+ rest)).
    cbn [matchAt].
    change (stripPrefix "max-age" ("max-age=" +:+ (String d ds +:+ rest)))
      with (Some ("=" +:+ (String d ds +:+ rest))).
    cbv beta iota.
    change (stripPrefix "=" ("=" +:+ (String d ds +:+ rest)))
      with (Some (String d ds +:+ rest)).
    cbv beta iota.
    rewrite (spanDigits_app _ _ Hd Hr). cbn [fst String.length longestFirst].
    change (S (String.length ds)) with (String.length (String d ds)).
    rewrite drop_append, take_append. reflexivity. }
  assert (Hw : whole +:+ rest
               = String "m" ("ax-age=" +:+ (String d ds +:+ rest)))
    by reflexivity.
  rewrite Hw at 1. cbn [FindStringSubmatch]. rewrite <- Hw, Hm.
  rewrite take_append. reflexivity.
Qed.

(** A match has two texts: the whole match and its group. *)
Lemma FindStringSubmatch_shape (r : re) (s : string) :
  FindStringSubmatch r s = [] \/
  exists whole group, FindStringSubmatch r s = [whole; group].
Proof.
  induction s as [ | c s IH]; cbn [FindStringSubmatch];
    destruct (matchAt r _ None _) as [[s' cap] | ]; eauto.
Qed.

End GoFacts.

(** ** Properties of [net.go] *)

Module RestFacts.
Import Bytes GoTime Regexp Strconv Http Rest Examples GoFacts.

Lemma bind_Done {A B : Type} (m : M A) (k : A -> M B) (s s'' : State) (b : B) :
  (m ≫= k) s = Done b s'' ->
  exists a s', m s = Done a s' /\ k a s' = Done b s''.
Proof.
  unfold mbind, M_bind, bind. destruct (m s) as [a s' | ]; [ | discriminate ].
  intros H. exists a, s'. split; [ reflexivity | exact H ].
Qed.

Lemma bind_eq {A B : Type} (m : M A) (k : A -> M B) (s s' : State) (a : A) :
  m s = Done a s' -> (m ≫= k) s = k a s'.
Proof. unfold mbind, M_bind, bind. intros ->. reflexivity. Qed.

Ltac unfold_monad :=
  repeat (progress
            (unfold mbind, M_bind, bind, mret, M_ret, ret, update, deref,
               modify, gets, panic in *;
             cbv beta in *)).

(** *** The freshness evaluator *)

Section Freshness.
Context (E : Env) (s : State) (p : loc) (r : Response) (hr : HttpResponse).
Hypothesis Hp : responses s !! p = Some r.
Hypothesis Hhr : httpResponse r = Some hr.

Lemma respHeader_eq : respHeader p s = Done (Header_ hr) s.
Proof. unfold respHeader. unfold_monad. rewrite Hp, Hhr. reflexivity. Qed.

(** A match of [maxAge] in [Cache-Control] settles the TTL by itself:
    the outcome is a function of the digits of the match, and [Expires]
    is not read. *)
Lemma setTTL_match (whole digits : string) :
  FindStringSubmatch maxAge (Get (Header_ hr) "Cache-Control")
  = [whole; digits] ->
  setTTL E p s =
  match Atoi digits with
  | Some n =>
      if 0 <? n
      then Done true
             (setResponses
                (fun l => <[p := withTTL (Add (now E) (Seconds n)) r]> l) s)
      else Done false s
  | None => Done false s
  end.
Proof.
  intros Hm. unfold setTTL.
  rewrite (bind_eq _ _ _ _ _ respHeader_eq). rewrite Hm.
  cbn [length Nat.ltb Nat.leb nth].
  destruct (Atoi digits) as [n | ]; [ | reflexivity ].
  destruct (0 <? n); [ | reflexivity ].
  unfold_monad. rewrite Hp. reflexivity.
Qed.

(** Without a match, the TTL is the instant of [Expires] when this
    header parses with [httpDateFormat] and lies after [now]. *)
Lemma setTTL_no_match :
  FindStringSubmatch maxAge (Get (Header_ hr) "Cache-Control") = [] ->
  setTTL E p s =
  match Parse httpDateFormat (Get (Header_ hr) "Expires") with
  | inr expires =>
      if now E <? expires
      then Done true (setResponses (fun l => <[p := withTTL expires r]> l) s)
      else Done false s
  | inl _ => Done false s
  end.
Proof.
  intros Hm. unfold setTTL.
  rewrite (bind_eq _ _ _ _ _ respHeader_eq). rewrite Hm.
  cbn [length Nat.ltb Nat.leb].
  destruct (Parse httpDateFormat _) as [e | t]; [ reflexivity | ].
  rewrite Sub_pos. destruct (now E <? t); [ | reflexivity ].
  unfold_monad. rewrite Hp. reflexivity.
Qed.

Lemma setLastModified_eq :
  setLastModified p s =
  match Parse httpDateFormat (Get (Header_ hr) "Last-Modified") with
  | inr t => Done true (setResponses (fun l => <[p := withLastModified t r]> l) s)
  | inl _ => Done false s
  end.
Proof.
  unfold setLastModified.
  rewrite (bind_eq _ _ _ _ _ respHeader_eq).
  destruct (Parse httpDateFormat _) as [e | t]; [ reflexivity | ].
  unfold_monad. rewrite Hp. reflexivity.
Qed.

Lemma setETag_eq :
  setETag p s =
  Done (negb (String.eqb (Get (Header_ hr) "ETag") ""))
       (setResponses
          (fun l => <[p := withETag (Get (Header_ hr) "ETag") r]> l) s).
Proof.
  unfold setETag.
  rewrite (bind_eq _ _ _ _ _ respHeader_eq).
  unfold_monad. rewrite Hp. simpl.
  rewrite list_lookup_insert_eq by (eapply lookup_lt_Some; exact Hp).
  simpl. destruct (String.eqb _ ""); reflexivity.
Qed.

(** The three functions, by what they derive from the headers. *)
Lemma store_same : setResponses (fun l => <[p := r]> l) s = s.
Proof.
  destruct s as [bs rs hs ts cs rc tc tr]. unfold setResponses. simpl in *.
  rewrite list_insert_id by exact Hp. reflexivity.
Qed.

Lemma setTTL_eq :
  setTTL E p s =
  Done (isSet (ttlOf (now E) (Header_ hr)))
       (setResponses
          (fun l => <[p := withTTL' (ttlOf (now E) (Header_ hr)) r]> l) s).
Proof.
  unfold ttlOf.
  destruct (FindStringSubmatch_shape maxAge (Get (Header_ hr) "Cache-Control"))
    as [Hm | (w & g & Hm)].
  - rewrite (setTTL_no_match Hm), Hm.
    destruct (Parse httpDateFormat _) as [e | t]; simpl;
      [ rewrite store_same; reflexivity | ].
    destruct (now E <? t); simpl; [ reflexivity | ].
    rewrite store_same; reflexivity.
  - rewrite (setTTL_match _ _ Hm), Hm.
    destruct (Atoi g) as [n | ]; simpl; [ | rewrite store_same; reflexivity ].
    destruct (0 <? n); simpl; [ reflexivity | ].
    rewrite store_same; reflexivity.
Qed.

Lemma setLastModified_eq' :
  setLastModified p s =
  Done (isSet (lastModifiedOf (Header_ hr)))
       (setResponses
          (fun l => <[p := withLastModified' (lastModifiedOf (Header_ hr)) r]> l)
          s).
Proof.
  rewrite setLastModified_eq. unfold lastModifiedOf.
  destruct (Parse httpDateFormat _) as [e | t]; simpl;
    [ rewrite store_same; reflexivity | reflexivity ].
Qed.

(** For a positive [max-age] of at most 9223372036 seconds, the TTL is
    [now] plus that many seconds, whatever [Expires] says. *)
Lemma setTTL_max_age_seconds (whole digits : string) (n : Z) :
  FindStringSubmatch maxAge (Get (Header_ hr) "Cache-Control")
  = [whole; digits] ->
  Atoi digits = Some n ->
  0 < n <= 9223372036 ->
  setTTL E p s =
  Done true
       (setResponses (fun l => <[p := withTTL (now E + n * Second) r]> l) s).
Proof.
  intros Hm Ha Hn. rewrite (setTTL_match _ _ Hm), Ha.
  replace (0 <? n) with true by (symmetry; apply Z.ltb_lt; lia).
  unfold Add. rewrite Seconds_small by lia. reflexivity.
Qed.

(** The same for a header [Cache-Control: max-age=N], whatever follows
    the number [N]. *)
Lemma setTTL_max_age_header (d : ascii) (ds rest : string) (n : Z) :
  Get (Header_ hr) "Cache-Control" = "max-age=" +:+ String d ds +:+ rest ->
  allBytes isDigitChar (String d ds) = true ->
  startsWithDigit rest = false ->
  Atoi (String d ds) = Some n ->
  0 < n <= 9223372036 ->
  setTTL E p s =
  Done true
       (setResponses (fun l => <[p := withTTL (now E + n * Second) r]> l) s).
Proof.
  intros Hcc Hd Hr Ha Hn.
  apply (setTTL_max_age_seconds ("max-age=" +:+ String d ds) (String d ds));
    [ | exact Ha | exact Hn ].
  rewrite Hcc. apply FindStringSubmatch_max_age; assumption.
Qed.

(** A match whose number is not positive, or does not fit in an [int],
    ends [setTTL] without a TTL, whatever [Expires] says. *)
Lemma setTTL_match_without_value (whole digits : string) :
  FindStringSubmatch maxAge (Get (Header_ hr) "Cache-Control")
  = [whole; digits] ->
  (Atoi digits = None \/ exists n, Atoi digits = Some n /\ n <= 0) ->
  setTTL E p s = Done false s.
Proof.
  intros Hm Ha. rewrite (setTTL_match _ _ Hm).
  destruct Ha as [-> | (n & -> & Hn)]; [ reflexivity | ].
  replace (0 <? n) with false by (symmetry; apply Z.ltb_ge; lia).
  reflexivity.
Qed.

End Freshness.

(** *** What the stages of [doRequest] leave unchanged *)

Ltac run_in H :=
  unfold_monad; repeat (case_match; simplify_eq; try discriminate).

Ltac ends_early Q :=
  eexists; split; [ apply Q | ];
  split; [ simpl; repeat constructor | ];
  left; split; [ reflexivity | eauto ].

Lemma quiet_refl (s : State) : quiet s s [].
Proof. unfold quiet. rewrite app_nil_r. auto. Qed.

Lemma quiet_trans (s1 s2 s3 : State) (e1 e2 : list Event) :
  quiet s1 s2 e1 -> quiet s2 s3 e2 -> quiet s1 s3 (e1 ++ e2).
Proof.
  unfold quiet. intros (H1 & H2 & H3) (H4 & H5 & H6).
  rewrite H4, H5, H6, H1, H2, H3, app_assoc. auto.
Qed.

Lemma marshalReqBody_quiet (E : Env) (b : RequestBuilder)
  (body : option string) (s s' : State) (x : Error + string) :
  marshalReqBody E b body s = Done x s' -> quiet s s' [EvMarshal].
Proof.
  unfold marshalReqBody. intros H. run_in H; unfold quiet; simpl; auto.
Qed.

Lemma connect_quiet (E : Env) (rb : loc) (u : string) (s s' : State)
  (x : Error + loc) :
  connect E alone rb u s = Done x s' -> quiet s s' [EvConnect u].
Proof.
  unfold connect, getClientCache, clientCache_get, clientCache_setNX,
    transportCache_get, transportCache_setNX, new, alone.
  intros H. run_in H; unfold quiet; simpl; auto.
Qed.

Lemma NewRequest_quiet (E : Env) (verb u body : string) (s s' : State)
  (x : Error + Request) :
  NewRequest E verb u body s = Done x s' -> quiet s s' [].
Proof.
  unfold NewRequest, new. intros H.
  run_in H; unfold quiet; simpl; rewrite ?app_nil_r; auto.
Qed.

Lemma Header_Set_quiet (h : loc) (k v : string) (s s' : State) (x : unit) :
  Header_Set h k v s = Done x s' -> quiet s s' [].
Proof.
  unfold Header_Set. intros H.
  run_in H; unfold quiet; simpl; rewrite ?app_nil_r; auto.
Qed.

Lemma setParams_quiet (E : Env) (b : RequestBuilder) (client : loc)
  (req : Request) (cacheResp : option Hit) (cacheURL : string)
  (s s' : State) (x : Request) :
  setParams E b client req cacheResp cacheURL s = Done x s' -> quiet s s' [].
Proof.
  unfold setParams, Header_Set, held. intros H.
  run_in H; unfold quiet; simpl; rewrite ?app_nil_r; auto.
Qed.

Lemma Do_quiet (E : Env) (client : loc) (req : Request) (s s' : State)
  (x : Error + HttpResponse) :
  Do E client req s = Done x s' ->
  x = client_Do E /\ exists h, quiet s s' [EvSend client req h].
Proof.
  unfold Do. intros H. run_in H. split; [ reflexivity | ].
  eexists. unfold quiet; simpl; auto.
Qed.

(** The stages up to the answer of the server touch neither the
    responses nor the Resource Cache.  If the call ends there with an
    error before it sent a request, nothing was sent; otherwise one
    request was sent and the result is what the server answered. *)
Lemma send_quiet (E : Env) (rb : loc) (b : RequestBuilder)
  (verb u : string) (body : option string) (cacheResp : option Hit)
  (s s' : State) (x : Error + (string * HttpResponse * string)) :
  send E rb b verb u body cacheResp s = Done x s' ->
  exists evs,
    quiet s s' evs
    /\ Forall (fun e => isCache e = false) evs
    /\ ((existsb isSend evs = false /\ exists err, x = inl err)
        \/ (existsb isSend evs = true
            /\ x = match answered E with
                   | inl err => inl err
                   | inr (hr, respBody) => inr (u, hr, respBody)
                   end)).
Proof.
  unfold send. intros H.
  apply bind_Done in H as (x1 & s1 & H1 & H).
  apply marshalReqBody_quiet in H1.
  destruct x1 as [err | body1].
  { injection H as <- <-. ends_early H1. }
  assert (Hcu : snd (fst (checkMockup E u)) = u).
  { unfold checkMockup. repeat case_match; reflexivity. }
  destruct (checkMockup E u) as [[u' cu] [err | ]] eqn:Hck; simpl in Hcu; subst cu.
  { injection H as <- <-. ends_early H1. }
  apply bind_Done in H as (x2 & s2 & H2 & H).
  apply connect_quiet in H2. pose proof (quiet_trans _ _ _ _ _ H1 H2) as Q2.
  destruct x2 as [err | client].
  { injection H as <- <-. ends_early Q2. }
  apply bind_Done in H as (x3 & s3 & H3 & H).
  apply NewRequest_quiet in H3. pose proof (quiet_trans _ _ _ _ _ Q2 H3) as Q3.
  destruct x3 as [err | request].
  { injection H as <- <-. ends_early Q3. }
  apply bind_Done in H as (x4 & s4 & H4 & H).
  apply setParams_quiet in H4. pose proof (quiet_trans _ _ _ _ _ Q3 H4) as Q4.
  apply bind_Done in H as (x5 & s5 & H5 & H).
  apply Do_quiet in H5 as (-> & h & H5).
  pose proof (quiet_trans _ _ _ _ _ Q4 H5) as Q5.
  unfold answered.
  destruct (client_Do E) as [err | hr];
    [ | destruct (Body hr) as [err | respBody] ];
    injection H as <- <-;
    (eexists; split; [ apply Q5 | ];
     split; [ simpl; repeat constructor | ];
     right; split; reflexivity).
Qed.

Lemma update_response (p : loc) (f : Response -> Response) (s : State)
  (a : Response) :
  responses s !! p = Some a ->
  update responses setResponses p f s
  = Done tt (setResponses (fun l => <[p := f a]> l) s).
Proof. intros H. unfold_monad. rewrite H. reflexivity. Qed.

Lemma lookup_stored (p : loc) (r a : Response) (s : State) :
  responses s !! p = Some a ->
  responses (setResponses (fun l => <[p := r]> l) s) !! p = Some r.
Proof.
  intros H. simpl. apply list_lookup_insert_eq. eapply lookup_lt_Some, H.
Qed.

Lemma setResponses_twice (p : loc) (r r' : Response) (s : State) :
  setResponses (fun l => <[p := r']> l) (setResponses (fun l => <[p := r]> l) s)
  = setResponses (fun l => <[p := r']> l) s.
Proof.
  destruct s. unfold setResponses. simpl. rewrite list_insert_insert_eq.
  reflexivity.
Qed.

Lemma settle_not_modified (E : Env) (b : RequestBuilder) (verb : string)
  (p : loc) (cacheResp : option Hit) (cu : string) (hr : HttpResponse)
  (body : string) (s : State) :
  StatusCode hr = StatusNotModified ->
  settle E b verb p cacheResp cu hr body s = Done (hitAt <$> cacheResp) s.
Proof. intros H. unfold settle. rewrite H. reflexivity. Qed.

(** After an answer whose status is not 304, the new response holds
    what the freshness evaluator derives from the headers, and it is
    offered to the Resource Cache when it is [cacheable]. *)
Lemma settle_fresh (E : Env) (b : RequestBuilder) (verb : string)
  (p : loc) (cacheResp : option Hit) (cu : string) (hr : HttpResponse)
  (body : string) (s : State) :
  StatusCode hr <> StatusNotModified ->
  responses s !! p = Some Response0 ->
  let r := stored (now E) hr body in
  exists s',
    settle E b verb p cacheResp cu hr body s = Done (Some p) s'
    /\ responses s' = <[p := r]> (responses s)
    /\ (if cacheable b verb r
        then trace s' = trace s ++ [EvCacheSetNX cu p]
             /\ resourceCache s'
                = match resourceCache s !! cu with
                  | Some _ => resourceCache s
                  | None => <[cu := p]> (resourceCache s)
                  end
        else trace s' = trace s /\ resourceCache s' = resourceCache s).
Proof.
  intros Hne Hp r. unfold settle.
  replace (StatusCode hr =? StatusNotModified) with false
    by (symmetry; apply Z.eqb_neq; exact Hne).
  rewrite (bind_eq _ _ _ _ _ (update_response _ _ _ _ Hp)).
  pose proof (lookup_stored p (withHttpResponse hr body Response0) _ _ Hp) as H1.
  rewrite (bind_eq _ _ _ _ _ (setTTL_eq E _ _ _ hr H1 eq_refl)).
  rewrite setResponses_twice.
  set (r1 := withTTL' _ _).
  pose proof (lookup_stored p r1 _ _ Hp) as H2.
  assert (Hh1 : httpResponse r1 = Some hr)
    by (unfold r1; destruct (ttlOf _ _); reflexivity).
  rewrite (bind_eq _ _ _ _ _ (setLastModified_eq' _ _ _ hr H2 Hh1)).
  rewrite setResponses_twice.
  set (r2 := withLastModified' _ _).
  pose proof (lookup_stored p r2 _ _ Hp) as H3.
  assert (Hh2 : httpResponse r2 = Some hr)
    by (unfold r2; destruct (lastModifiedOf _); exact Hh1).
  rewrite (bind_eq _ _ _ _ _ (setETag_eq _ _ _ hr H3 Hh2)).
  rewrite setResponses_twice.
  set (r3 := withETag _ _).
  pose proof (lookup_stored p r3 _ _ Hp) as H4.
  assert (Hr : (if negb (isSet (ttlOf (now E) (Header_ hr)))
                   && (isSet (lastModifiedOf (Header_ hr))
                       || negb (String.eqb (Get (Header_ hr) "ETag") ""))
                then withRevalidate true r3 else r3) = r).
  { unfold r, stored, r3, r2, r1.
    destruct (ttlOf _ _), (lastModifiedOf _), (String.eqb _ ""); reflexivity. }
  assert (Hc : cacheable b verb r
               = negb (DisableCache b) && match_ verb readVerbs
                 && (isSet (ttlOf (now E) (Header_ hr))
                     || isSet (lastModifiedOf (Header_ hr))
                     || negb (String.eqb (Get (Header_ hr) "ETag") "")))
    by reflexivity.
  rewrite Hc. clear Hc.
  destruct (negb (isSet (ttlOf (now E) (Header_ hr)))
            && (isSet (lastModifiedOf (Header_ hr))
                || negb (String.eqb (Get (Header_ hr) "ETag") ""))).
  - rewrite (bind_eq _ _ _ _ _ (update_response _ _ _ _ H4)).
    rewrite setResponses_twice, Hr.
    destruct (negb (DisableCache b) && match_ verb readVerbs
              && (isSet (ttlOf (now E) (Header_ hr))
                  || isSet (lastModifiedOf (Header_ hr))
                  || negb (String.eqb (Get (Header_ hr) "ETag") ""))).
    + unfold resourceCache_setNX. unfold_monad. simpl.
      destruct (resourceCache s !! cu); eexists; simpl; eauto.
    + unfold_monad. eexists; simpl; eauto.
  - rewrite <- Hr.
    destruct (negb (DisableCache b) && match_ verb readVerbs
              && (isSet (ttlOf (now E) (Header_ hr))
                  || isSet (lastModifiedOf (Header_ hr))
                  || negb (String.eqb (Get (Header_ hr) "ETag") ""))).
    + unfold resourceCache_setNX. unfold_monad. simpl.
      destruct (resourceCache s !! cu); eexists; simpl; eauto.
    + unfold_monad. eexists; simpl; eauto.
Qed.

(** The three ways [doRequest] ends once the Resource Cache did not
    settle the request: with an error, with the cached response after a
    304, or with a new response. *)
Lemma exchange_cases (E : Env) (rb : loc) (b : RequestBuilder)
  (verb u : string) (body : option string) (p : loc)
  (cacheResp : option Hit) (s s' : State) (res : option loc) :
  responses s !! p = Some Response0 ->
  exchange E rb b verb u body p cacheResp s = Done res s' ->
  exists evs,
    Forall (fun e => isCache e = false) evs
    /\ ended E b verb u p (hitAt <$> cacheResp) s s' res evs.
Proof.
  intros Hp H. unfold exchange in H. unfold ended.
  apply bind_Done in H as (x & s1 & H1 & H).
  apply send_quiet in H1 as (evs & (Q1 & Q2 & Q3) & Hev & Hx).
  exists evs. split; [ exact Hev | ].
  assert (Hp1 : responses s1 !! p = Some Response0) by (rewrite Q1; exact Hp).
  assert (Hfail : forall err,
             fail p err s1 = Done res s' ->
             res = Some p
             /\ responses s' = <[p := withErr err Response0]> (responses s)
             /\ resourceCache s' = resourceCache s
             /\ trace s' = trace s ++ evs).
  { intros err Hf. unfold fail in Hf.
    rewrite (bind_eq _ _ _ _ _ (update_response _ _ _ _ Hp1)) in Hf.
    injection Hf as <- <-. simpl. rewrite Q1, Q2, Q3. auto. }
  destruct Hx as [(Hns & err & ->) | (Hsent & ->)].
  { left. exists err. destruct (Hfail err H) as (? & ? & ? & ?). auto 10. }
  destruct (answered E) as [err | [hr respBody]] eqn:Ha.
  { left. exists err. destruct (Hfail err H) as (? & ? & ? & ?). auto 10. }
  right. destruct (Z.eq_dec (StatusCode hr) StatusNotModified) as [H304 | H304].
  - left. rewrite settle_not_modified in H by exact H304.
    injection H as <- <-. exists hr, respBody. auto 10.
  - right.
    destruct (settle_fresh E b verb p cacheResp u hr respBody s1 H304 Hp1)
      as (s2 & Hs & Hr & Hc).
    rewrite Hs in H. injection H as <- <-.
    exists hr, respBody. rewrite Hr, Q1.
    repeat (split; [ solve [ auto ] | ]).
    destruct (cacheable b verb _); destruct Hc as [Ht Hc];
      rewrite Ht, Hc, Q3, ?Q2, <- ?app_assoc; auto.
Qed.

(** [doRequest] ends with the entry of the Resource Cache, when [get]
    returns it without the mark of revalidation, or goes on, from the
    state after the cache check, to one of the three ends of [ended]; an
    entry that it found and did not return asks for revalidation, or its
    [ttl] has elapsed. *)
Lemma doRequest_cases (E : Env) (rb : loc) (verb u : string)
  (body : option string) (s s' : State) (res : option loc) :
  doRequest E rb verb u body s = Done res s' ->
  exists b,
    builders s !! rb = Some b
    /\ ((caching b verb = true
         /\ exists q c,
             resourceCache s !! (BaseURL b +:+ u) = Some q
             /\ (responses s ++ [Response0]) !! q = Some c
             /\ revalidate c = false
             /\ elapsed (now E) c = false
             /\ res = Some q
             /\ s' = checked s b verb u)
        \/ ((forall q, lookedUp s b verb u = Some q ->
                     exists c, responses s !! q = Some c
                               /\ (revalidate c = true
                                   \/ elapsed (now E) c = true))
            /\ exists evs,
                Forall (fun e => isCache e = false) evs
                /\ ended E b verb (BaseURL b +:+ u) (length (responses s))
                         (lookedUp s b verb u) (checked s b verb u) s' res evs)).
Proof.
  intros H. unfold doRequest in H.
  apply bind_Done in H as (b & s1 & H1 & H).
  assert (s1 = s /\ builders s !! rb = Some b) as [-> Hb].
  { unfold_monad. destruct (builders s !! rb); simplify_eq. auto. }
  exists b. split; [ exact Hb | ]. clear H1.
  apply bind_Done in H as (p & s0 & H0 & H).
  unfold new in H0. injection H0 as <- <-.
  set (s0 := setResponses (fun l => l ++ [Response0]) s) in *.
  assert (Hp : forall t, responses t = responses s0 ->
               responses t !! length (responses s) = Some Response0).
  { intros t ->. simpl. rewrite lookup_app_r, Nat.sub_diag by lia. reflexivity. }
  unfold lookedUp, checked, caching. fold s0.
  destruct (negb (DisableCache b) && match_ verb readVerbs) eqn:Hc.
  - apply bind_Done in H as (cr & s2 & H2 & H).
    unfold resourceCache_get in H2. unfold_monad. injection H2 as <- <-.
    simpl in H.
    destruct (resourceCache s !! (BaseURL b +:+ u)) as [q | ] eqn:Hq.
    + apply bind_Done in H as (c' & s3 & H3 & H).
      unfold held in H3. unfold_monad.
      change (responses (emit (EvCacheGet (BaseURL b +:+ u)) s0))
        with (responses s ++ [Response0]) in H3.
      simpl in H3.
      destruct ((responses s ++ [Response0]) !! q) as [c | ] eqn:Hl;
        [ | discriminate ].
      injection H3 as <- <-.
      assert (Hin : revalidate c = true \/ elapsed (now E) c = true ->
                    exists c0, responses s !! q = Some c0
                               /\ (revalidate c0 = true
                                   \/ elapsed (now E) c0 = true)).
      { intros Hor. exists c. split; [ | exact Hor ].
        apply lookup_app_Some in Hl as [Hl | [_ Hl]]; [ exact Hl | ].
        apply list_lookup_singleton_Some in Hl as [_ <-].
        destruct Hor; discriminate. }
      destruct (elapsed (now E) c) eqn:He; simpl in H.
      * right. split; [ intros q' [= <-]; apply Hin; auto | ].
        apply exchange_cases in H; [ exact H | apply Hp; reflexivity ].
      * destruct (revalidate c) eqn:Hrv; simpl in H.
        -- right. split; [ intros q' [= <-]; apply Hin; auto | ].
           apply exchange_cases in H; [ exact H | apply Hp; reflexivity ].
        -- left. split; [ reflexivity | ]. exists q, c.
           injection H as <- <-. auto 10.
    + right. split; [ discriminate | ].
      apply exchange_cases in H; [ exact H | apply Hp; reflexivity ].
  - right. split; [ discriminate | ].
    apply exchange_cases in H; [ exact H | apply Hp; reflexivity ].
Qed.

Lemma match_In (v : string) (l : list string) :
  match_ v l = true <-> In v l.
Proof.
  induction l as [ | x l IH]; simpl; [ split; [ discriminate | tauto ] | ].
  destruct (String.eqb_spec x v) as [-> | Hne]; [ tauto | ].
  rewrite IH. split; [ tauto | intros [H | H]; [ congruence | exact H ] ].
Qed.

Lemma checked_fields (s : State) (b : RequestBuilder) (verb u : string) :
  responses (checked s b verb u) = responses s ++ [Response0]
  /\ resourceCache (checked s b verb u) = resourceCache s
  /\ trace (checked s b verb u)
     = trace s ++ (if caching b verb then [EvCacheGet (BaseURL b +:+ u)] else [])
  /\ builders (checked s b verb u) = builders s
  /\ clients (checked s b verb u) = clients s
  /\ transports (checked s b verb u) = transports s
  /\ transportCache (checked s b verb u) = transportCache s
  /\ headerMaps (checked s b verb u) = headerMaps s.
Proof.
  unfold checked. destruct (caching b verb); simpl; rewrite ?app_nil_r; auto 10.
Qed.

Lemma insert_last {A : Type} (l : list A) (x y : A) :
  <[length l := y]> (l ++ [x]) = l ++ [y].
Proof.
  rewrite insert_app_r_alt, Nat.sub_diag by lia. reflexivity.
Qed.

(** The events of a call in which a request was sent are those of the
    cache check followed by those of the later stages, among which the
    request is. *)
Lemma existsb_none {A : Type} (f : A -> bool) (l : list A) :
  Forall (fun e => f e = false) l -> existsb f l = false.
Proof.
  induction 1 as [ | e l He _ IH]; simpl; [ reflexivity | ].
  rewrite He, IH. reflexivity.
Qed.

Lemma sent_after_check (t : list Event) (pre evs evs0 : list Event) :
  t ++ evs = (t ++ pre) ++ evs0 ->
  Forall (fun e => isSend e = false) pre ->
  existsb isSend evs = true ->
  existsb isSend evs0 = true.
Proof.
  intros H Hpre Hs. rewrite <- app_assoc in H.
  apply app_inv_head in H. subst evs.
  rewrite existsb_app, (existsb_none _ _ Hpre) in Hs. exact Hs.
Qed.

Lemma pre_not_send (b : RequestBuilder) (verb url : string) :
  Forall (fun e => isSend e = false)
         (if caching b verb then [EvCacheGet url] else []).
Proof. destruct (caching b verb); repeat constructor. Qed.

(** What a call that sent a request and read the answer [hr] did, by
    the status of the answer. *)
Lemma doRequest_answered (E : Env) (rb : loc) (verb u : string)
  (body : option string) (s s' : State) (res : option loc)
  (evs : list Event) (hr : HttpResponse) (respBody : string)
  (b : RequestBuilder) :
  builders s !! rb = Some b ->
  doRequest E rb verb u body s = Done res s' ->
  trace s' = trace s ++ evs ->
  existsb isSend evs = true ->
  answered E = inr (hr, respBody) ->
  (forall q, lookedUp s b verb u = Some q ->
             exists c, responses s !! q = Some c
                       /\ (revalidate c = true \/ elapsed (now E) c = true))
  /\ ((StatusCode hr = StatusNotModified
       /\ res = lookedUp s b verb u
       /\ responses s' = responses s ++ [Response0]
       /\ resourceCache s' = resourceCache s
       /\ existsb isCacheSet evs = false)
      \/ (StatusCode hr <> StatusNotModified
          /\ res = Some (length (responses s))
          /\ responses s' = responses s ++ [stored (now E) hr respBody])).
Proof.
  intros Hb H Ht Hs Ha.
  apply doRequest_cases in H as (b' & Hb' & H).
  rewrite Hb in Hb'. injection Hb' as <-.
  destruct (checked_fields s b verb u) as (Cr & Cc & Ct & _).
  destruct H as [(Hc & q & c & _ & _ & _ & _ & _ & ->) | (Hv & evs0 & Hev & H)].
  { rewrite Ct, Hc in Ht. apply app_inv_head in Ht. subst evs. discriminate. }
  split; [ exact Hv | ].
  assert (Hnc : forall l, Forall (fun e => isCache e = false) l ->
                          existsb isCacheSet l = false).
  { induction 1 as [ | e l He _ IH]; simpl; [ reflexivity | ].
    rewrite IH. destruct e; try reflexivity; discriminate. }
  destruct H as [(err & _ & _ & _ & Ht' & Hns)
                | [(hr' & rb' & Ha' & H304 & Hs' & -> & Hr & Hrc & Ht')
                  | (hr' & rb' & Ha' & H304 & Hs' & -> & Hr & _)]].
  - exfalso. rewrite Ha in Hns. destruct Hns as [Hns | ]; [ | discriminate ].
    rewrite Ht, Ct in Ht'.
    rewrite (sent_after_check _ _ evs evs0 Ht') in Hns;
      [ discriminate | apply pre_not_send | exact Hs ].
  - rewrite Ha in Ha'. injection Ha' as <- <-. left.
    rewrite Hr, Hrc, Cr, Cc. repeat (split; [ solve [ auto ] | ]).
    rewrite Ht, Ct, <- app_assoc in Ht'. apply app_inv_head in Ht'. subst evs.
    rewrite existsb_app, (Hnc _ Hev), orb_false_r.
    destruct (caching b verb); reflexivity.
  - rewrite Ha in Ha'. injection Ha' as <- <-. right.
    rewrite Hr, Cr, insert_last. auto.
Qed.

(** C3. When [doRequest] sent a request and read an answer whose
    status is not 304, it returns the new [Response], which holds the
    answer, and whose [revalidate] is
    [!ttlSet && (lastModifiedSet || etagSet)], where the three flags are
    what [setTTL], [setLastModified] and [setETag] derive from the
    headers of the answer and tell whether [ttl], [lastModified] and
    [etag] are set in the [Response]: with a TTL [revalidate] is false,
    and without a TTL and with an entity tag or a [Last-Modified] that
    parses it is true. *)
Theorem doRequest_revalidate (E : Env) (rb : loc) (verb u : string)
  (body : option string) (s s' : State) (res : option loc)
  (evs : list Event) (hr : HttpResponse) (respBody : string) :
  doRequest E rb verb u body s = Done res s' ->
  trace s' = trace s ++ evs ->
  existsb isSend evs = true ->
  answered E = inr (hr, respBody) ->
  StatusCode hr <> StatusNotModified ->
  let ttlSet := isSet (ttlOf (now E) (Header_ hr)) in
  let lastModifiedSet := isSet (lastModifiedOf (Header_ hr)) in
  let etagSet := negb (String.eqb (Get (Header_ hr) "ETag") "") in
  exists p r,
    res = Some p
    /\ responses s !! p = None
    /\ responses s' !! p = Some r
    /\ httpResponse r = Some hr
    /\ isSet (ttl r) = ttlSet
    /\ isSet (lastModified r) = lastModifiedSet
    /\ negb (String.eqb (etag r) "") = etagSet
    /\ revalidate r = negb ttlSet && (lastModifiedSet || etagSet)
    /\ (ttlSet = true -> revalidate r = false)
    /\ (ttlSet = false -> lastModifiedSet = true \/ etagSet = true ->
        revalidate r = true)
    /\ (forall t q a,
          responses t !! q = Some a -> httpResponse a = Some hr ->
          (exists t', setTTL E q t = Done ttlSet t')
          /\ (exists t', setLastModified q t = Done lastModifiedSet t')
          /\ (exists t', setETag q t = Done etagSet t')).
Proof.
  intros H Ht Hs Ha H304 ttlSet lastModifiedSet etagSet.
  pose proof H as Hc. apply doRequest_cases in Hc as (b & Hb & _).
  destruct (doRequest_answered E rb verb u body s s' res evs hr respBody b
              Hb H Ht Hs Ha)
    as (_ & [(H304' & _) | (_ & -> & Hr)]); [ contradiction | ].
  exists (length (responses s)), (stored (now E) hr respBody).
  split; [ reflexivity | ].
  split; [ apply lookup_ge_None; lia | ].
  split; [ rewrite Hr, lookup_app_r, Nat.sub_diag by lia; reflexivity | ].
  unfold stored. simpl. fold ttlSet lastModifiedSet etagSet.
  repeat (split; [ reflexivity | ]).
  split; [ intros ->; reflexivity | ].
  split; [ intros -> [-> | ->]; simpl; [ reflexivity | apply orb_true_r ] | ].
  intros t q a Hq Hh.
  rewrite (setTTL_eq E t q a hr Hq Hh), (setLastModified_eq' t q a hr Hq Hh),
    (setETag_eq t q a hr Hq Hh).
  repeat split; eexists; reflexivity.
Qed.

Lemma doRequest_revalidate_witness :
  exists p r,
    Some 0%nat = Some p
    /\ responses s0 !! p = None
    /\ responses s1 !! p = Some r
    /\ httpResponse r = Some hrTagged
    /\ isSet (ttl r) = false
    /\ isSet (lastModified r) = false
    /\ negb (String.eqb (etag r) "") = true
    /\ revalidate r = true
    /\ (false = true -> revalidate r = false)
    /\ (false = false -> false = true \/ true = true -> revalidate r = true)
    /\ (forall t q a,
          responses t !! q = Some a -> httpResponse a = Some hrTagged ->
          (exists t', setTTL tagged q t = Done false t')
          /\ (exists t', setLastModified q t = Done false t')
          /\ (exists t', setETag q t = Done true t')).
Proof.
  apply (doRequest_revalidate tagged 0%nat "GET" "/a" None s0 s1 (Some 0%nat)
           (events (doRequest tagged 0%nat "GET" "/a" None) s0)
           hrTagged "hello").
  - vm_compute. reflexivity.
  - vm_compute. reflexivity.
  - vm_compute. reflexivity.
  - vm_compute. reflexivity.
  - vm_compute. lia.
Defined.






(** C10. When [doRequest] sent a request and read an answer with the
    status 304 while no entry of the Resource Cache was retrieved before
    (caching is disabled, the verb is not a read verb, or the cache has
    no entry for the URL), it returns the [nil] pointer. *)
Theorem doRequest_not_modified_nil (E : Env) (rb : loc) (verb u : string)
  (body : option string) (s s' : State) (res : option loc)
  (evs : list Event) (hr : HttpResponse) (respBody : string)
  (b : RequestBuilder) :
  builders s !! rb = Some b ->
  doRequest E rb verb u body s = Done res s' ->
  trace s' = trace s ++ evs ->
  existsb isSend evs = true ->
  answered E = inr (hr, respBody) ->
  StatusCode hr = StatusNotModified ->
  DisableCache b = true \/ match_ verb readVerbs = false
  \/ resourceCache s !! (BaseURL b +:+ u) = None ->
  res = None.
Proof.
  intros Hb H Ht Hs Ha H304 Hno.
  destruct (doRequest_answered E rb verb u body s s' res evs hr respBody b
              Hb H Ht Hs Ha)
    as (_ & [(_ & -> & _) | (Hne & _)]); [ | contradiction ].
  unfold lookedUp, caching.
  destruct Hno as [-> | [-> | ->]];
    [ reflexivity | rewrite andb_false_r; reflexivity | ].
  destruct (_ && _); reflexivity.
Qed.

Lemma doRequest_not_modified_nil_witness : @None loc = None.
Proof.
  apply (doRequest_not_modified_nil notModified 0%nat "GET" "/b" None s1 s3
           None (events (doRequest notModified 0%nat "GET" "/b" None) s1)
           hr304 "" (builder0 s1)).
  - vm_compute. reflexivity.
  - vm_compute. reflexivity.
  - vm_compute. reflexivity.
  - vm_compute. reflexivity.
  - vm_compute. reflexivity.
  - vm_compute. reflexivity.
  - right. right. vm_compute. reflexivity.
Defined.

(** *** Header injection *)

Lemma Header_Set_eq (h : loc) (k v : string) (s : State) (m : Header) :
  headerMaps s !! h = Some m ->
  Header_Set h k v s
  = Done tt (setHeaderMaps (fun l => <[h := Set_ m k v]> l) s).
Proof. intros H. unfold Header_Set. unfold_monad. rewrite H. reflexivity. Qed.

Lemma lookup_header_set (h : loc) (m a : Header) (s : State) :
  headerMaps s !! h = Some a ->
  headerMaps (setHeaderMaps (fun l => <[h := m]> l) s) !! h = Some m.
Proof.
  intros H. simpl. apply list_lookup_insert_eq. eapply lookup_lt_Some, H.
Qed.

Lemma setHeaderMaps_twice (h : loc) (m m' : Header) (s : State) :
  setHeaderMaps (fun l => <[h := m']> l) (setHeaderMaps (fun l => <[h := m]> l) s)
  = setHeaderMaps (fun l => <[h := m']> l) s.
Proof.
  destruct s. unfold setHeaderMaps. simpl. rewrite list_insert_insert_eq.
  reflexivity.
Qed.

Lemma setHeaderMaps_same (h : loc) (m : Header) (s : State) :
  headerMaps s !! h = Some m ->
  setHeaderMaps (fun l => <[h := m]> l) s = s.
Proof.
  intros H. destruct s. unfold setHeaderMaps. simpl in *.
  rewrite list_insert_id by exact H. reflexivity.
Qed.

(** The three groups of headers, each written into the map at [h]. *)
Section Injection.
Context (E : Env) (b : RequestBuilder).

Lemma defaults_eq (h : loc) (cacheURL : string) (s : State) (m : Header)
  {A : Type} (k : M A) :
  headerMaps s !! h = Some m ->
  (Header_Set h "Connection" "keep-alive";;
   Header_Set h "Cache-Control" "no-cache";;
   (if mockUpEnv E then Header_Set h "X-Original-URL" cacheURL else mret tt);;
   k) s
  = k (setHeaderMaps (fun l => <[h := defaults E cacheURL m]> l) s).
Proof.
  intros H.
  rewrite (bind_eq _ _ _ _ _ (Header_Set_eq _ _ _ _ _ H)).
  rewrite (bind_eq _ _ _ _ _
             (Header_Set_eq _ _ _ _ _ (lookup_header_set _ _ _ _ H))).
  rewrite setHeaderMaps_twice. unfold defaults.
  destruct (mockUpEnv E).
  - rewrite (bind_eq _ _ _ _ _
               (Header_Set_eq _ _ _ _ _ (lookup_header_set _ _ _ _ H))).
    rewrite setHeaderMaps_twice. reflexivity.
  - reflexivity.
Qed.

Lemma negotiated_eq (h : loc) (method : string) (s : State) (m : Header)
  {A : Type} (k : M A) :
  headerMaps s !! h = Some m ->
  (Header_Set h "Accept" ("application/" +:+ cTypeOf b);;
   (if match_ method contentVerbs
    then Header_Set h "Content-Type" ("application/" +:+ cTypeOf b)
    else mret tt);;
   k) s
  = k (setHeaderMaps (fun l => <[h := negotiated b method m]> l) s).
Proof.
  intros H.
  rewrite (bind_eq _ _ _ _ _ (Header_Set_eq _ _ _ _ _ H)).
  unfold negotiated. destruct (match_ method contentVerbs).
  - rewrite (bind_eq _ _ _ _ _
               (Header_Set_eq _ _ _ _ _ (lookup_header_set _ _ _ _ H))).
    rewrite setHeaderMaps_twice. reflexivity.
  - reflexivity.
Qed.

Lemma conditional_eq (h : loc) (cacheResp : option Hit) (s : State)
  (m : Header) (c : option Response) (req : Request) :
  headerMaps s !! h = Some m ->
  cachedAt s cacheResp = Some c ->
  (match cacheResp with
   | Some hit =>
       c ← held hit;
       if revalidate c then
         if negb (String.eqb (etag c) "")
         then Header_Set h "If-None-Match" (etag c)
         else
           match lastModified c with
           | Some t =>
               Header_Set h "If-Modified-Since" (Format t httpDateFormat)
           | None => mret tt
           end
       else mret tt
   | None => mret tt
   end;; mret req) s
  = Done req (setHeaderMaps (fun l => <[h := conditional c m]> l) s).
Proof.
  intros H Hc. unfold cachedAt in Hc.
  destruct cacheResp as [[p stale] | ].
  - simpl in Hc.
    destruct (responses s !! p) as [c0 | ] eqn:Hp; [ | discriminate ].
    injection Hc as <-. set (c' := flag stale c0).
    rewrite (bind_eq _ (fun _ => mret req) s
               (setHeaderMaps (fun l => <[h := conditional (Some c') m]> l) s) tt);
      [ reflexivity | ].
    rewrite (bind_eq _ _ s s c')
      by (unfold held; unfold_monad; simpl; rewrite Hp; reflexivity).
    unfold conditional.
    destruct (revalidate c');
      [ | unfold_monad; rewrite (setHeaderMaps_same _ _ _ H); reflexivity ].
    destruct (negb (String.eqb (etag c') ""));
      [ apply Header_Set_eq, H | ].
    destruct (lastModified c');
      [ apply Header_Set_eq, H
      | unfold_monad; rewrite (setHeaderMaps_same _ _ _ H); reflexivity ].
  - injection Hc as <-. unfold_monad. simpl.
    rewrite (setHeaderMaps_same _ _ _ H). reflexivity.
Qed.

(** Without custom headers, the request carries, in its own map, the
    defaults, the headers of the content negotiation and the conditional
    header. *)
Lemma setParams_own (client : loc) (req : Request) (cacheResp : option Hit)
  (cacheURL : string) (s : State) (own : Header) (c : option Response) :
  Headers b = None ->
  headerMaps s !! Request_Header req = Some own ->
  cachedAt s cacheResp = Some c ->
  setParams E b client req cacheResp cacheURL s
  = Done req
      (setHeaderMaps
         (fun l => <[Request_Header req :=
                       conditional c
                         (negotiated b (Request_Method req)
                            (defaults E cacheURL own))]> l) s).
Proof.
  intros Hn Hown Hc. unfold setParams.
  rewrite (defaults_eq _ _ _ _ _ Hown). rewrite Hn.
  rewrite (negotiated_eq _ _ _ _ _ (lookup_header_set _ _ _ _ Hown)).
  rewrite setHeaderMaps_twice.
  rewrite (conditional_eq _ _ _ _ c _ (lookup_header_set _ _ _ _ Hown) Hc).
  rewrite setHeaderMaps_twice. reflexivity.
Qed.

(** With custom headers, the defaults go to the map that the request
    had, and the request then carries the map of the builder itself,
    into which the headers of the content negotiation and the conditional
    header are written. *)
Lemma setParams_custom (client : loc) (req : Request)
  (cacheResp : option Hit) (cacheURL : string) (s : State) (l : loc)
  (own custom : Header) (c : option Response) :
  Headers b = Some l ->
  Request_Header req <> l ->
  headerMaps s !! Request_Header req = Some own ->
  headerMaps s !! l = Some custom ->
  cachedAt s cacheResp = Some c ->
  setParams E b client req cacheResp cacheURL s
  = Done (withHeader l req)
      (setHeaderMaps
         (fun hs => <[l := conditional c
                             (negotiated b (Request_Method req) custom)]> hs)
         (setHeaderMaps
            (fun hs => <[Request_Header req := defaults E cacheURL own]> hs) s)).
Proof.
  intros Hl Hne Hown Hcustom Hc. unfold setParams.
  rewrite (defaults_eq _ _ _ _ _ Hown). rewrite Hl.
  set (s1 := setHeaderMaps _ s).
  assert (H1 : headerMaps s1 !! l = Some custom).
  { unfold s1. simpl. rewrite list_lookup_insert_ne by exact Hne.
    exact Hcustom. }
  change (Request_Header (withHeader l req)) with l.
  change (Request_Method (withHeader l req)) with (Request_Method req).
  rewrite (negotiated_eq _ _ _ _ _ H1).
  rewrite (conditional_eq _ _ _ _ c _ (lookup_header_set _ _ _ _ H1) Hc).
  rewrite setHeaderMaps_twice. reflexivity.
Qed.

End Injection.

(** Evaluate the canonical form of the header names of the goal. *)
Ltac canon :=
  repeat match goal with
         | |- context [CanonicalMIMEHeaderKey ?k] =>
             let v := eval vm_compute in (CanonicalMIMEHeaderKey k) in
             change (CanonicalMIMEHeaderKey k) with v
         end.

Lemma Set_lookup (m : Header) (k v k' : string) :
  Set_ m k v !! k'
  = if decide (CanonicalMIMEHeaderKey k = k') then Some [v] else m !! k'.
Proof. unfold Set_. apply lookup_insert. Qed.

(** The conditional header that [setParams] writes: [If-None-Match] for a
    cached response that asks for revalidation and has an entity tag,
    else [If-Modified-Since] if it has a last-modified instant, else
    none.  In a map that had neither header, at most one of them is
    set. *)
Lemma conditional_spec (m : Header) (c : option Response) :
  m !! "If-None-Match" = None ->
  m !! "If-Modified-Since" = None ->
  (conditional c m !! "If-None-Match", conditional c m !! "If-Modified-Since")
  = match c with
    | Some c' =>
        if revalidate c' then
          if negb (String.eqb (etag c') "") then (Some [etag c'], None)
          else
            match lastModified c' with
            | Some t => (None, Some [Format t httpDateFormat])
            | None => (None, None)
            end
        else (None, None)
    | None => (None, None)
    end.
Proof.
  intros H1 H2. unfold conditional.
  destruct c as [c' | ]; [ | rewrite H1, H2; reflexivity ].
  destruct (revalidate c'); [ | rewrite H1, H2; reflexivity ].
  destruct (negb (String.eqb (etag c') "")).
  - rewrite !Set_lookup. canon. simpl. rewrite H2. reflexivity.
  - destruct (lastModified c'); [ | rewrite H1, H2; reflexivity ].
    rewrite !Set_lookup. canon. simpl. rewrite H1. reflexivity.
Qed.

Lemma negotiated_other (b : RequestBuilder) (method : string) (m : Header)
  (k : string) :
  k <> "Accept" -> k <> "Content-Type" ->
  negotiated b method m !! k = m !! k.
Proof.
  intros H1 H2. unfold negotiated.
  destruct (match_ method contentVerbs); rewrite !Set_lookup; canon;
    repeat case_decide; congruence.
Qed.

Lemma conditional_other (c : option Response) (m : Header) (k : string) :
  k <> "If-None-Match" -> k <> "If-Modified-Since" ->
  conditional c m !! k = m !! k.
Proof.
  intros H1 H2. unfold conditional.
  destruct c as [c' | ]; [ | reflexivity ].
  destruct (revalidate c'); [ | reflexivity ].
  destruct (negb (String.eqb (etag c') ""));
    [ | destruct (lastModified c'); [ | reflexivity ] ];
    rewrite Set_lookup; canon; case_decide; congruence.
Qed.

Lemma defaults_other (E : Env) (cacheURL : string) (m : Header) (k : string) :
  k <> "Connection" -> k <> "Cache-Control" -> k <> "X-Original-Url" ->
  defaults E cacheURL m !! k = m !! k.
Proof.
  intros H1 H2 H3. unfold defaults.
  destruct (mockUpEnv E); rewrite !Set_lookup; canon;
    repeat case_decide; congruence.
Qed.

(** A request that [http.NewRequest] made, sent by a builder without
    custom headers, carries the conditional header of [conditional_spec]
    and no other: the two headers are never both set, the entity tag has
    precedence, and without an entry that asks for revalidation neither
    is set. *)
Lemma setParams_own_conditional (E : Env) (b : RequestBuilder) (client : loc)
  (req : Request) (cacheResp : option Hit) (cacheURL : string) (s : State)
  (c : option Response) :
  Headers b = None ->
  headerMaps s !! Request_Header req = Some ∅ ->
  cachedAt s cacheResp = Some c ->
  exists s' sent,
    setParams E b client req cacheResp cacheURL s = Done req s'
    /\ headerMaps s' !! Request_Header req = Some sent
    /\ (sent !! "If-None-Match", sent !! "If-Modified-Since")
       = match c with
         | Some c' =>
             if revalidate c' then
               if negb (String.eqb (etag c') "") then (Some [etag c'], None)
               else
                 match lastModified c' with
                 | Some t => (None, Some [Format t httpDateFormat])
                 | None => (None, None)
                 end
             else (None, None)
         | None => (None, None)
         end.
Proof.
  intros Hn Hown Hc.
  eexists. eexists. split; [ apply (setParams_own E b _ _ _ _ _ _ c Hn Hown Hc) | ].
  split; [ apply (lookup_header_set _ _ _ _ Hown) | ].
  apply conditional_spec;
    rewrite negotiated_other, defaults_other by discriminate;
    apply lookup_empty.
Qed.

(** C7, as amended.  With custom headers, [setParams] writes the default
    headers into the map that the request had and then gives to the
    request the map of the builder itself: the defaults are not in it.
    Into this map it then writes [Accept], [Content-Type] for POST, PUT
    and PATCH, and the conditional header: the request carries
    [Accept] and [Content-Type] of the configured content type, whatever
    the custom headers give for them, and every other custom header but
    the conditional one as the builder gives it. *)
Theorem setParams_custom_headers (E : Env) (b : RequestBuilder) (client : loc)
  (req : Request) (cacheResp : option Hit) (cacheURL : string) (s : State)
  (l : loc) (own custom : Header) (c : option Response) :
  Headers b = Some l ->
  Request_Header req <> l ->
  headerMaps s !! Request_Header req = Some own ->
  headerMaps s !! l = Some custom ->
  cachedAt s cacheResp = Some c ->
  exists s' sent,
    setParams E b client req cacheResp cacheURL s = Done (withHeader l req) s'
    /\ headerMaps s' !! l = Some sent
    /\ headerMaps s' !! Request_Header req = Some (defaults E cacheURL own)
    /\ sent = conditional c (negotiated b (Request_Method req) custom)
    /\ Get sent "Accept" = "application/" +:+ cTypeOf b
    /\ (match_ (Request_Method req) contentVerbs = true ->
        Get sent "Content-Type" = "application/" +:+ cTypeOf b)
    /\ (forall k,
          k <> "Accept" -> k <> "Content-Type" ->
          k <> "If-None-Match" -> k <> "If-Modified-Since" ->
          sent !! k = custom !! k).
Proof.
  intros Hl Hne Hown Hcustom Hc.
  eexists. eexists.
  split; [ apply (setParams_custom E b _ _ _ _ _ _ _ _ c Hl Hne Hown Hcustom Hc) | ].
  assert (Hlen : (l < length (headerMaps s))%nat)
    by (eapply lookup_lt_Some, Hcustom).
  assert (Hlen' : (Request_Header req < length (headerMaps s))%nat)
    by (eapply lookup_lt_Some, Hown).
  split.
  { simpl. apply list_lookup_insert_eq. rewrite length_insert. exact Hlen. }
  split.
  { simpl. rewrite list_lookup_insert_ne by congruence.
    apply list_lookup_insert_eq. exact Hlen'. }
  split; [ reflexivity | ].
  split.
  { unfold Get. canon.
    rewrite conditional_other by discriminate.
    unfold negotiated. destruct (match_ _ contentVerbs);
      rewrite !Set_lookup; canon; reflexivity. }
  split.
  { intros Hm. unfold Get. canon.
    rewrite conditional_other by discriminate.
    unfold negotiated. rewrite Hm, !Set_lookup. canon. reflexivity. }
  intros k H1 H2 H3 H4.
  rewrite conditional_other, negotiated_other by assumption. reflexivity.
Qed.

Lemma setParams_custom_headers_witness :
  exists s' sent,
    setParams tagged customBuilder 0%nat getA None "" plain
    = Done (withHeader 0%nat getA) s'
    /\ headerMaps s' !! 0%nat = Some sent
    /\ headerMaps s' !! Request_Header getA = Some (defaults tagged "" ∅)
    /\ sent = conditional None
                (negotiated customBuilder (Request_Method getA)
                   {["Accept" := ["text/plain"]; "X-Auth" := ["token"]]})
    /\ Get sent "Accept" = "application/" +:+ cTypeOf customBuilder
    /\ (match_ (Request_Method getA) contentVerbs = true ->
        Get sent "Content-Type" = "application/" +:+ cTypeOf customBuilder)
    /\ (forall k,
          k <> "Accept" -> k <> "Content-Type" ->
          k <> "If-None-Match" -> k <> "If-Modified-Since" ->
          sent !! k
          = ({["Accept" := ["text/plain"]; "X-Auth" := ["token"]]} : Header) !! k).
Proof.
  apply (setParams_custom_headers tagged customBuilder 0%nat getA None ""
           plain 0%nat ∅).
  - reflexivity.
  - simpl. lia.
  - vm_compute. reflexivity.
  - vm_compute. reflexivity.
  - reflexivity.
Defined.

(** C7, as stated, fails: a builder whose custom headers give
    [Accept: text/plain] sends [Accept: application/json], so the request
    does not carry every custom header with the value of the builder. *)
Lemma custom_Accept_overwritten :
  let custom : Header := {["Accept" := ["text/plain"]; "X-Auth" := ["token"]]} in
  let s' := after (setParams tagged customBuilder 0%nat getA None "") plain in
  Headers customBuilder = Some 0%nat
  /\ headerMaps plain !! 0%nat = Some custom
  /\ custom !! "Accept" = Some ["text/plain"]
  /\ setParams tagged customBuilder 0%nat getA None "" plain
     = Done (withHeader 0%nat getA) s'
  /\ (headerMaps s' !! 0%nat ≫= fun sent => sent !! "Accept")
     = Some ["application/json"]
  /\ ~ customHeadersCarried tagged customBuilder 0%nat getA None "" plain.
Proof.
  intros custom s'.
  repeat (split; [ vm_compute; reflexivity | ]).
  intros H.
  specialize (H 0%nat custom (withHeader 0%nat getA) s'
                {["Accept" := ["application/json"]; "X-Auth" := ["token"]]}
                eq_refl).
  assert (H1 : Some ["application/json"] = Some ["text/plain"]).
  { apply (H ltac:(vm_compute; reflexivity) ltac:(vm_compute; reflexivity)
             ltac:(vm_compute; reflexivity) "Accept" ["text/plain"]).
    vm_compute. reflexivity. }
  discriminate H1.
Qed.

(** C4.  The map that [setParams] gives to the request of a builder with
    custom headers is the map of the builder, and a conditional header
    written for one request stays in it for the next ones.  A builder
    whose custom headers are [X-Auth: token] revalidates [/a] with
    [If-Modified-Since], then [/b] with [If-None-Match]: the second of
    these requests carries both headers, and so does the request for
    [/c] that follows, for which the Resource Cache has no entry. *)
Theorem conditional_headers_leak :
  Headers customBuilder = Some 0%nat
  /\ headerMaps c0 !! 0%nat = Some {["X-Auth" := ["token"]]}
  /\ (lastSent c3 ≫= fun h => h !! "If-None-Match") = None
  /\ (lastSent c3 ≫= fun h => h !! "If-Modified-Since")
     = Some ["Tue, 11 Nov 1994 08:49:37 GMT"]
  /\ (lastSent c4 ≫= fun h => h !! "If-None-Match") = Some ["abc"]
  /\ (lastSent c4 ≫= fun h => h !! "If-Modified-Since")
     = Some ["Tue, 11 Nov 1994 08:49:37 GMT"]
  /\ lookedUp c4 (builder0 c4) "GET" "/c" = None
  /\ (lastSent c5 ≫= fun h => h !! "If-None-Match") = Some ["abc"]
  /\ (lastSent c5 ≫= fun h => h !! "If-Modified-Since")
     = Some ["Tue, 11 Nov 1994 08:49:37 GMT"]
  /\ length (omap (fun e => if isSend e then Some e else None) (trace c5))
     = 5%nat.
Proof. vm_compute. repeat split; reflexivity. Qed.

(** *** The connection pool *)

(** C8, as amended.  When the transport cache holds a transport for the
    origin, a call of [connect] leaves the [Proxy] of this transport as
    it is if the client cache of the builder holds a client for the
    origin, if the builder has no proxy, or if its proxy does not parse.
    Otherwise the call builds a client over the cached transport and
    sets the [Proxy] of the cached transport to the proxy of the
    builder. *)
Theorem connect_cached_transport (E : Env) (rb : loc) (urlStr : string)
  (s : State) (b : RequestBuilder) (u : URL) (t : loc) (tr : Transport) :
  builders s !! rb = Some b ->
  url_Parse E urlStr = inr u ->
  transportCache s !! (Scheme u +:+ "://" +:+ Host u) = Some (AnyTransport t) ->
  transports s !! t = Some tr ->
  exists x s',
    connect E alone rb urlStr s = Done x s'
    /\ transports s' !! t
       = Some (if isSet (cachedClient b (Scheme u +:+ "://" +:+ Host u)) then tr
               else if String.eqb (Proxy b) "" then tr
               else match url_Parse E (Proxy b) with
                    | inr proxy => withProxy proxy tr
                    | inl _ => tr
                    end).
Proof.
  intros Hb Hu Ht Htr.
  assert (Hlen : (rb < length (builders s))%nat) by (eapply lookup_lt_Some, Hb).
  assert (Hlt : (t < length (transports s))%nat) by (eapply lookup_lt_Some, Htr).
  unfold connect, cachedClient, getClientCache, clientCache_get,
    clientCache_setNX, transportCache_get, transportCache_setNX, new, alone,
    syncMap_get, syncMap_setNX.
  unfold_monad. rewrite Hu.
  set (key := Scheme u +:+ "://" +:+ Host u) in *. clearbody key.
  assert (Hlen' : forall b', (rb < length (<[rb := b']> (builders s)))%nat)
    by (intros; rewrite length_insert; exact Hlen).
  destruct (clientCache b) as [m | ] eqn:Hcc;
    [ destruct (m !! key) as [[c | t0] | ] eqn:Hmk | ];
    (destruct (String.eqb (Proxy b) "") eqn:Hp;
     [ | destruct (url_Parse E (Proxy b)) eqn:Hpp ]);
    repeat (progress
              (simpl;
               rewrite ?Hb, ?Hcc, ?Ht, ?Hp, ?Hpp, ?Htr, ?Hmk, ?lookup_empty,
                 ?list_lookup_insert_eq by (exact Hlen || apply Hlen')));
    (eexists; eexists; split; [ reflexivity | ]; simpl;
     first [ exact Htr | apply list_lookup_insert_eq; exact Hlt ]).
Qed.

Lemma connect_cached_transport_witness :
  exists x s',
    connect tagged alone 1%nat origin proxied = Done x s'
    /\ transports s' !! 0%nat
       = Some (withProxy (mkURL "http" "proxy-b:3128" "")
                 (mkTransport 2 (Some (mkURL "http" "proxy-a:3128" "")))).
Proof.
  apply (connect_cached_transport tagged 1%nat origin proxied
           (builder None "http://proxy-b:3128")
           (mkURL "http" "api.example.com" "/a") 0%nat
           (mkTransport 2 (Some (mkURL "http" "proxy-a:3128" "")))).
  - vm_compute. reflexivity.
  - vm_compute. reflexivity.
  - vm_compute. reflexivity.
  - vm_compute. reflexivity.
Defined.

(** C8, as stated, fails: the transport that a first builder created
    with its proxy is in the transport cache, and the call of a second
    builder, with another proxy, changes the [Proxy] of this transport. *)
Lemma cached_transport_proxy_replaced :
  let key := "http://api.example.com" in
  let s' := after (connect tagged alone 1%nat origin) proxied in
  transportCache proxied !! key = Some (AnyTransport 0%nat)
  /\ (Transport_Proxy <$> transports proxied !! 0%nat)
     = Some (Some (mkURL "http" "proxy-a:3128" ""))
  /\ connect tagged alone 1%nat origin proxied = Done (inr 1%nat) s'
  /\ (Transport_Proxy <$> transports s' !! 0%nat)
     = Some (Some (mkURL "http" "proxy-b:3128" ""))
  /\ ~ cachedTransportProxyKept tagged 1%nat origin proxied.
Proof.
  intros key s'.
  repeat (split; [ vm_compute; reflexivity | ]).
  intros H.
  destruct (H (mkURL "http" "api.example.com" "/a") 0%nat
              (mkTransport 2 (Some (mkURL "http" "proxy-a:3128" "")))
              (inr 1%nat) s')
    as (tr' & Htr & Hp);
    try (vm_compute; reflexivity).
  vm_compute in Htr. injection Htr as <-. discriminate Hp.
Qed.

(** A second call of the same builder for the same origin, after the
    first one has returned, gets the client of the first call. *)
Example connect_again :
  result (connect tagged alone 0%nat origin) s0 = Some (inr 0%nat)
  /\ result (connect tagged alone 0%nat origin)
            (after (connect tagged alone 0%nat origin) s0)
     = Some (inr 0%nat).
Proof. vm_compute. split; reflexivity. Qed.

(** C9.  Two calls of [connect] of one builder for one origin run at
    the same time; the second call runs as a whole after the first call
    looked up the client cache and before it publishes its client.  The
    [setNX] of the first call does not take effect, the client cache
    holds the client 0 of the second call, and the first call returns
    the client 1 that it built.  For the transport, [connect] reads the
    result of [setNX]: when the second call runs after the first one
    created its transport 0, the client of the first call is built over
    the transport 1 that the cache holds. *)
Theorem connect_returns_unpublished_client :
  let key := "http://api.example.com" in
  let first := connect tagged (overtaken 1 0%nat origin) 0%nat origin in
  let first' := connect tagged (overtaken 2 0%nat origin) 0%nat origin in
  result first s0 = Some (inr 1%nat)
  /\ cachedClient (builder0 (after first s0)) key = Some 0%nat
  /\ length (clients (after first s0)) = 2%nat
  /\ result first' s0 = Some (inr 1%nat)
  /\ cachedClient (builder0 (after first' s0)) key = Some 0%nat
  /\ asTransport (transportCache (after first' s0) !! key) = Some 1%nat
  /\ Client_Transport <$> clients (after first' s0) !! 1%nat = Some (Some 1%nat).
Proof. vm_compute. repeat split; reflexivity. Qed.

(** C1. A date in the format of RFC 7231 whose day of the month is
    after the 12th is refused by [time.Parse] under [httpDateFormat],
    where [01] (the month) stands in the place of [02] (the day): for the
    response with [Last-Modified] and [Expires] set to
    [Tue, 15 Nov 1994 08:12:31 GMT], which the layout of RFC 7231 reads
    as 784887151 seconds after the epoch, [setLastModified] stores
    nothing and reports false, and [setTTL], called in 1990 without a
    [Cache-Control] header, stores nothing and reports false. *)
Theorem IMF_fixdate_refused :
  let date := "Tue, 15 Nov 1994 08:12:31 GMT" in
  let s := holding [received [("Last-Modified", date); ("Expires", date)]] in
  Parse "Mon, 02 Jan 2006 15:04:05 GMT" date
  = inr (784887151 * Second)
  /\ Parse httpDateFormat date = inl (errRange "month")
  /\ setLastModified 0%nat s = Done false s
  /\ setTTL (env (Date 1990 1 1 0 0 0 0) (inl "")) 0%nat s = Done false s.
Proof. vm_compute. repeat split; reflexivity. Qed.

(** A date whose day is at most 12 is accepted, and read as the first
    day of the month that its month name gives. *)
Example IMF_fixdate_misread :
  Parse httpDateFormat "Sun, 06 Nov 1994 08:49:37 GMT"
  = inr (Date 1994 11 1 8 49 37 0).
Proof. vm_compute. reflexivity. Qed.

(** C2. For [Cache-Control: max-age=9223372037], received at the start
    of 2020, [setTTL] reports true, and the TTL that it stores is not
    [now] plus 9223372037 seconds: the product of [int64] that gives the
    [Duration] wraps around, and the TTL lies about 292 years before
    [now]. *)
Theorem setTTL_max_age_wraps :
  let r := received [("Cache-Control", "max-age=9223372037")] in
  Atoi "9223372037" = Some 9223372037
  /\ setTTL (env t2020 (inl "")) 0%nat (holding [r])
     = Done true (holding [withTTL (t2020 - 9223372036709551616) r])
  /\ t2020 - 9223372036709551616 < t2020 < t2020 + 9223372037 * Second.
Proof. vm_compute. repeat split; reflexivity. Qed.

End RestFacts.

(** ** Further properties of [net.go] *)

Module RestMore.
Import Bytes GoTime Regexp Strconv Http Rest Examples GoFacts RestFacts.

(** *** The small functions *)

(** X1. [match(s, sarray)] tells whether [s] is an element of [sarray],
    by the equality of strings: no case folding, no trimming. *)
Theorem match_membership (s : string) (sarray : list string) :
  match_ s sarray = true <-> In s sarray.
Proof. apply match_In. Qed.

(** X2. [getMaxIdle] is positive for every builder: it is the configured
    [MaxIdleConnsPerHost] when this one is positive, and the default of
    [net/http], 2, for zero and for a negative number. *)
Theorem getMaxIdle_positive (b : RequestBuilder) :
  0 < getMaxIdle b
  /\ (0 < MaxIdleConnsPerHost b -> getMaxIdle b = MaxIdleConnsPerHost b)
  /\ (MaxIdleConnsPerHost b <= 0 -> getMaxIdle b = DefaultMaxIdleConnsPerHost).
Proof.
  unfold getMaxIdle, DefaultMaxIdleConnsPerHost.
  destruct (Z.ltb_spec 0 (MaxIdleConnsPerHost b)); repeat split; lia.
Qed.

(** X3. With a default timeout that is not negative, [getTimeout] is
    never negative, [DisableTimeout] wins over a configured [Timeout],
    and the result is 0 (no timeout) only when the timeout is disabled or
    nothing positive is configured and the default is 0. *)
Theorem getTimeout_bounds (E : Env) (b : RequestBuilder) :
  0 <= DefaultTimeout E ->
  0 <= getTimeout E b
  /\ (DisableTimeout b = true -> getTimeout E b = 0)
  /\ (getTimeout E b = 0 <->
      DisableTimeout b = true \/ (Timeout b <= 0 /\ DefaultTimeout E = 0)).
Proof.
  intros Hd. unfold getTimeout.
  destruct (DisableTimeout b);
    [ | destruct (Z.ltb_spec 0 (Timeout b)) ];
    intuition (try discriminate; try lia).
Qed.

Lemma getTimeout_bounds_witness :
  0 <= getTimeout tagged (builder None "")
  /\ (DisableTimeout (builder None "") = true ->
      getTimeout tagged (builder None "") = 0)
  /\ (getTimeout tagged (builder None "") = 0 <->
      DisableTimeout (builder None "") = true
      \/ (Timeout (builder None "") <= 0 /\ DefaultTimeout tagged = 0)).
Proof.
  apply (getTimeout_bounds tagged (builder None "")). vm_compute. discriminate.
Defined.

(** X4. [checkMockup] returns the URL it was given as the key of the
    cache in every case.  Outside of the test mode the URL to call is the
    same URL and there is no error; in the test mode an error is the
    error of [url.Parse] on that URL, and the URL is returned as it
    was. *)
Theorem checkMockup_cache_key (E : Env) (reqURL : string) :
  snd (fst (checkMockup E reqURL)) = reqURL
  /\ (mockUpEnv E = false -> checkMockup E reqURL = (reqURL, reqURL, None))
  /\ (forall err, snd (checkMockup E reqURL) = Some err ->
      mockUpEnv E = true /\ url_Parse E reqURL = inl err
      /\ fst (fst (checkMockup E reqURL)) = reqURL).
Proof.
  unfold checkMockup.
  destruct (mockUpEnv E); [ destruct (url_Parse E reqURL) eqn:Hp | ]; simpl;
    repeat split; try reflexivity; try discriminate; intros;
    simplify_eq; auto.
Qed.

(** X5. [getClientCache] creates the client cache of the builder at
    its first use only: a second call changes nothing, a cache that
    exists is kept with its entries, and the configuration of the builder
    and the other builders are as before. *)
Theorem getClientCache_once (rb : loc) (s : State) (b : RequestBuilder) :
  builders s !! rb = Some b ->
  exists s1 b1,
    getClientCache rb s = Done tt s1
    /\ getClientCache rb s1 = Done tt s1
    /\ builders s1 !! rb = Some b1
    /\ clientCache b1 = Some (default ∅ (clientCache b))
    /\ sameConfig b b1
    /\ (forall m, clientCache b = Some m -> s1 = s)
    /\ (forall i, i <> rb -> builders s1 !! i = builders s !! i).
Proof.
  intros Hb.
  assert (Hlen : (rb < length (builders s))%nat) by (eapply lookup_lt_Some, Hb).
  unfold getClientCache. unfold_monad. rewrite Hb.
  destruct (clientCache b) as [m | ] eqn:Hcc.
  - exists s, b. rewrite Hb, Hcc. unfold sameConfig. auto 15.
  - rewrite Hb. eexists. exists (withClientCache ∅ b).
    split; [ reflexivity | ]. simpl.
    rewrite list_lookup_insert_eq by exact Hlen. simpl.
    unfold sameConfig. repeat split; try reflexivity; try discriminate.
    intros i Hi. apply list_lookup_insert_ne. congruence.
Qed.

Lemma getClientCache_once_witness :
  exists s1 b1,
    getClientCache 0%nat s0 = Done tt s1
    /\ getClientCache 0%nat s1 = Done tt s1
    /\ builders s1 !! 0%nat = Some b1
    /\ clientCache b1 = Some (default ∅ (clientCache (builder None "")))
    /\ sameConfig (builder None "") b1
    /\ (forall m, clientCache (builder None "") = Some m -> s1 = s0)
    /\ (forall i, i <> 0%nat -> builders s1 !! i = builders s0 !! i).
Proof. apply (getClientCache_once 0%nat s0 (builder None "")). reflexivity. Defined.

(** *** The freshness evaluator *)

Lemma spanDigits_split (s : string) :
  s = fst (spanDigits s) +:+ snd (spanDigits s)
  /\ allBytes isDigitChar (fst (spanDigits s)) = true.
Proof.
  induction s as [ | c s [IH1 IH2]]; simpl; [ auto | ].
  destruct (isDigitChar c) eqn:Hc; [ | auto ].
  destruct (spanDigits s) as [d r]. simpl in *.
  rewrite Hc, IH2. split; [ exact (f_equal (String c) IH1) | reflexivity ].
Qed.

Lemma longestFirst_first {R : Type} (n : nat) (s : string)
  (k : string -> R) :
  longestFirst (S n) s (fun s' => Some (k s')) = Some (k (drop (S n) s)).
Proof. reflexivity. Qed.

(** The group of a match of [=(\d+)] is the longest run of digits after
    the sign [=], and it is not empty. *)
Lemma digits_group (s : string) (cap0 cap : option string) (s' : string) :
  matchAt (Cat (Lit "=") (Group Digits1)) s cap0 (fun s' cap => Some (s', cap))
  = Some (s', cap) ->
  exists g, cap = Some g /\ g <> EmptyString /\ allBytes isDigitChar g = true.
Proof.
  cbn [matchAt]. destruct (stripPrefix "=" s) as [s2 | ]; [ | discriminate ].
  destruct (spanDigits_split s2) as [Hs Hd].
  remember (snd (spanDigits s2)) as rest eqn:Hrest. clear Hrest.
  destruct (fst (spanDigits s2)) as [ | c ds]; [ discriminate | ].
  change (String.length (String c ds)) with (S (String.length ds)).
  rewrite (longestFirst_first _ _
             (fun s' => (s', Some (take (String.length s2 - String.length s') s2)))).
  intros [= <- <-].
  exists (String c ds). split; [ | split; [ discriminate | exact Hd ] ].
  f_equal. subst s2.
  change (take (String.length (String c ds +:+ rest)
                - String.length (drop (String.length (String c ds))
                                      (String c ds +:+ rest)))
               (String c ds +:+ rest) = String c ds).
  rewrite drop_append. apply take_append.
Qed.

Lemma maxAge_group (s w g : string) :
  FindStringSubmatch maxAge s = [w; g] ->
  g <> EmptyString /\ allBytes isDigitChar g = true.
Proof.
  assert (Hat : forall t s' cap,
             matchAt maxAge t None (fun s' cap => Some (s', cap)) = Some (s', cap) ->
             exists g, cap = Some g /\ g <> EmptyString
                       /\ allBytes isDigitChar g = true).
  { intros t s' cap. unfold maxAge. cbn [matchAt].
    destruct (stripPrefix "max-age" t) as [t1 | ].
    - destruct (matchAt (Cat (Lit "=") (Group Digits1)) t1 None
                  (fun s' cap => Some (s', cap))) as [[a c] | ] eqn:H1.
      + cbn [matchAt] in H1. rewrite H1. intros [= <- <-].
        apply (digits_group t1 None c a). cbn [matchAt]. exact H1.
      + cbn [matchAt] in H1. rewrite H1.
        destruct (stripPrefix "s-maxage" t) as [t2 | ]; [ | discriminate ].
        intros H2. apply (digits_group t2 None cap s'). cbn [matchAt]. exact H2.
    - destruct (stripPrefix "s-maxage" t) as [t2 | ]; [ | discriminate ].
      intros H2. apply (digits_group t2 None cap s'). cbn [matchAt]. exact H2. }
  induction s as [ | c s IH]; cbn [FindStringSubmatch].
  - destruct (matchAt maxAge EmptyString None _) as [[s' cap] | ] eqn:Hm;
      [ | discriminate ].
    destruct (Hat _ _ _ Hm) as (g' & -> & Hg). intros [= _ <-]. exact Hg.
  - destruct (matchAt maxAge (String c s) None _) as [[s' cap] | ] eqn:Hm;
      [ | exact IH ].
    destruct (Hat _ _ _ Hm) as (g' & -> & Hg). intros [= _ <-]. exact Hg.
Qed.

Lemma decimal_digits (g : string) (acc : Z) :
  allBytes isDigitChar g = true -> 0 <= acc ->
  exists v, decimal acc g = Some v /\ acc <= v.
Proof.
  revert acc. induction g as [ | c g IH]; intros acc Hd Ha; simpl in *.
  - exists acc. split; [ reflexivity | lia ].
  - apply andb_true_iff in Hd as [Hc Hd]. rewrite Hc.
    assert (0 <= digitVal c).
    { unfold isDigitChar in Hc. apply andb_true_iff in Hc as [H1 _].
      apply Z.leb_le in H1. unfold digitVal. lia. }
    destruct (IH (acc * 10 + digitVal c) Hd ltac:(lia)) as (v & Hv & Hle).
    exists v. split; [ exact Hv | lia ].
Qed.

(** [strconv.Atoi] on a run of digits fails only when the number does
    not fit in an [int], and never gives a negative number. *)
Lemma Atoi_digits (g : string) :
  g <> EmptyString -> allBytes isDigitChar g = true ->
  exists v, decimal 0 g = Some v /\ 0 <= v
            /\ Atoi g = if v <=? Int64.max then Some v else None.
Proof.
  intros Hne Hd. destruct g as [ | c g]; [ contradiction | ].
  destruct (decimal_digits (String c g) 0 Hd ltac:(lia)) as (v & Hv & Hle).
  exists v. split; [ exact Hv | ]. split; [ exact Hle | ].
  assert (Hc : isDigitChar c = true)
    by (simpl in Hd; apply andb_true_iff in Hd as [Hc _]; exact Hc).
  assert (Hu : Atoi (String c g)
               = match decimal 0 (String c g) with
                 | Some n => if Int64.inRange n then Some n else None
                 | None => None
                 end).
  { destruct c as [[] [] [] [] [] [] [] []]; try discriminate Hc; reflexivity. }
  rewrite Hu, Hv. unfold Int64.inRange.
  replace (Int64.min <=? v) with true
    by (symmetry; apply Z.leb_le; unfold Int64.min; lia).
  reflexivity.
Qed.

(** X6. When [Cache-Control] has a match of [maxAge], the number that
    [setTTL] reads is never negative: the match ends [setTTL] without a
    TTL exactly when the number is 0 or does not fit in an [int] (it is
    above 2^63 - 1); in every other case the TTL is set and true is
    reported. *)
Theorem setTTL_on_match (E : Env) (s : State) (p : loc) (r : Response)
  (hr : HttpResponse) (whole digits : string) :
  responses s !! p = Some r ->
  httpResponse r = Some hr ->
  FindStringSubmatch maxAge (Get (Header_ hr) "Cache-Control")
  = [whole; digits] ->
  exists v,
    decimal 0 digits = Some v /\ 0 <= v
    /\ setTTL E p s
       = if (v =? 0) || (Int64.max <? v) then Done false s
         else Done true
                (setResponses
                   (fun l => <[p := withTTL (Add (now E) (Seconds v)) r]> l) s).
Proof.
  intros Hp Hh Hm.
  destruct (maxAge_group _ _ _ Hm) as [Hne Hd].
  destruct (Atoi_digits digits Hne Hd) as (v & Hv & Hle & Ha).
  exists v. split; [ exact Hv | ]. split; [ exact Hle | ].
  rewrite (setTTL_match E s p r hr Hp Hh _ _ Hm), Ha.
  destruct (Z.leb_spec v Int64.max) as [H1 | H1].
  - replace (Int64.max <? v) with false by (symmetry; apply Z.ltb_ge; lia).
    rewrite orb_false_r.
    destruct (Z.eqb_spec v 0) as [-> | H0]; [ reflexivity | ].
    replace (0 <? v) with true by (symmetry; apply Z.ltb_lt; lia).
    reflexivity.
  - replace (Int64.max <? v) with true by (symmetry; apply Z.ltb_lt; lia).
    rewrite orb_true_r. reflexivity.
Qed.

Lemma setTTL_on_match_witness :
  exists v,
    decimal 0 "0" = Some v /\ 0 <= v
    /\ setTTL tagged 0%nat
         (holding [received [("Cache-Control", "no-cache, max-age=0")]])
       = if (v =? 0) || (Int64.max <? v)
         then Done false
                (holding [received [("Cache-Control", "no-cache, max-age=0")]])
         else Done true
                (setResponses
                   (fun l => <[0%nat :=
                       withTTL (Add (now tagged) (Seconds v))
                         (received [("Cache-Control", "no-cache, max-age=0")])]> l)
                   (holding [received [("Cache-Control", "no-cache, max-age=0")]])).
Proof.
  apply (setTTL_on_match tagged
           (holding [received [("Cache-Control", "no-cache, max-age=0")]])
           0%nat (received [("Cache-Control", "no-cache, max-age=0")])
           (mkHttpResponse 200 {["Cache-Control" := ["no-cache, max-age=0"]]}
              (inr "")) "max-age=0" "0").
  - vm_compute. reflexivity.
  - vm_compute. reflexivity.
  - vm_compute. reflexivity.
Defined.

(** X7. Dates whose day of the month is after the 12th give no
    freshness: whatever the weekday, the day and the rest of the text,
    [setLastModified] reports false for such a [Last-Modified] and
    [setTTL], without a match of [maxAge] in [Cache-Control], reports
    false for such an [Expires]; both leave the state as it is. *)
Theorem late_days_refused (E : Env) (s : State) (p : loc) (r : Response)
  (hr : HttpResponse) (wd : string) (c1 c2 : ascii) (rest : string) :
  responses s !! p = Some r ->
  httpResponse r = Some hr ->
  In wd shortDayNames ->
  isDigitChar c1 = true -> isDigitChar c2 = true ->
  12 < digitVal c1 * 10 + digitVal c2 ->
  let date := wd +:+ ", " +:+ String c1 (String c2 rest) in
  (Get (Header_ hr) "Last-Modified" = date ->
   setLastModified p s = Done false s)
  /\ (Get (Header_ hr) "Expires" = date ->
      FindStringSubmatch maxAge (Get (Header_ hr) "Cache-Control") = [] ->
      setTTL E p s = Done false s).
Proof.
  intros Hp Hh Hwd H1 H2 Hd date.
  pose proof (Parse_zero_month_day_above_12 wd c1 c2 rest Hwd H1 H2 Hd) as HP.
  fold date in HP. split.
  - intros Hl. rewrite (setLastModified_eq s p r hr Hp Hh), Hl, HP. reflexivity.
  - intros He Hm. rewrite (setTTL_no_match E s p r hr Hp Hh Hm), He, HP.
    reflexivity.
Qed.

Lemma late_days_refused_witness :
  setLastModified 0%nat late = Done false late
  /\ setTTL tagged 0%nat late = Done false late.
Proof.
  destruct (late_days_refused tagged late 0%nat
              (received [("Last-Modified", "Wed, 31 Dec 2025 23:59:59 GMT");
                         ("Expires", "Wed, 31 Dec 2025 23:59:59 GMT")])
              (mkHttpResponse 200
                 {["Last-Modified" := ["Wed, 31 Dec 2025 23:59:59 GMT"];
                   "Expires" := ["Wed, 31 Dec 2025 23:59:59 GMT"]]} (inr ""))
              "Wed" "3" "1" " Dec 2025 23:59:59 GMT") as [H1 H2].
  - vm_compute. reflexivity.
  - vm_compute. reflexivity.
  - vm_compute. tauto.
  - vm_compute. reflexivity.
  - vm_compute. reflexivity.
  - vm_compute. reflexivity.
  - split; [ apply H1 | apply H2 ]; vm_compute; reflexivity.
Defined.

Lemma returns_header {A : Type} (p : loc) (k : Header -> M A) (s s' : State)
  (a : A) :
  (respHeader p ≫= k) s = Done a s' ->
  exists r hr, responses s !! p = Some r /\ httpResponse r = Some hr.
Proof.
  unfold respHeader. unfold_monad.
  destruct (responses s !! p) as [r | ]; [ | discriminate ].
  destruct (httpResponse r) as [hr | ] eqn:Hh; [ | discriminate ]. eauto.
Qed.

Lemma sameButResponses_set (f : list Response -> list Response) (s : State) :
  sameButResponses s (setResponses f s).
Proof. unfold sameButResponses. simpl. auto 10. Qed.

(** X8. The three functions of the freshness evaluator write one field
    each of the response they are given: [ttl], [lastModified] and
    [etag].  They leave its embedded response, error, body and
    [revalidate] flag, the other responses and the rest of the state as
    they are. *)
Theorem freshness_frame (E : Env) (p : loc) (s s' : State) (set : bool) :
  (setTTL E p s = Done set s' ->
   exists r r',
     responses s !! p = Some r /\ responses s' = <[p := r']> (responses s)
     /\ sameExchange r r' /\ lastModified r' = lastModified r
     /\ etag r' = etag r /\ isSet (ttl r') = set || isSet (ttl r)
     /\ sameButResponses s s')
  /\ (setLastModified p s = Done set s' ->
      exists r r',
        responses s !! p = Some r /\ responses s' = <[p := r']> (responses s)
        /\ sameExchange r r' /\ ttl r' = ttl r /\ etag r' = etag r
        /\ isSet (lastModified r') = set || isSet (lastModified r)
        /\ sameButResponses s s')
  /\ (setETag p s = Done set s' ->
      exists r r',
        responses s !! p = Some r /\ responses s' = <[p := r']> (responses s)
        /\ sameExchange r r' /\ ttl r' = ttl r
        /\ lastModified r' = lastModified r
        /\ negb (String.eqb (etag r') "") = set
        /\ sameButResponses s s').
Proof.
  split; [ | split ]; intros H.
  - destruct (returns_header _ _ _ _ _ H) as (r & hr & Hp & Hh).
    rewrite (setTTL_eq E s p r hr Hp Hh) in H. injection H as <- <-.
    exists r, (withTTL' (ttlOf (now E) (Header_ hr)) r).
    split; [ exact Hp | ]. split; [ reflexivity | ].
    unfold sameExchange.
    destruct (ttlOf (now E) (Header_ hr)); simpl;
      repeat split; auto using sameButResponses_set.
  - destruct (returns_header _ _ _ _ _ H) as (r & hr & Hp & Hh).
    rewrite (setLastModified_eq' s p r hr Hp Hh) in H. injection H as <- <-.
    exists r, (withLastModified' (lastModifiedOf (Header_ hr)) r).
    split; [ exact Hp | ]. split; [ reflexivity | ].
    unfold sameExchange.
    destruct (lastModifiedOf (Header_ hr)); simpl;
      repeat split; auto using sameButResponses_set.
  - destruct (returns_header _ _ _ _ _ H) as (r & hr & Hp & Hh).
    rewrite (setETag_eq s p r hr Hp Hh) in H. injection H as <- <-.
    exists r, (withETag (Get (Header_ hr) "ETag") r).
    split; [ exact Hp | ]. split; [ reflexivity | ].
    unfold sameExchange. simpl.
    repeat split; auto using sameButResponses_set.
Qed.

Lemma freshness_frame_witness :
  (exists r r',
      responses unread !! 0%nat = Some r
      /\ responses unread = <[0%nat := r']> (responses unread)
      /\ sameExchange r r' /\ lastModified r' = lastModified r
      /\ etag r' = etag r /\ isSet (ttl r') = false || isSet (ttl r)
      /\ sameButResponses unread unread)
  /\ (exists r r',
        responses unread !! 0%nat = Some r
        /\ responses unread = <[0%nat := r']> (responses unread)
        /\ sameExchange r r' /\ ttl r' = ttl r /\ etag r' = etag r
        /\ isSet (lastModified r') = false || isSet (lastModified r)
        /\ sameButResponses unread unread)
  /\ (exists r r',
        responses unread !! 0%nat = Some r
        /\ responses read = <[0%nat := r']> (responses unread)
        /\ sameExchange r r' /\ ttl r' = ttl r
        /\ lastModified r' = lastModified r
        /\ negb (String.eqb (etag r') "") = true
        /\ sameButResponses unread read).
Proof.
  destruct (freshness_frame tagged 0%nat unread unread false) as (H1 & H2 & _).
  destruct (freshness_frame tagged 0%nat unread read true) as (_ & _ & H3).
  split; [ apply H1; vm_compute; reflexivity | ].
  split; [ apply H2; vm_compute; reflexivity | ].
  apply H3. vm_compute. reflexivity.
Defined.

(** *** The connection pool *)

(** The cases of a call of [connect] that no other goroutine
    interleaves with, from a state whose transport cache holds
    transports: the goal is left with the final state of each case. *)
Ltac connect_cases E rb urlStr s b Hb Hvt Hu Hcc Hmk Ht Htr Hp Hpp :=
  let Hlen := fresh "Hlen" in
  let Hlen' := fresh "Hlen'" in
  let key := fresh "key" in
  assert (Hlen : (rb < length (builders s))%nat)
    by (eapply lookup_lt_Some, Hb);
  assert (Hlen' : forall b', (rb < length (<[rb := b']> (builders s)))%nat)
    by (intros; rewrite length_insert; exact Hlen);
  unfold connect, cachedClient, originOf, getClientCache, clientCache_get,
    clientCache_setNX, transportCache_get, transportCache_setNX, new, alone,
    syncMap_get, syncMap_setNX;
  unfold_monad;
  destruct (url_Parse E urlStr) as [err | u0] eqn:Hu;
  [ destruct (clientCache b) as [m | ] eqn:Hcc;
    repeat (progress
              (simpl; rewrite ?Hb, ?Hcc, ?list_lookup_insert_eq
                 by (exact Hlen || apply Hlen')))
  | set (key := Scheme u0 +:+ "://" +:+ Host u0) in *;
    destruct (clientCache b) as [m | ] eqn:Hcc;
    [ destruct (m !! key) as [[c | t0] | ] eqn:Hmk | ];
    (destruct (transportCache s !! key) as [v | ] eqn:Ht;
     [ destruct (Hvt _ _ Ht) as (t & -> & Hlt);
       destruct (transports s !! t) as [tr | ] eqn:Htr;
       [ | apply lookup_ge_None in Htr; lia ]
     | ]);
    (destruct (String.eqb (Proxy b) "") eqn:Hp;
     [ | destruct (url_Parse E (Proxy b)) as [perr | proxy] eqn:Hpp ]);
    repeat (progress
              (simpl;
               rewrite ?Hb, ?Hcc, ?Ht, ?Hp, ?Hpp, ?Htr, ?Hmk, ?lookup_empty,
                 ?lookup_insert_eq, ?lookup_app_r, ?Nat.sub_diag,
                 ?list_lookup_insert_eq
                 by (exact Hlen || apply Hlen' || lia))) ].

(** The test [wellFormedb] is sound. *)
Lemma wellFormedb_sound (s : State) : wellFormedb s = true -> wellFormed s.
Proof.
  unfold wellFormedb. rewrite !andb_true_iff, !forallb_forall.
  intros [[[Ht Hc] Hh] Hr]. repeat split.
  - intros k v Hk.
    apply elem_of_map_to_list, list_elem_of_In, Ht in Hk.
    unfold holdsTransport in Hk. simpl in Hk. destruct v; [ discriminate | ].
    eexists. split; [ reflexivity | ]. apply Nat.ltb_lt, Hk.
  - intros i b m k v Hi Hm Hk.
    apply list_elem_of_lookup_2, list_elem_of_In, Hc in Hi. rewrite Hm in Hi.
    rewrite forallb_forall in Hi.
    apply elem_of_map_to_list, list_elem_of_In, Hi in Hk.
    unfold holdsClient in Hk. simpl in Hk. destruct v; [ | discriminate ].
    eexists. split; [ reflexivity | ]. apply Nat.ltb_lt, Hk.
  - intros i b l Hi Hl.
    apply list_elem_of_lookup_2, list_elem_of_In, Hh in Hi. rewrite Hl in Hi.
    apply Nat.ltb_lt, Hi.
  - intros k q Hk.
    apply elem_of_map_to_list, list_elem_of_In, Hr in Hk.
    apply Nat.ltb_lt, Hk.
Qed.

(** The lengths of the stores that a goal mentions, after updates. *)
Ltac lengths :=
  repeat (rewrite ?length_insert, ?length_app in *; simpl in * );
  try lia.

(** One step of the analysis of a lookup in an updated store or cache. *)
Ltac lookup_step :=
  match goal with
  | H : <[_ := _]> _ !! _ = Some _ |- _ =>
      first [ apply list_lookup_insert_Some in H as [(_ & <- & _) | (_ & H)]
            | apply lookup_insert_Some in H as [(<- & <-) | (_ & H)] ]
  | H : ∅ !! _ = Some _ |- _ => rewrite lookup_empty in H; discriminate H
  | H : clientCache (withClientCache _ _) = Some _ |- _ =>
      simpl in H; injection H as <-
  | H : Headers (withClientCache _ _) = Some _ |- _ => simpl in H
  end.

(** Well-formedness of the state that a case of [connect] ends in, from
    the well-formedness [Hvt], [Hvc], [Hvh] of the state it starts in. *)
Ltac valid_after Hvt Hvc Hvh :=
  intros; repeat lookup_step;
  match goal with
  | |- exists t, AnyTransport _ = AnyTransport t /\ _ =>
      eexists; split; [ reflexivity | lengths ]
  | |- exists c, AnyClient _ = AnyClient c /\ _ =>
      eexists; split; [ reflexivity | lengths ]
  | Hk : _ !! _ = Some ?v |- exists t, ?v = AnyTransport t /\ _ =>
      destruct (Hvt _ _ Hk) as (? & -> & ?);
      eexists; split; [ reflexivity | lengths ]
  | |- exists c, ?v = AnyClient c /\ _ =>
      let H := fresh in
      assert (H : exists c, v = AnyClient c /\ (c < length (clients _))%nat)
        by eauto;
      destruct H as (? & -> & ?);
      eexists; split; [ reflexivity | lengths ]
  | |- (_ < length (headerMaps _))%nat => eauto
  | |- (_ < _)%nat => lengths
  | |- exists u, inr _ = inr u => eexists; reflexivity
  end.

(** X9. From a well-formed state, a call of [connect] that nothing
    interleaves with returns, and leaves a well-formed state: it does
    not reach the assignment of a proxy to a nil transport.  It returns
    an error exactly when the URL does not parse, and otherwise a client
    of the store. *)
Theorem connect_well_formed (E : Env) (rb : loc) (urlStr : string)
  (s : State) (b : RequestBuilder) :
  builders s !! rb = Some b ->
  wellFormed s ->
  exists x s',
    connect E alone rb urlStr s = Done x s'
    /\ wellFormed s'
    /\ match x with
       | inl err => url_Parse E urlStr = inl err
       | inr c => (c < length (clients s'))%nat
                  /\ exists u, url_Parse E urlStr = inr u
       end.
Proof.
  intros Hb (Hvt & Hvc & Hvh & Hvr).
  connect_cases E rb urlStr s b Hb Hvt Hu Hcc Hmk Ht Htr Hp Hpp.
  all: eexists; eexists; (split; [ reflexivity | ]).
  all: unfold wellFormed, validTransports, validClients, validHeaders,
         validCache; simpl.
  all: try (destruct (Hvc _ _ _ _ _ Hb Hcc Hmk) as (? & ? & _); discriminate).
  all: repeat split; try exact Hvr; try exact Hvt; try exact Hvc;
         try exact Hvh.
  all: try (valid_after Hvt Hvc Hvh).
  all: destruct (Hvc _ _ _ _ _ Hb Hcc Hmk) as (? & [= <-] & ?); assumption.
Qed.

Lemma connect_well_formed_witness :
  exists x s',
    connect tagged alone 1%nat origin proxied = Done x s'
    /\ wellFormed s'
    /\ match x with
       | inl err => url_Parse tagged origin = inl err
       | inr c => (c < length (clients s'))%nat
                  /\ exists u, url_Parse tagged origin = inr u
       end.
Proof.
  apply (connect_well_formed tagged 1%nat origin proxied
           (builder None "http://proxy-b:3128")).
  - vm_compute. reflexivity.
  - apply wellFormedb_sound. vm_compute. reflexivity.
Defined.


(** X10. A call of [connect] only adds: every entry of the transport
    cache and of the client cache of the builder is kept, the options
    of the builder and the other builders are unchanged, the clients
    are kept, and the transports keep their number of idle connections
    (their proxy may change).  The responses, the header maps and the
    Resource Cache are not touched. *)
Theorem connect_keeps_entries (E : Env) (rb : loc) (urlStr : string)
  (s : State) (b : RequestBuilder) :
  builders s !! rb = Some b ->
  validTransports s ->
  exists x s',
    connect E alone rb urlStr s = Done x s'
    /\ (forall k v, transportCache s !! k = Some v ->
          transportCache s' !! k = Some v)
    /\ (exists b' m',
          builders s' !! rb = Some b' /\ sameConfig b b'
          /\ clientCache b' = Some m'
          /\ forall m k v, clientCache b = Some m -> m !! k = Some v ->
               m' !! k = Some v)
    /\ (forall i, i <> rb -> builders s' !! i = builders s !! i)
    /\ (exists cs, clients s' = clients s ++ cs)
    /\ (forall t tr, transports s !! t = Some tr ->
          exists tr', transports s' !! t = Some tr'
            /\ Transport_MaxIdleConnsPerHost tr'
               = Transport_MaxIdleConnsPerHost tr)
    /\ responses s' = responses s /\ headerMaps s' = headerMaps s
    /\ resourceCache s' = resourceCache s.
Proof.
  intros Hb Hvt.
  connect_cases E rb urlStr s b Hb Hvt Hu Hcc Hmk Ht Htr Hp Hpp.
  all: eexists; eexists; (split; [ reflexivity | ]); simpl.
  all: split; [ | split; [ | split; [ | split; [ | split ] ] ] ].
  all: try (split; [ reflexivity | split; reflexivity ]).
  all: try (intros k v Hk; assumption).
  all: try (exists []; symmetry; apply app_nil_r).
  all: try (eexists; reflexivity).
  all: try (intros i Hi; rewrite ?list_lookup_insert_ne by congruence;
            reflexivity).
  all: try (intros k v Hk; rewrite lookup_insert_ne by congruence; exact Hk).
  all: try (rewrite ?list_lookup_insert_eq
              by (rewrite ?length_insert; eapply lookup_lt_Some, Hb);
            eexists; eexists;
            (split; [ first [ exact Hb | reflexivity ] | ]);
            (split; [ unfold sameConfig; simpl; tauto | ]);
            (split; [ first [ exact Hcc | reflexivity ] | ]);
            intros m0 k v Hm Hk; simplify_eq;
            rewrite ?lookup_insert_ne by congruence; exact Hk).
  all: intros t' tr' H0; pose proof (lookup_lt_Some _ _ _ H0) as Hlt0;
    repeat match goal with
           | |- context [<[?i := _]> _ !! t'] =>
               destruct (decide (i = t')) as [<- | ?];
               [ rewrite list_lookup_insert_eq by lengths
               | rewrite list_lookup_insert_ne by assumption ]
           end;
    try lia;
    rewrite ?lookup_app_l by lengths;
    (eexists; split; [ first [ exact H0 | reflexivity ] | ]);
    try reflexivity;
    assert (Some tr = Some tr') as [= <-] by (rewrite <- Htr; exact H0);
    reflexivity.
Qed.

Lemma connect_keeps_entries_witness :
  exists x s',
    connect tagged alone 1%nat origin proxied = Done x s'
    /\ (forall k v, transportCache proxied !! k = Some v ->
          transportCache s' !! k = Some v)
    /\ (exists b' m',
          builders s' !! 1%nat = Some b'
          /\ sameConfig (builder None "http://proxy-b:3128") b'
          /\ clientCache b' = Some m'
          /\ forall m k v,
               clientCache (builder None "http://proxy-b:3128") = Some m ->
               m !! k = Some v -> m' !! k = Some v)
    /\ (forall i, i <> 1%nat -> builders s' !! i = builders proxied !! i)
    /\ (exists cs, clients s' = clients proxied ++ cs)
    /\ (forall t tr, transports proxied !! t = Some tr ->
          exists tr', transports s' !! t = Some tr'
            /\ Transport_MaxIdleConnsPerHost tr'
               = Transport_MaxIdleConnsPerHost tr)
    /\ responses s' = responses proxied /\ headerMaps s' = headerMaps proxied
    /\ resourceCache s' = resourceCache proxied.
Proof.
  apply (connect_keeps_entries tagged 1%nat origin proxied
           (builder None "http://proxy-b:3128")).
  - vm_compute. reflexivity.
  - apply wellFormedb_sound. vm_compute. reflexivity.
Defined.

(** X11. For a URL that does not parse, [connect] returns the error
    of the parser whatever the other goroutines do: it creates no
    client and no transport and leaves the transport cache as it is,
    but it has created the client cache of the builder if there was
    none. *)
Theorem connect_malformed_url (E : Env) (other : nat -> State -> State)
  (rb : loc) (urlStr : string) (s : State) (b : RequestBuilder) (err : Error) :
  builders s !! rb = Some b ->
  url_Parse E urlStr = inl err ->
  exists s' b',
    connect E other rb urlStr s = Done (inl err) s'
    /\ transports s' = transports s /\ clients s' = clients s
    /\ transportCache s' = transportCache s
    /\ trace s' = trace s ++ [EvConnect urlStr]
    /\ builders s' !! rb = Some b' /\ sameConfig b b'
    /\ clientCache b' = Some (default ∅ (clientCache b)).
Proof.
  intros Hb Hu.
  assert (Hlen : (rb < length (builders s))%nat)
    by (eapply lookup_lt_Some, Hb).
  unfold connect, getClientCache. unfold_monad. rewrite Hu. simpl.
  rewrite Hb.
  destruct (clientCache b) as [m | ] eqn:Hcc; simpl; rewrite ?Hb; simpl;
    eexists; eexists; (split; [ reflexivity | ]); simpl;
    rewrite ?list_lookup_insert_eq by exact Hlen;
    repeat (split; [ first [ reflexivity | exact Hb ] | ]);
    (split; [ unfold sameConfig; simpl; tauto | ]);
    first [ exact Hcc | reflexivity ].
Qed.

Lemma connect_malformed_url_witness :
  exists s' b',
    connect tagged (overtaken 1 0%nat origin) 0%nat "api.example.com" s0
    = Done (inl "parse: missing protocol scheme") s'
    /\ transports s' = transports s0 /\ clients s' = clients s0
    /\ transportCache s' = transportCache s0
    /\ trace s' = trace s0 ++ [EvConnect "api.example.com"]
    /\ builders s' !! 0%nat = Some b' /\ sameConfig (builder None "") b'
    /\ clientCache b' = Some (default ∅ (clientCache (builder None ""))).
Proof.
  apply (connect_malformed_url tagged (overtaken 1 0%nat origin) 0%nat
           "api.example.com" s0 (builder None "")
           "parse: missing protocol scheme").
  - vm_compute. reflexivity.
  - vm_compute. reflexivity.
Defined.

(** A client that the client cache of the builder holds for the origin
    of the URL is returned as it is; nothing is created and no proxy is
    assigned. *)
Lemma connect_hit (E : Env) (rb : loc) (urlStr : string) (s : State)
  (b : RequestBuilder) (u : URL) (c : loc) :
  builders s !! rb = Some b ->
  url_Parse E urlStr = inr u ->
  cachedClient b (originOf u) = Some c ->
  connect E alone rb urlStr s = Done (inr c) (emit (EvConnect urlStr) s).
Proof.
  intros Hb Hu Hc.
  unfold connect, getClientCache, clientCache_get, alone, syncMap_get.
  unfold_monad. rewrite Hu. simpl. rewrite Hb.
  unfold cachedClient, originOf in Hc.
  destruct (clientCache b) as [m | ] eqn:Hcc; [ | discriminate Hc ].
  simpl in *. rewrite Hb, Hcc. simpl.
  set (key := Scheme u +:+ "://" +:+ Host u) in *.
  destruct (asClient (m !! key)); [ | discriminate Hc ].
  injection Hc as ->. reflexivity.
Qed.

(** After a call of [connect] from a well-formed state, the client cache
    of the builder holds the client that the call returned. *)
Lemma connect_publishes (E : Env) (rb : loc) (urlStr : string)
  (s s' : State) (b : RequestBuilder) (cl : loc) :
  builders s !! rb = Some b ->
  wellFormed s ->
  connect E alone rb urlStr s = Done (inr cl) s' ->
  exists b' u,
    builders s' !! rb = Some b' /\ url_Parse E urlStr = inr u
    /\ cachedClient b' (originOf u) = Some cl.
Proof.
  intros Hb (Hvt & Hvc & _).
  connect_cases E rb urlStr s b Hb Hvt Hu Hcc Hmk Ht Htr Hp Hpp.
  all: try (destruct (Hvc _ _ _ _ _ Hb Hcc Hmk) as (? & ? & _); discriminate).
  all: intros [= <- <-]; simpl.
  all: rewrite ?list_lookup_insert_eq
         by (rewrite ?length_insert; eapply lookup_lt_Some, Hb).
  all: eexists; eexists; (split; [ first [ exact Hb | reflexivity ] | ]);
         (split; [ reflexivity | ]).
  all: unfold cachedClient, originOf; fold key; simpl;
         rewrite ?Hcc; simpl; rewrite ?Hmk, ?lookup_insert_eq; reflexivity.
Qed.

(** X12. Sequential reuse: when a call of [connect] has returned a
    client, the next call of the same builder for the same URL returns
    this client, and creates nothing: the state only records the
    call. *)
Theorem connect_reuses_client (E : Env) (rb : loc) (urlStr : string)
  (s s' : State) (b : RequestBuilder) (c : loc) :
  builders s !! rb = Some b ->
  wellFormed s ->
  connect E alone rb urlStr s = Done (inr c) s' ->
  connect E alone rb urlStr s' = Done (inr c) (emit (EvConnect urlStr) s').
Proof.
  intros Hb Hwf H.
  destruct (connect_publishes E rb urlStr s s' b c Hb Hwf H)
    as (b' & u & Hb' & Hu & Hc).
  exact (connect_hit E rb urlStr s' b' u c Hb' Hu Hc).
Qed.

Lemma connect_reuses_client_witness :
  connect tagged alone 0%nat origin proxied
  = Done (inr 0%nat) (emit (EvConnect origin) proxied).
Proof.
  apply (connect_reuses_client tagged 0%nat origin proxies proxied
           (builder None "http://proxy-a:3128") 0%nat).
  - vm_compute. reflexivity.
  - apply wellFormedb_sound. vm_compute. reflexivity.
  - vm_compute. reflexivity.
Defined.


(** X13. When the client cache of the builder holds no client for the
    origin of the URL, [connect] returns a new client, with the timeout
    of the builder, over the transport that the transport cache holds
    for the origin after the call.  If the transport cache held none,
    this transport is new, with the idle connections and the proxy of
    the builder; otherwise no transport is created and the transport
    cache is left as it is. *)
Theorem connect_miss (E : Env) (rb : loc) (urlStr : string) (s : State)
  (b : RequestBuilder) (u : URL) :
  builders s !! rb = Some b ->
  validTransports s ->
  url_Parse E urlStr = inr u ->
  cachedClient b (originOf u) = None ->
  exists t s',
    connect E alone rb urlStr s = Done (inr (length (clients s))) s'
    /\ clients s' = clients s ++ [mkClient (Some t) (getTimeout E b)]
    /\ transportCache s' !! originOf u = Some (AnyTransport t)
    /\ match transportCache s !! originOf u with
       | None =>
           t = length (transports s)
           /\ transports s'
              = transports s
                ++ [mkTransport (getMaxIdle b)
                      (if String.eqb (Proxy b) "" then None
                       else match url_Parse E (Proxy b) with
                            | inr proxy => Some proxy
                            | inl _ => None
                            end)]
       | Some _ =>
           transportCache s' = transportCache s
           /\ length (transports s') = length (transports s)
       end.
Proof.
  intros Hb Hvt.
  connect_cases E rb urlStr s b Hb Hvt Hu Hcc Hmk Ht Htr Hp Hpp.
  all: intros [= <-] Hc; fold key in Hc;
         try (rewrite Hmk in Hc; discriminate Hc).
  all: eexists; eexists; (split; [ reflexivity | ]); simpl.
  all: (split; [ reflexivity | ]).
  all: fold key; rewrite Ht, ?lookup_insert_eq, ?insert_last, ?length_insert.
  all: (split; [ reflexivity | ]).
  all: split; reflexivity.
Qed.

Lemma connect_miss_witness :
  exists t s',
    connect tagged alone 1%nat origin proxied = Done (inr 1%nat) s'
    /\ clients s' = clients proxied ++ [mkClient (Some t) 500000000]
    /\ transportCache s' !! "http://api.example.com" = Some (AnyTransport t)
    /\ transportCache s' = transportCache proxied
    /\ length (transports s') = length (transports proxied).
Proof.
  apply (connect_miss tagged 1%nat origin proxied
           (builder None "http://proxy-b:3128")
           (mkURL "http" "api.example.com" "/a")).
  - vm_compute. reflexivity.
  - apply wellFormedb_sound. vm_compute. reflexivity.
  - vm_compute. reflexivity.
  - vm_compute. reflexivity.
Defined.

(** *** The requests *)

Lemma responses_checked (s : State) (b : RequestBuilder) (verb u : string) :
  responses (checked s b verb u) = responses s ++ [Response0].
Proof. unfold checked. destruct (caching b verb); reflexivity. Qed.

Lemma resourceCache_checked (s : State) (b : RequestBuilder) (verb u : string) :
  resourceCache (checked s b verb u) = resourceCache s.
Proof. unfold checked. destruct (caching b verb); reflexivity. Qed.



(** X15. [doRequest] keeps every entry of the Resource Cache, also the
    entry that asked for revalidation when the server sends a new
    answer.  It adds at most one entry: for the URL of the request, when
    the builder caches, the verb is a read verb and the cache held no
    entry for this URL; the entry is the response that the call returns,
    which holds no error and has a TTL, a modification date or an entity
    tag. *)
Theorem doRequest_cache_write (E : Env) (rb : loc) (verb u : string)
  (body : option string) (s s' : State) (res : option loc) :
  doRequest E rb verb u body s = Done res s' ->
  exists b,
    builders s !! rb = Some b
    /\ (forall k q, resourceCache s !! k = Some q ->
          resourceCache s' !! k = Some q)
    /\ (resourceCache s' = resourceCache s
        \/ (caching b verb = true
            /\ resourceCache s !! (BaseURL b +:+ u) = None
            /\ res = Some (length (responses s))
            /\ resourceCache s'
               = <[BaseURL b +:+ u := length (responses s)]> (resourceCache s)
            /\ exists r,
                 responses s' !! length (responses s) = Some r
                 /\ Err r = None
                 /\ isSet (ttl r) || isSet (lastModified r)
                    || negb (String.eqb (etag r) "") = true)).
Proof.
  intros H.
  apply doRequest_cases in H as (b & Hb & H). exists b.
  split; [ exact Hb | ].
  assert (Hor : resourceCache s' = resourceCache s
        \/ (caching b verb = true
            /\ resourceCache s !! (BaseURL b +:+ u) = None
            /\ res = Some (length (responses s))
            /\ resourceCache s'
               = <[BaseURL b +:+ u := length (responses s)]> (resourceCache s)
            /\ exists r,
                 responses s' !! length (responses s) = Some r
                 /\ Err r = None
                 /\ isSet (ttl r) || isSet (lastModified r)
                    || negb (String.eqb (etag r) "") = true)).
  { destruct H as [(_ & q & c & _ & _ & _ & _ & _ & ->)
      | (_ & evs & _ & [(err & _ & _ & Hc & _)
      | [(hr & rb' & _ & _ & _ & _ & _ & Hc & _)
      | (hr & rb' & _ & _ & _ & Hres & Hr & Hc)]])];
      rewrite ?Hc, ?resourceCache_checked; auto.
    destruct (cacheable b verb (stored (now E) hr rb')) eqn:Hcb;
      destruct Hc as [_ Hc]; rewrite Hc, resourceCache_checked; auto.
    destruct (resourceCache s !! (BaseURL b +:+ u)) eqn:Hk; auto.
    right. unfold cacheable in Hcb. apply andb_true_iff in Hcb as [Hcb Hset].
    repeat (split; [ first [ assumption | reflexivity ] | ]).
    exists (stored (now E) hr rb'). rewrite Hr, responses_checked, insert_last.
    rewrite lookup_app_r, Nat.sub_diag by lia.
    split; [ reflexivity | ]. split; [ | exact Hset ].
    unfold stored.
    destruct (ttlOf _ _), (lastModifiedOf _), (String.eqb _ ""); reflexivity. }
  split; [ | exact Hor ].
  intros k q Hk.
  destruct Hor as [-> | (_ & Hn & _ & -> & _)]; [ exact Hk | ].
  rewrite lookup_insert_ne by congruence. exact Hk.
Qed.

Lemma doRequest_cache_write_witness :
  exists b,
    builders c1 !! 0%nat = Some b
    /\ (forall k q, resourceCache c1 !! k = Some q ->
          resourceCache c2 !! k = Some q)
    /\ (resourceCache c2 = resourceCache c1
        \/ (caching b "GET" = true
            /\ resourceCache c1 !! (BaseURL b +:+ "/b") = None
            /\ Some 1%nat = Some (length (responses c1))
            /\ resourceCache c2
               = <[BaseURL b +:+ "/b" := length (responses c1)]>
                   (resourceCache c1)
            /\ exists r,
                 responses c2 !! length (responses c1) = Some r
                 /\ Err r = None
                 /\ isSet (ttl r) || isSet (lastModified r)
                    || negb (String.eqb (etag r) "") = true)).
Proof.
  apply (doRequest_cache_write tagged 0%nat "GET" "/b" None c1 c2
           (Some 1%nat)).
  vm_compute. reflexivity.
Defined.

(** X16. [doRequest] returns nil in one case only: the server answered
    304 and no entry of the Resource Cache had been retrieved. *)
Theorem doRequest_nil (E : Env) (rb : loc) (verb u : string)
  (body : option string) (s s' : State) :
  doRequest E rb verb u body s = Done None s' ->
  exists b hr respBody,
    builders s !! rb = Some b
    /\ answered E = inr (hr, respBody)
    /\ StatusCode hr = StatusNotModified
    /\ lookedUp s b verb u = None.
Proof.
  intros H.
  apply doRequest_cases in H as (b & Hb & [(_ & q & c & _ & _ & _ & _ & Hres & _)
    | (_ & evs & _ & [(err & Hres & _)
    | [(hr & rb' & Ha & H304 & _ & Hres & _)
    | (hr & rb' & _ & _ & _ & Hres & _)]])]);
    try discriminate Hres.
  exists b, hr, rb'. auto.
Qed.

Lemma doRequest_nil_witness :
  exists b hr respBody,
    builders s1 !! 0%nat = Some b
    /\ answered notModified = inr (hr, respBody)
    /\ StatusCode hr = StatusNotModified
    /\ lookedUp s1 b "GET" "/b" = None.
Proof.
  apply (doRequest_nil notModified 0%nat "GET" "/b" None s1 s3).
  vm_compute. reflexivity.
Defined.

(** *** Requests from well-formed states *)

Lemma wellFormed_responses (f : list Response -> list Response) (s : State) :
  (length (responses s) <= length (f (responses s)))%nat ->
  wellFormed s -> wellFormed (setResponses f s).
Proof.
  intros Hf (Ht & Hc & Hh & Hr). repeat split; try assumption.
  intros k q Hk. specialize (Hr k q Hk). simpl in *. lia.
Qed.

Lemma wellFormed_cache (k : string) (p : loc) (s : State) :
  (p < length (responses s))%nat ->
  wellFormed s ->
  wellFormed (setResourceCache (fun _ => <[k := p]> (resourceCache s)) s).
Proof.
  intros Hp (Ht & Hc & Hh & Hr). repeat split; try assumption.
  intros k' q Hk. simpl in Hk.
  apply lookup_insert_Some in Hk as [(_ & <-) | (_ & Hk)];
    [ exact Hp | exact (Hr _ _ Hk) ].
Qed.

Section Running.
Context (E : Env) (rb : loc) (b : RequestBuilder) (R : list Response).

Lemma running_emit (e : Event) (s : State) :
  running b rb R s -> running b rb R (emit e s).
Proof. intros H. exact H. Qed.

Lemma running_headers (f : list Header -> list Header) (s : State) :
  (length (headerMaps s) <= length (f (headerMaps s)))%nat ->
  running b rb R s -> running b rb R (setHeaderMaps f s).
Proof.
  intros Hf ((Ht & Hc & Hh & Hr) & HR & Hb & Hl).
  repeat split; try assumption.
  - intros i b0 l Hi Hl0. specialize (Hh _ _ _ Hi Hl0). simpl in *. lia.
  - intros l H0. specialize (Hl _ H0). simpl in *. lia.
Qed.

Lemma marshalReqBody_runs (body : option string) (s : State) :
  exists x, marshalReqBody E b body s = Done x (emit EvMarshal s).
Proof.
  unfold marshalReqBody. unfold_monad.
  destruct body; [ destruct (ContentType b) | ]; eexists; reflexivity.
Qed.

Lemma connect_runs (urlStr : string) (s : State) :
  running b rb R s ->
  exists x s',
    connect E alone rb urlStr s = Done x s' /\ running b rb R s'
    /\ trace s' = trace s ++ [EvConnect urlStr]
    /\ headerMaps s' = headerMaps s
    /\ resourceCache s' = resourceCache s
    /\ match x with
       | inl err => url_Parse E urlStr = inl err
       | inr _ => exists u, url_Parse E urlStr = inr u
       end.
Proof.
  intros ((Hvt & Hvc & Hvh & Hvr) & HR & (b1 & Hb) & Hl).
  unfold running. revert Hl.
  connect_cases E rb urlStr s b1 Hb Hvt Hu Hcc Hmk Ht Htr Hp Hpp.
  all: intros Hl; eexists; eexists; (split; [ reflexivity | ]).
  all: unfold wellFormed, validTransports, validClients, validHeaders,
         validCache; simpl.
  all: try (destruct (Hvc _ _ _ _ _ Hb Hcc Hmk) as (? & ? & _); discriminate).
  all: rewrite ?list_lookup_insert_eq
         by (rewrite ?length_insert; eapply lookup_lt_Some, Hb).
  all: repeat split; try exact Hvr; try exact Hvt; try exact Hvc;
         try exact Hvh; try exact HR; try exact Hl; try (eexists; eassumption);
         try (eexists; reflexivity).
  all: valid_after Hvt Hvc Hvh.
Qed.

Lemma NewRequest_runs (verb url body : string) (s : State) :
  running b rb R s ->
  exists x s',
    NewRequest E verb url body s = Done x s'
    /\ running b rb R s'
    /\ forall req, x = inr req ->
         headerMaps s' !! Request_Header req = Some ∅
         /\ forall l, Headers b = Some l -> Request_Header req <> l.
Proof.
  intros Hrun. unfold NewRequest, new. unfold_monad.
  destruct (negb (validMethod _));
    [ eexists; eexists; split; [ reflexivity | ];
      split; [ exact Hrun | discriminate ] | ].
  destruct (url_Parse E url);
    [ eexists; eexists; split; [ reflexivity | ];
      split; [ exact Hrun | discriminate ] | ].
  eexists; eexists. split; [ reflexivity | ].
  split; [ apply running_headers; [ rewrite length_app; lia | exact Hrun ] | ].
  intros req [= <-]. simpl. split.
  - rewrite lookup_app_r, Nat.sub_diag by lia. reflexivity.
  - intros l Hh. destruct Hrun as (_ & _ & _ & Hl). specialize (Hl l Hh). lia.
Qed.

Lemma setParams_runs (client : loc) (req : Request) (cacheResp : option Hit)
  (cacheURL : string) (s : State) (own : Header) :
  running b rb R s ->
  headerMaps s !! Request_Header req = Some own ->
  (forall l, Headers b = Some l -> Request_Header req <> l) ->
  (forall h, cacheResp = Some h -> (hitAt h < length R)%nat) ->
  exists req' s' h,
    setParams E b client req cacheResp cacheURL s = Done req' s'
    /\ running b rb R s'
    /\ headerMaps s' !! Request_Header req' = Some h.
Proof.
  intros Hrun Hown Hne Hq.
  assert (Hc : exists c, cachedAt s cacheResp = Some c).
  { destruct cacheResp as [[q stale] | ]; simpl; [ | eauto ].
    destruct Hrun as (_ & HR & _). rewrite HR.
    destruct (R !! q) eqn:Hl; [ simpl; eauto | ].
    apply lookup_ge_None in Hl. specialize (Hq _ eq_refl). simpl in Hq. lia. }
  destruct Hc as (c & Hc).
  destruct (Headers b) as [l | ] eqn:Hh.
  - assert (Hlt : (l < length (headerMaps s))%nat)
      by (destruct Hrun as (_ & _ & _ & Hl); apply Hl; exact Hh).
    destruct (lookup_lt_is_Some_2 _ _ Hlt) as (custom & Hcustom).
    rewrite (setParams_custom E b client req cacheResp cacheURL s l own custom c
               Hh (Hne l eq_refl) Hown Hcustom Hc).
    eexists; eexists; eexists. split; [ reflexivity | ]. split.
    + apply running_headers; [ simpl; rewrite !length_insert; lia | ].
      apply running_headers; [ rewrite length_insert; lia | exact Hrun ].
    + simpl. apply list_lookup_insert_eq. rewrite length_insert. exact Hlt.
  - rewrite (setParams_own E b client req cacheResp cacheURL s own c
               Hh Hown Hc).
    eexists; eexists; eexists. split; [ reflexivity | ]. split.
    + apply running_headers; [ rewrite length_insert; lia | exact Hrun ].
    + simpl. apply list_lookup_insert_eq. eapply lookup_lt_Some, Hown.
Qed.

Lemma Do_runs (client : loc) (req : Request) (s : State) (h : Header) :
  headerMaps s !! Request_Header req = Some h ->
  Do E client req s = Done (client_Do E) (emit (EvSend client req h) s).
Proof. intros H. unfold Do. unfold_monad. rewrite H. reflexivity. Qed.

Lemma send_runs (verb url : string) (body : option string)
  (cacheResp : option Hit) (s : State) :
  running b rb R s ->
  (forall h, cacheResp = Some h -> (hitAt h < length R)%nat) ->
  exists x s',
    send E rb b verb url body cacheResp s = Done x s' /\ running b rb R s'.
Proof.
  intros Hrun Hq. unfold send.
  destruct (marshalReqBody_runs body s) as (x & Hm).
  rewrite (bind_eq _ _ _ _ _ Hm).
  apply (running_emit EvMarshal) in Hrun.
  destruct x as [err | body']; [ eexists; eexists; split; [ reflexivity | exact Hrun ] | ].
  destruct (checkMockup E url) as [[url' cacheURL] [err | ]];
    [ eexists; eexists; split; [ reflexivity | exact Hrun ] | ].
  destruct (connect_runs url' _ Hrun) as (x & s1 & Hc & Hrun1 & _).
  rewrite (bind_eq _ _ _ _ _ Hc).
  destruct x as [err | client]; [ eexists; eexists; split; [ reflexivity | exact Hrun1 ] | ].
  destruct (NewRequest_runs verb url' body' _ Hrun1) as (x & s2 & Hn & Hrun2 & Hreq).
  rewrite (bind_eq _ _ _ _ _ Hn).
  destruct x as [err | req]; [ eexists; eexists; split; [ reflexivity | exact Hrun2 ] | ].
  destruct (Hreq req eq_refl) as (Hown & Hne).
  destruct (setParams_runs client req cacheResp cacheURL s2 ∅ Hrun2 Hown Hne Hq)
    as (req' & s3 & h & Hs & Hrun3 & Hh).
  rewrite (bind_eq _ _ _ _ _ Hs).
  rewrite (bind_eq _ _ _ _ _ (Do_runs client req' s3 h Hh)).
  apply (running_emit (EvSend client req' h)) in Hrun3.
  destruct (client_Do E) as [err | hr];
    [ eexists; eexists; split; [ reflexivity | exact Hrun3 ] | ].
  destruct (Body hr);
    eexists; eexists; (split; [ reflexivity | exact Hrun3 ]).
Qed.

End Running.

(** The state in which [settle] ends after an answer whose status is
    not 304. *)
Lemma settle_state (E : Env) (b : RequestBuilder) (verb : string)
  (p : loc) (cacheResp : option Hit) (cu : string) (hr : HttpResponse)
  (body : string) (s : State) :
  StatusCode hr <> StatusNotModified ->
  responses s !! p = Some Response0 ->
  let r := stored (now E) hr body in
  let s1 := setResponses (fun l => <[p := r]> l) s in
  settle E b verb p cacheResp cu hr body s
  = Done (Some p)
      (if cacheable b verb r
       then match resourceCache s !! cu with
            | Some _ => emit (EvCacheSetNX cu p) s1
            | None =>
                setResourceCache (fun _ => <[cu := p]> (resourceCache s))
                  (emit (EvCacheSetNX cu p) s1)
            end
       else s1).
Proof.
  intros Hne Hp r s1. unfold settle.
  replace (StatusCode hr =? StatusNotModified) with false
    by (symmetry; apply Z.eqb_neq; exact Hne).
  rewrite (bind_eq _ _ _ _ _ (update_response _ _ _ _ Hp)).
  pose proof (lookup_stored p (withHttpResponse hr body Response0) _ _ Hp) as H1.
  rewrite (bind_eq _ _ _ _ _ (setTTL_eq E _ _ _ hr H1 eq_refl)).
  rewrite setResponses_twice.
  set (r1 := withTTL' _ _).
  pose proof (lookup_stored p r1 _ _ Hp) as H2.
  assert (Hh1 : httpResponse r1 = Some hr)
    by (unfold r1; destruct (ttlOf _ _); reflexivity).
  rewrite (bind_eq _ _ _ _ _ (setLastModified_eq' _ _ _ hr H2 Hh1)).
  rewrite setResponses_twice.
  set (r2 := withLastModified' _ _).
  pose proof (lookup_stored p r2 _ _ Hp) as H3.
  assert (Hh2 : httpResponse r2 = Some hr)
    by (unfold r2; destruct (lastModifiedOf _); exact Hh1).
  rewrite (bind_eq _ _ _ _ _ (setETag_eq _ _ _ hr H3 Hh2)).
  rewrite setResponses_twice.
  set (r3 := withETag _ _).
  pose proof (lookup_stored p r3 _ _ Hp) as H4.
  assert (Hr : (if negb (isSet (ttlOf (now E) (Header_ hr)))
                   && (isSet (lastModifiedOf (Header_ hr))
                       || negb (String.eqb (Get (Header_ hr) "ETag") ""))
                then withRevalidate true r3 else r3) = r).
  { unfold r, stored, r3, r2, r1.
    destruct (ttlOf _ _), (lastModifiedOf _), (String.eqb _ ""); reflexivity. }
  assert (Hc : cacheable b verb r
               = negb (DisableCache b) && match_ verb readVerbs
                 && (isSet (ttlOf (now E) (Header_ hr))
                     || isSet (lastModifiedOf (Header_ hr))
                     || negb (String.eqb (Get (Header_ hr) "ETag") "")))
    by reflexivity.
  rewrite Hc. clear Hc. unfold s1. clearbody r.
  destruct (negb (isSet (ttlOf (now E) (Header_ hr)))
            && (isSet (lastModifiedOf (Header_ hr))
                || negb (String.eqb (Get (Header_ hr) "ETag") ""))).
  - rewrite (bind_eq _ _ _ _ _ (update_response _ _ _ _ H4)).
    rewrite setResponses_twice, Hr.
    destruct (negb (DisableCache b) && match_ verb readVerbs
              && (isSet (ttlOf (now E) (Header_ hr))
                  || isSet (lastModifiedOf (Header_ hr))
                  || negb (String.eqb (Get (Header_ hr) "ETag") ""))).
    + unfold resourceCache_setNX. unfold_monad. simpl.
      destruct (resourceCache s !! cu); reflexivity.
    + unfold_monad. reflexivity.
  - rewrite <- Hr.
    destruct (negb (DisableCache b) && match_ verb readVerbs
              && (isSet (ttlOf (now E) (Header_ hr))
                  || isSet (lastModifiedOf (Header_ hr))
                  || negb (String.eqb (Get (Header_ hr) "ETag") ""))).
    + unfold resourceCache_setNX. unfold_monad. simpl.
      destruct (resourceCache s !! cu); reflexivity.
    + unfold_monad. reflexivity.
Qed.

Lemma exchange_runs (E : Env) (rb : loc) (b : RequestBuilder)
  (verb url : string) (body : option string) (p : loc)
  (cacheResp : option Hit) (R : list Response) (s : State) :
  running b rb R s ->
  R !! p = Some Response0 ->
  (forall h, cacheResp = Some h -> (hitAt h < length R)%nat) ->
  exists res s',
    exchange E rb b verb url body p cacheResp s = Done res s'
    /\ wellFormed s'
    /\ forall q, res = Some q -> (q < length (responses s'))%nat.
Proof.
  intros Hrun Hp Hq. unfold exchange.
  destruct (send_runs E rb b R verb url body cacheResp s Hrun Hq)
    as (x & s1 & Hs & (Hwf & HR & _)).
  rewrite (bind_eq _ _ _ _ _ Hs).
  assert (Hp1 : responses s1 !! p = Some Response0) by (rewrite HR; exact Hp).
  assert (Hlt : (p < length (responses s1))%nat)
    by (eapply lookup_lt_Some, Hp1).
  destruct x as [err | [[cacheURL hr] respBody]].
  - unfold fail. rewrite (bind_eq _ _ _ _ _ (update_response _ _ _ _ Hp1)).
    eexists; eexists. split; [ reflexivity | ]. split.
    + apply wellFormed_responses; [ rewrite length_insert; lia | exact Hwf ].
    + intros q [= <-]. simpl. rewrite length_insert. exact Hlt.
  - destruct (Z.eq_dec (StatusCode hr) StatusNotModified) as [H304 | H304].
    + rewrite settle_not_modified by exact H304.
      eexists; eexists. split; [ reflexivity | ]. split; [ exact Hwf | ].
      intros q Hc. rewrite HR.
      destruct cacheResp as [h | ]; [ | discriminate Hc ].
      injection Hc as <-. apply Hq. reflexivity.
    + rewrite (settle_state E b verb p cacheResp cacheURL hr respBody s1
                 H304 Hp1).
      eexists; eexists. split; [ reflexivity | ].
      set (s2 := setResponses _ s1).
      assert (Hwf2 : wellFormed s2)
        by (apply wellFormed_responses;
            [ rewrite length_insert; lia | exact Hwf ]).
      assert (Hlt2 : (p < length (responses s2))%nat)
        by (simpl; rewrite length_insert; exact Hlt).
      destruct (cacheable b verb _);
        [ destruct (resourceCache s1 !! cacheURL) | ].
      * split; [ exact Hwf2 | intros q [= <-]; exact Hlt2 ].
      * split; [ | intros q [= <-]; exact Hlt2 ].
        exact (wellFormed_cache cacheURL p (emit (EvCacheSetNX cacheURL p) s2)
                 Hlt2 Hwf2).
      * split; [ exact Hwf2 | intros q [= <-]; exact Hlt2 ].
Qed.

Lemma held_eq (h : Hit) (s : State) (c : Response) :
  responses s !! hitAt h = Some c ->
  held h s = Done (flag (hitStale h) c) s.
Proof. intros H. unfold held. unfold_monad. rewrite H. reflexivity. Qed.

(** X17. From a well-formed state, [doRequest] returns: no stage of
    it reaches a nil pointer.  The state it leaves is well-formed, and
    the response it returns, when it is not nil, is a response of the
    store. *)
Theorem doRequest_well_formed (E : Env) (rb : loc) (verb u : string)
  (body : option string) (s : State) (b : RequestBuilder) :
  builders s !! rb = Some b ->
  wellFormed s ->
  exists res s',
    doRequest E rb verb u body s = Done res s'
    /\ wellFormed s'
    /\ forall q, res = Some q -> (q < length (responses s'))%nat.
Proof.
  intros Hb Hwf. unfold doRequest.
  rewrite (bind_eq _ _ s s b) by (unfold_monad; rewrite Hb; reflexivity).
  unfold new at 1.
  rewrite (bind_eq _ _ s (setResponses (fun l => l ++ [Response0]) s)
             (length (responses s))) by reflexivity.
  set (s0 := setResponses (fun l => l ++ [Response0]) s).
  set (R := responses s ++ [Response0]).
  assert (Hrun : running b rb R s0).
  { split; [ | split; [ reflexivity | split; [ eauto | ] ] ].
    - apply wellFormed_responses; [ rewrite length_app; lia | exact Hwf ].
    - intros l Hl. destruct Hwf as (_ & _ & Hh & _). exact (Hh _ _ _ Hb Hl). }
  assert (Hp : R !! length (responses s) = Some Response0)
    by (unfold R; rewrite lookup_app_r, Nat.sub_diag by lia; reflexivity).
  destruct (negb (DisableCache b) && match_ verb readVerbs).
  - unfold resourceCache_get.
    rewrite (bind_eq _ _ s0 (emit (EvCacheGet (BaseURL b +:+ u)) s0)
               (match resourceCache s !! (BaseURL b +:+ u) with
                | Some q =>
                    Some (mkHit q match R !! q with
                                  | Some r => elapsed (now E) r
                                  | None => false
                                  end)
                | None => None
                end))
      by reflexivity.
    apply (running_emit rb b R (EvCacheGet (BaseURL b +:+ u))) in Hrun.
    destruct (resourceCache s !! (BaseURL b +:+ u)) as [q | ] eqn:Hk.
    + assert (Hlt : (q < length (responses s))%nat)
        by (destruct Hwf as (_ & _ & _ & Hr); exact (Hr _ _ Hk)).
      destruct (lookup_lt_is_Some_2 _ _ Hlt) as (c & Hc).
      assert (Hc' : R !! q = Some c) by (apply lookup_app_l_Some, Hc).
      rewrite Hc'.
      rewrite (bind_eq _ _ _ _ _
                 (held_eq (mkHit q (elapsed (now E) c))
                    (emit (EvCacheGet (BaseURL b +:+ u)) s0) c Hc')).
      destruct (revalidate (flag (hitStale (mkHit q (elapsed (now E) c))) c));
        simpl.
      * apply (exchange_runs E rb b verb _ body _ _ R _ Hrun Hp).
        intros h [= <-]. unfold R. rewrite length_app. simpl. lia.
      * eexists; eexists. split; [ reflexivity | ].
        split; [ apply Hrun | ].
        intros q' [= <-]. simpl. rewrite length_app. lia.
    + apply (exchange_runs E rb b verb _ body _ None R _ Hrun Hp).
      discriminate.
  - apply (exchange_runs E rb b verb _ body _ None R _ Hrun Hp).
    discriminate.
Qed.

Lemma doRequest_well_formed_witness :
  exists res s',
    doRequest notModified 0%nat "GET" "/a" None c2 = Done res s'
    /\ wellFormed s'
    /\ forall q, res = Some q -> (q < length (responses s'))%nat.
Proof.
  apply (doRequest_well_formed notModified 0%nat "GET" "/a" None c2
           (builder0 c2)).
  - vm_compute. reflexivity.
  - apply wellFormedb_sound. vm_compute. reflexivity.
Defined.

(** *** What is sent *)

Lemma marshalReqBody_eq (E : Env) (b : RequestBuilder) (body : option string)
  (s : State) :
  marshalReqBody E b body s = Done (encoded E b body) (emit EvMarshal s).
Proof.
  unfold marshalReqBody, encoded. unfold_monad.
  destruct body; [ destruct (ContentType b) | ]; reflexivity.
Qed.

Lemma headerMaps_checked (s : State) (b : RequestBuilder) (verb u : string) :
  headerMaps (checked s b verb u) = headerMaps s.
Proof. unfold checked. destruct (caching b verb); reflexivity. Qed.

(** The stages of [doRequest] up to the answer of the server, from a
    state of a running call: they end with the error of [prepared] and
    nothing sent, or one request is sent. *)
Lemma send_forward (E : Env) (rb : loc) (b : RequestBuilder)
  (R : list Response) (verb url : string) (body : option string)
  (cacheResp : option Hit) (c : option Response) (s : State) :
  running b rb R s ->
  cachedAt s cacheResp = Some c ->
  exists x s',
    send E rb b verb url body cacheResp s = Done x s'
    /\ running b rb R s'
    /\ resourceCache s' = resourceCache s
    /\ match prepared E b verb url body with
       | inl err =>
           x = inl err
           /\ exists evs, trace s' = trace s ++ evs
                          /\ existsb isSend evs = false
       | inr (method, url', cacheURL, body') =>
           exists client h,
             sentHeaders E b s method cacheURL c = Some h
             /\ trace s'
                = trace s
                  ++ [EvMarshal; EvConnect url';
                      EvSend client (mkRequest method url' (sentAt b s) body') h]
             /\ x = match answered E with
                    | inl err => inl err
                    | inr (hr, respBody) => inr (cacheURL, hr, respBody)
                    end
       end.
Proof.
  intros Hrun Hc. unfold send, prepared.
  rewrite (bind_eq _ _ _ _ _ (marshalReqBody_eq E b body s)).
  pose proof (running_emit rb b R EvMarshal s Hrun) as Hrun0.
  destruct (encoded E b body) as [err | body'].
  { eexists; eexists. split; [ reflexivity | ]. split; [ exact Hrun0 | ].
    split; [ reflexivity | ]. split; [ reflexivity | ].
    exists [EvMarshal]. split; reflexivity. }
  destruct (checkMockup E url) as [[url' cacheURL] [err | ]].
  { eexists; eexists. split; [ reflexivity | ]. split; [ exact Hrun0 | ].
    split; [ reflexivity | ]. split; [ reflexivity | ].
    exists [EvMarshal]. split; reflexivity. }
  destruct (connect_runs E rb b R url' _ Hrun0)
    as (x & s1 & Hcn & Hrun1 & Ht1 & Hh1 & Hr1 & Hx).
  rewrite (bind_eq _ _ _ _ _ Hcn).
  destruct x as [err | client].
  { rewrite Hx.
    eexists; eexists. split; [ reflexivity | ]. split; [ exact Hrun1 | ].
    split; [ exact Hr1 | ]. split; [ reflexivity | ].
    exists [EvMarshal; EvConnect url']. rewrite Ht1. simpl.
    rewrite <- app_assoc. split; reflexivity. }
  destruct Hx as (pu & Hpu). rewrite Hpu.
  unfold NewRequest, new. rewrite Hpu.
  set (method := if String.eqb verb "" then MethodGet else verb).
  destruct (negb (validMethod method)).
  { unfold_monad.
    eexists; eexists. split; [ reflexivity | ]. split; [ exact Hrun1 | ].
    split; [ exact Hr1 | ]. split; [ reflexivity | ].
    exists [EvMarshal; EvConnect url']. rewrite Ht1. simpl.
    rewrite <- app_assoc. split; reflexivity. }
  rewrite (bind_eq _ _ s1 (setHeaderMaps (fun l => l ++ [∅]) s1)
             (inr (mkRequest method url' (length (headerMaps s1)) body')))
    by reflexivity.
  set (s2 := setHeaderMaps (fun l => l ++ [∅]) s1).
  set (req := mkRequest method url' (length (headerMaps s1)) body').
  assert (Hrun2 : running b rb R s2)
    by (apply running_headers; [ rewrite length_app; lia | exact Hrun1 ]).
  assert (Hown : headerMaps s2 !! Request_Header req = Some ∅)
    by (simpl; rewrite lookup_app_r, Nat.sub_diag by lia; reflexivity).
  assert (Hc2 : cachedAt s2 cacheResp = Some c).
  { unfold cachedAt in *. simpl.
    replace (responses s1) with (responses s); [ exact Hc | ].
    destruct Hrun as (_ & -> & _). destruct Hrun1 as (_ & -> & _).
    reflexivity. }
  assert (Hlen : length (headerMaps s1) = length (headerMaps s))
    by (rewrite Hh1; reflexivity).
  assert (Htr : forall s3 : State,
             trace s3 = trace s1 ->
             trace s3 = trace s ++ [EvMarshal; EvConnect url']).
  { intros s3 ->. rewrite Ht1. simpl. rewrite <- app_assoc. reflexivity. }
  assert (Hans : match client_Do E with
                 | inl err => inl err
                 | inr hr =>
                     match Body hr with
                     | inl err => inl err
                     | inr respBody => inr (cacheURL, hr, respBody)
                     end
                 end
                 = match answered E with
                   | inl err => inl err
                   | inr (hr, respBody) => inr (cacheURL, hr, respBody)
                   end).
  { unfold answered. destruct (client_Do E) as [err | hr]; [ reflexivity | ].
    destruct (Body hr); reflexivity. }
  unfold sentHeaders, sentAt.
  destruct (Headers b) as [l | ] eqn:Hhd.
  - assert (Hlt : (l < length (headerMaps s))%nat)
      by (destruct Hrun as (_ & _ & _ & Hl); apply Hl; exact Hhd).
    destruct (headerMaps s !! l) as [custom | ] eqn:Hcustom;
      [ | apply lookup_ge_None in Hcustom; lia ].
    assert (Hcustom2 : headerMaps s2 !! l = Some custom).
    { simpl. rewrite Hh1. apply lookup_app_l_Some. exact Hcustom. }
    assert (Hne : Request_Header req <> l) by (simpl; lia).
    rewrite (bind_eq _ _ _ _ _
               (setParams_custom E b client req cacheResp cacheURL s2 l ∅
                  custom c Hhd Hne Hown Hcustom2 Hc2)).
    set (s3 := setHeaderMaps _ (setHeaderMaps _ s2)).
    assert (Hh3 : headerMaps s3 !! Request_Header (withHeader l req)
                  = Some (conditional c (negotiated b method custom))).
    { simpl. apply list_lookup_insert_eq.
      rewrite length_insert, length_app, Hh1. simpl. lia. }
    rewrite (bind_eq _ _ _ _ _ (Do_runs E client _ s3 _ Hh3)).
    eexists; eexists. split.
    { instantiate (2 := match answered E with
                         | inl err => inl err
                         | inr (hr, respBody) => inr (cacheURL, hr, respBody)
                         end).
      rewrite <- Hans.
      destruct (client_Do E) as [err | hr]; [ reflexivity | ].
      destruct (Body hr); reflexivity. }
    split; [ apply running_emit; unfold s3;
             (apply running_headers; [ simpl; rewrite !length_insert; lia | ]);
             (apply running_headers; [ rewrite length_insert; lia | ]);
             exact Hrun2 | ].
    split; [ exact Hr1 | ].
    exists client. eexists. split; [ reflexivity | ]. split; [ | reflexivity ].
    simpl. rewrite (Htr s1 eq_refl), <- app_assoc. reflexivity.
  - rewrite (bind_eq _ _ _ _ _
               (setParams_own E b client req cacheResp cacheURL s2 ∅ c
                  Hhd Hown Hc2)).
    set (s3 := setHeaderMaps _ s2).
    assert (Hh3 : headerMaps s3 !! Request_Header req
                  = Some (conditional c
                            (negotiated b method (defaults E cacheURL ∅)))).
    { simpl. apply list_lookup_insert_eq. rewrite length_app. simpl. lia. }
    rewrite (bind_eq _ _ _ _ _ (Do_runs E client _ s3 _ Hh3)).
    eexists; eexists. split.
    { instantiate (2 := match answered E with
                         | inl err => inl err
                         | inr (hr, respBody) => inr (cacheURL, hr, respBody)
                         end).
      rewrite <- Hans.
      destruct (client_Do E) as [err | hr]; [ reflexivity | ].
      destruct (Body hr); reflexivity. }
    split; [ apply running_emit; unfold s3;
             (apply running_headers; [ rewrite length_insert; lia | ]);
             exact Hrun2 | ].
    split; [ exact Hr1 | ].
    exists client. eexists. split; [ reflexivity | ]. split; [ | reflexivity ].
    simpl. rewrite (Htr s1 eq_refl), <- app_assoc, <- Hlen. reflexivity.
Qed.

Lemma trace_checked (s : State) (b : RequestBuilder) (verb u : string) :
  exists evs, trace (checked s b verb u) = trace s ++ evs
              /\ existsb isSend evs = false.
Proof.
  unfold checked. destruct (caching b verb).
  - eexists. split; reflexivity.
  - exists []. rewrite app_nil_r. split; reflexivity.
Qed.

(** When the Resource Cache does not settle the request, [doRequest]
    goes on with the later stages from the state after the cache
    check. *)
Lemma doRequest_exchange (E : Env) (rb : loc) (verb u : string)
  (body : option string) (s : State) (b : RequestBuilder)
  (c : option Response) :
  builders s !! rb = Some b ->
  cachedAt s (got (now E) s b verb u) = Some c ->
  (forall r, c = Some r -> revalidate r = true) ->
  doRequest E rb verb u body s
  = exchange E rb b verb (BaseURL b +:+ u) body (length (responses s))
      (got (now E) s b verb u) (checked s b verb u).
Proof.
  intros Hb Hc Hst. unfold doRequest.
  rewrite (bind_eq _ _ s s b) by (unfold_monad; rewrite Hb; reflexivity).
  unfold new at 1.
  rewrite (bind_eq _ _ s (setResponses (fun l => l ++ [Response0]) s)
             (length (responses s))) by reflexivity.
  unfold got, lookedUp, checked, caching in *.
  destruct (negb (DisableCache b) && match_ verb readVerbs); [ | reflexivity ].
  unfold resourceCache_get.
  rewrite (bind_eq _ _ _
             (emit (EvCacheGet (BaseURL b +:+ u))
                (setResponses (fun l => l ++ [Response0]) s))
             (match resourceCache s !! (BaseURL b +:+ u) with
              | Some q =>
                  Some (mkHit q match (responses s ++ [Response0]) !! q with
                                | Some r => elapsed (now E) r
                                | None => false
                                end)
              | None => None
              end))
    by reflexivity.
  destruct (resourceCache s !! (BaseURL b +:+ u)) as [q | ]; [ | reflexivity ].
  simpl in Hc. destruct (responses s !! q) as [r | ] eqn:Hq; [ | discriminate ].
  injection Hc as <-.
  assert (Hq' : (responses s ++ [Response0]) !! q = Some r)
    by (apply lookup_app_l_Some, Hq).
  rewrite Hq'. simpl.
  rewrite (bind_eq _ _ _ _ _
             (held_eq (mkHit q (elapsed (now E) r))
                (emit (EvCacheGet (BaseURL b +:+ u))
                   (setResponses (fun l => l ++ [Response0]) s)) r Hq')).
  simpl. rewrite (Hst _ eq_refl), ?Hq. reflexivity.
Qed.

(** The state after the cache check of a call from a well-formed state
    is a state of a running call. *)
Lemma running_checked (rb : loc) (verb u : string) (s : State)
  (b : RequestBuilder) :
  builders s !! rb = Some b ->
  wellFormed s ->
  running b rb (responses s ++ [Response0]) (checked s b verb u).
Proof.
  intros Hb Hwf.
  assert (H : running b rb (responses s ++ [Response0])
                (setResponses (fun l => l ++ [Response0]) s)).
  { split; [ | split; [ reflexivity | split; [ eauto | ] ] ].
    - apply wellFormed_responses; [ rewrite length_app; lia | exact Hwf ].
    - intros l Hl. destruct Hwf as (_ & _ & Hh & _). exact (Hh _ _ _ Hb Hl). }
  unfold checked. destruct (caching b verb); [ apply running_emit | ]; exact H.
Qed.

Lemma cachedAt_checked (s : State) (b : RequestBuilder) (verb u : string)
  (cacheResp : option Hit) (c : option Response) :
  cachedAt s cacheResp = Some c ->
  cachedAt (checked s b verb u) cacheResp = Some c.
Proof.
  unfold cachedAt. rewrite responses_checked.
  destruct cacheResp as [[q stale] | ]; [ | auto ]. simpl.
  destruct (responses s !! q) as [r | ] eqn:Hq; [ | discriminate ].
  rewrite (lookup_app_l_Some _ _ _ _ Hq). auto.
Qed.

(** X18. When a stage before the request fails (the body cannot be
    encoded, the URL does not parse, the method is not valid) and the
    Resource Cache did not settle the request, [doRequest] returns a new
    response that holds this error; no request was sent and the
    Resource Cache is left as it is. *)
Theorem doRequest_early_error (E : Env) (rb : loc) (verb u : string)
  (body : option string) (s : State) (b : RequestBuilder)
  (c : option Response) (err : Error) :
  builders s !! rb = Some b ->
  wellFormed s ->
  cachedAt s (got (now E) s b verb u) = Some c ->
  (forall r, c = Some r -> revalidate r = true) ->
  prepared E b verb (BaseURL b +:+ u) body = inl err ->
  exists s' evs,
    doRequest E rb verb u body s = Done (Some (length (responses s))) s'
    /\ responses s' = responses s ++ [withErr err Response0]
    /\ resourceCache s' = resourceCache s
    /\ trace s' = trace s ++ evs
    /\ existsb isSend evs = false.
Proof.
  intros Hb Hwf Hc Hst Hpre.
  rewrite (doRequest_exchange E rb verb u body s b c Hb Hc Hst).
  unfold exchange.
  destruct (send_forward E rb b _ verb (BaseURL b +:+ u) body
              (got (now E) s b verb u) c _
              (running_checked rb verb u s b Hb Hwf)
              (cachedAt_checked s b verb u _ c Hc))
    as (x & s1 & Hs & (_ & HR & _) & Hrc & Hx).
  rewrite Hpre in Hx. destruct Hx as (-> & evs & Ht & Hev).
  rewrite (bind_eq _ _ _ _ _ Hs).
  assert (Hp : responses s1 !! length (responses s) = Some Response0)
    by (rewrite HR, lookup_app_r, Nat.sub_diag by lia; reflexivity).
  unfold fail. rewrite (bind_eq _ _ _ _ _ (update_response _ _ _ _ Hp)).
  destruct (trace_checked s b verb u) as (evs0 & Ht0 & Hev0).
  eexists. exists (evs0 ++ evs). split; [ reflexivity | ]. simpl.
  rewrite HR, insert_last, Hrc, resourceCache_checked, Ht, Ht0, app_assoc.
  repeat split.
  rewrite existsb_app, Hev0, Hev. reflexivity.
Qed.

(** The error of [http.NewRequest] for the method [G T]. *)
Example invalid_method_text :
  errInvalidMethod (quote "G T")
  = "net/http: invalid method "
    +:+ String "034"%char ("G T" +:+ String "034"%char EmptyString).
Proof. vm_compute. reflexivity. Qed.

Lemma doRequest_early_error_witness :
  exists s' evs,
    doRequest tagged 0%nat "G T" "/a" None s1
    = Done (Some (length (responses s1))) s'
    /\ responses s'
       = responses s1 ++ [withErr (errInvalidMethod (quote "G T")) Response0]
    /\ resourceCache s' = resourceCache s1
    /\ trace s' = trace s1 ++ evs
    /\ existsb isSend evs = false.
Proof.
  apply (doRequest_early_error tagged 0%nat "G T" "/a" None s1 (builder0 s1)
           None (errInvalidMethod (quote "G T"))).
  - vm_compute. reflexivity.
  - apply wellFormedb_sound. vm_compute. reflexivity.
  - vm_compute. reflexivity.
  - intros r Hr. discriminate Hr.
  - vm_compute. reflexivity.
Defined.

(** X19. When the Resource Cache did not settle the request and the
    stages before the request succeed, [doRequest] sends one request,
    after the body was encoded and a client obtained: with the method
    (GET when none is given), the URL (of the mock server in the test
    mode) and the encoded body, and with the headers of [sentHeaders]:
    the defaults, the content negotiation and the conditional header
    for a builder without custom headers; for a builder with custom
    headers, the map of the builder itself, with the content negotiation
    and the conditional header written into it and without the
    defaults.  What follows in the trace is no request. *)
Theorem doRequest_sends (E : Env) (rb : loc) (verb u : string)
  (body : option string) (s : State) (b : RequestBuilder)
  (c : option Response) (method url' cacheURL body' : string) :
  builders s !! rb = Some b ->
  wellFormed s ->
  cachedAt s (got (now E) s b verb u) = Some c ->
  (forall r, c = Some r -> revalidate r = true) ->
  prepared E b verb (BaseURL b +:+ u) body
  = inr (method, url', cacheURL, body') ->
  exists res s' client h evs,
    doRequest E rb verb u body s = Done res s'
    /\ sentHeaders E b s method cacheURL c = Some h
    /\ trace s'
       = trace (checked s b verb u)
         ++ [EvMarshal; EvConnect url';
             EvSend client (mkRequest method url' (sentAt b s) body') h]
         ++ evs
    /\ existsb isSend evs = false.
Proof.
  intros Hb Hwf Hc Hst Hpre.
  rewrite (doRequest_exchange E rb verb u body s b c Hb Hc Hst).
  unfold exchange.
  destruct (send_forward E rb b _ verb (BaseURL b +:+ u) body
              (got (now E) s b verb u) c _
              (running_checked rb verb u s b Hb Hwf)
              (cachedAt_checked s b verb u _ c Hc))
    as (x & s1 & Hs & (_ & HR & _) & Hrc & Hx).
  rewrite Hpre in Hx. destruct Hx as (client & h & Hh & Ht & ->).
  unfold sentHeaders, sentAt in *. rewrite headerMaps_checked in *.
  rewrite (bind_eq _ _ _ _ _ Hs).
  assert (Hp : responses s1 !! length (responses s) = Some Response0)
    by (rewrite HR, lookup_app_r, Nat.sub_diag by lia; reflexivity).
  destruct (answered E) as [err | [hr respBody]].
  { unfold fail. rewrite (bind_eq _ _ _ _ _ (update_response _ _ _ _ Hp)).
    eexists; eexists. exists client, h, [].
    split; [ reflexivity | ]. split; [ exact Hh | ].
    split; [ exact Ht | reflexivity ]. }
  destruct (Z.eq_dec (StatusCode hr) StatusNotModified) as [H304 | H304].
  { rewrite settle_not_modified by exact H304.
    eexists; eexists. exists client, h, [].
    split; [ reflexivity | ]. split; [ exact Hh | ].
    split; [ exact Ht | reflexivity ]. }
  rewrite (settle_state E b verb _ (got (now E) s b verb u) cacheURL hr
             respBody s1 H304 Hp).
  destruct (cacheable b verb _); [ destruct (resourceCache s1 !! cacheURL) | ].
  - eexists; eexists. exists client, h, [EvCacheSetNX cacheURL (length (responses s))].
    split; [ reflexivity | ]. split; [ exact Hh | ].
    split; [ simpl; rewrite Ht, <- app_assoc; reflexivity | reflexivity ].
  - eexists; eexists. exists client, h, [EvCacheSetNX cacheURL (length (responses s))].
    split; [ reflexivity | ]. split; [ exact Hh | ].
    split; [ simpl; rewrite Ht, <- app_assoc; reflexivity | reflexivity ].
  - eexists; eexists. exists client, h, [].
    split; [ reflexivity | ]. split; [ exact Hh | ].
    split; [ exact Ht | reflexivity ].
Qed.

Lemma doRequest_sends_witness :
  exists res s' client h evs,
    doRequest notModified 0%nat "GET" "/a" None s1 = Done res s'
    /\ sentHeaders notModified (builder0 s1) s1 "GET"
         "http://api.example.com/a" (responses s1 !! 0%nat) = Some h
    /\ trace s'
       = trace (checked s1 (builder0 s1) "GET" "/a")
         ++ [EvMarshal; EvConnect "http://api.example.com/a";
             EvSend client
               (mkRequest "GET" "http://api.example.com/a"
                  (sentAt (builder0 s1) s1) "") h]
         ++ evs
    /\ existsb isSend evs = false.
Proof.
  apply (doRequest_sends notModified 0%nat "GET" "/a" None s1 (builder0 s1)
           (responses s1 !! 0%nat) "GET" "http://api.example.com/a"
           "http://api.example.com/a" "").
  - vm_compute. reflexivity.
  - apply wellFormedb_sound. vm_compute. reflexivity.
  - vm_compute. reflexivity.
  - intros r Hr. vm_compute in Hr. injection Hr as <-. reflexivity.
  - vm_compute. reflexivity.
Defined.

(** *** The dates that [httpDateFormat] accepts *)

Lemma lookupFrom_bounds (tab : list string) (i : Z) (val : string)
  (j : Z) (rest : string) :
  lookupFrom i tab val = Some (j, rest) ->
  i <= j < i + Z.of_nat (length tab).
Proof.
  revert i. induction tab as [ | v tab IH ]; intros i H; simpl in H;
    [ discriminate | ].
  destruct (matchPrefix v val).
  - injection H as <- _. simpl length. lia.
  - apply IH in H. simpl length. lia.
Qed.

Lemma decimal_bound (s : string) (acc n : Z) :
  decimal acc s = Some n ->
  0 <= acc ->
  acc * 10 ^ Z.of_nat (String.length s) <= n
  < (acc + 1) * 10 ^ Z.of_nat (String.length s).
Proof.
  revert acc. induction s as [ | c s IH ]; intros acc H Hacc; simpl in H.
  - injection H as <-. simpl. lia.
  - destruct (isDigitChar c) eqn:Hc; [ | discriminate ].
    assert (Hd : 0 <= digitVal c <= 9).
    { unfold isDigitChar in Hc. apply andb_true_iff in Hc as [H1 H2].
      apply Z.leb_le in H1, H2. unfold digitVal.
      change (code "0"%char) with 48 in *. change (code "9"%char) with 57 in *.
      lia. }
    apply IH in H; [ | lia ].
    change (String.length (String c s)) with (S (String.length s)).
    rewrite Nat2Z.inj_succ, Z.pow_succ_r by lia.
    assert (0 < 10 ^ Z.of_nat (String.length s)) by (apply Z.pow_pos_nonneg; lia).
    nia.
Qed.

Lemma length_take (n : nat) (s : string) :
  (String.length (take n s) <= n)%nat.
Proof.
  revert s. induction n as [ | n IH ]; intros [ | c s ]; simpl; try lia.
  specialize (IH s). lia.
Qed.

Lemma fraction_bound (value : string) (ns : Z) (rest : string) :
  fraction value = Some (ns, rest) -> 0 <= ns < 1000000000.
Proof.
  unfold fraction. intros H.
  destruct value as [ | c0 [ | c1 value ] ]; try discriminate.
  destruct (commaOrPeriod c0 && isDigitChar c1); [ | discriminate ].
  destruct (spanDigits _) as [ds rest'].
  pose proof (length_take 9 ds) as Hl.
  remember (take 9 ds) as used eqn:Hu. clear Hu.
  destruct (decimal 0 used) as [n | ] eqn:Hn; [ | discriminate ].
  injection H as <- _.
  apply decimal_bound in Hn; [ | lia ].
  set (l := String.length used) in *.
  assert (Hp : 10 ^ Z.of_nat l * 10 ^ (9 - Z.of_nat l) = 1000000000)
    by (rewrite <- Z.pow_add_r by lia;
        replace (Z.of_nat l + (9 - Z.of_nat l)) with 9 by lia; reflexivity).
  assert (HB : 0 < 10 ^ (9 - Z.of_nat l)) by (apply Z.pow_pos_nonneg; lia).
  simpl in Hn. rewrite Z.mul_1_l in Hn.
  pose proof (proj1 (Z.mul_lt_mono_pos_r _ _ _ HB) (proj2 Hn)) as Hlt.
  rewrite Hp in Hlt.
  pose proof (Z.mul_nonneg_nonneg _ _ (proj1 Hn) (Z.lt_le_incl _ _ HB)).
  lia.
Qed.

(** An element of the layout other than a day leaves the day as it is
    and the other fields in their ranges. *)
Lemma parseElem_dayless (k : std) (suffix value : string) (f f' : fields)
  (rest : string) :
  k <> stdDay -> k <> stdZeroDay ->
  parseElem k suffix value f = inr (f', rest) ->
  dayless f -> dayless f'.
Proof.
  intros Hk1 Hk2 H (Hd & Hm & Hh & Hmi & Hs & Hn).
  unfold parseElem, lookup in H.
  destruct k; try congruence;
    repeat match type of H with
           | context [match lookupFrom ?i ?t ?v with _ => _ end] =>
               let Hl := fresh "Hl" in
               destruct (lookupFrom i t v) as [[? ?] | ] eqn:Hl;
               [ apply lookupFrom_bounds in Hl; simpl in Hl | ]
           | context [match getnum ?v ?b with _ => _ end] =>
               destruct (getnum v b) as [[? ?] | ]
           | context [match fraction ?v with _ => _ end] =>
               let Hf := fresh "Hf" in
               destruct (fraction v) as [[? ?] | ] eqn:Hf;
               [ apply fraction_bound in Hf | ]
           | context [if ?c then _ else _] =>
               let Hc := fresh "Hc" in
               destruct c eqn:Hc;
               [ | try (apply orb_false_iff in Hc as [? ?]) ]
           | context [match decimal ?a ?v with _ => _ end] =>
               destruct (decimal a v)
           | context [match nextStdChunk ?v with _ => _ end] =>
               destruct (nextStdChunk v) as [[? []] ?]
           end;
    try discriminate; injection H as <- _; unfold dayless; simpl;
    repeat match goal with
           | Hc : (_ <? _) = false |- _ => apply Z.ltb_ge in Hc
           end;
    lia.
Qed.

Lemma parseLoop_dayless (fuel : nat) (layout value : string) (f f' : fields) :
  noDay fuel layout = true ->
  parseLoop fuel layout value f = inr f' ->
  dayless f -> dayless f'.
Proof.
  revert layout value f.
  induction fuel as [ | fuel IH ]; intros layout value f Hn H Hf;
    [ discriminate | ].
  cbn [parseLoop noDay] in *.
  destruct (nextStdChunk layout) as [[prefix k] suffix].
  destruct (skip value prefix) as [value1 | ]; [ | discriminate ].
  destruct (parseElem k suffix value1 f) as [e | [f1 value2]] eqn:He.
  - destruct k; try discriminate.
    destruct value1; [ injection H as <-; exact Hf | discriminate ].
  - assert (Hf1 : k <> stdDay -> k <> stdZeroDay -> dayless f1)
      by (intros; eapply parseElem_dayless; eauto).
    destruct k; try discriminate;
      (eapply IH; [ exact Hn | exact H | apply Hf1; discriminate ]).
Qed.

(** X20. Every date that is accepted with [httpDateFormat] is read as
    the first day of a month: the layout has the number of the month
    where the dates of HTTP have the day, so that no day is read, and
    every [Last-Modified] and [Expires] instant that [setLastModified]
    and [setTTL] store is built with the day 1. *)
Theorem accepted_dates_first_of_month (value : string) (t : Time) :
  Parse httpDateFormat value = inr t ->
  exists y m hh mm ss ns,
    t = Date y m 1 hh mm ss ns
    /\ 1 <= m <= 12 /\ 0 <= hh <= 23 /\ 0 <= mm <= 59 /\ 0 <= ss <= 59
    /\ 0 <= ns < 1000000000.
Proof.
  unfold Parse. intros H.
  destruct (parseLoop _ httpDateFormat value fields0) as [e | f] eqn:Hl;
    [ discriminate | ].
  apply parseLoop_dayless in Hl;
    [ | vm_compute; reflexivity | unfold dayless; simpl; lia ].
  destruct Hl as (Hd & Hm & Hh & Hmi & Hs & Hn).
  rewrite Hd in H. simpl in H.
  destruct (daysIn _ _ <? 1); [ discriminate | ].
  injection H as <-.
  exists (year f), (if month f <? 0 then 1 else month f), (hour f), (min f),
    (sec f), (nsec f).
  split; [ reflexivity | ].
  destruct (month f <? 0) eqn:Hlt; [ lia | apply Z.ltb_ge in Hlt; lia ].
Qed.

Lemma accepted_dates_first_of_month_witness :
  exists y m hh mm ss ns,
    Date 1994 11 1 8 49 37 0 = Date y m 1 hh mm ss ns
    /\ 1 <= m <= 12 /\ 0 <= hh <= 23 /\ 0 <= mm <= 59 /\ 0 <= ss <= 59
    /\ 0 <= ns < 1000000000.
Proof.
  apply (accepted_dates_first_of_month "Sun, 06 Nov 1994 08:49:37 GMT").
  vm_compute. reflexivity.
Defined.

(** *** The body *)

(** X21. Without a body, or for a builder whose content type is neither
    JSON nor XML, [marshalReqBody] calls no encoder: it returns no bytes
    and no error, so that a body given to such a builder is dropped. *)
Theorem marshalReqBody_no_encoder (E : Env) (b : RequestBuilder)
  (body : option string) (s : State) :
  body = None \/ ContentType b = ContentTypeOther ->
  marshalReqBody E b body s = Done (inr "") (emit EvMarshal s)
  /\ forall verb url,
       prepared E b verb url body
       = prepared E b verb url None.
Proof.
  intros H. rewrite marshalReqBody_eq. unfold prepared, encoded.
  destruct H as [-> | ->]; [ split; reflexivity | ].
  destruct body; split; reflexivity.
Qed.

Lemma marshalReqBody_no_encoder_witness :
  marshalReqBody tagged
    (mkRequestBuilder "http://api.example.com" ContentTypeOther None 0 false
       0 "" false None) (Some "{}") s0
  = Done (inr "") (emit EvMarshal s0)
  /\ forall verb url,
       prepared tagged
         (mkRequestBuilder "http://api.example.com" ContentTypeOther None 0
            false 0 "" false None) verb url (Some "{}")
       = prepared tagged
           (mkRequestBuilder "http://api.example.com" ContentTypeOther None 0
              false 0 "" false None) verb url None.
Proof.
  apply (marshalReqBody_no_encoder tagged
           (mkRequestBuilder "http://api.example.com" ContentTypeOther None 0
              false 0 "" false None) (Some "{}") s0).
  right. reflexivity.
Defined.

(** *** What [setParams] writes *)

(** X22. [setParams] writes to two header maps at most, the map of the
    request and the map of the custom headers of the builder, and to
    nothing else: the other maps and the rest of the state are left as
    they are, no event is recorded, and the request it returns is the
    request it was given, with the map of the builder as its headers
    when the builder has custom headers. *)
Theorem setParams_frame (E : Env) (b : RequestBuilder) (client : loc)
  (req req' : Request) (cacheResp : option Hit) (cacheURL : string)
  (s s' : State) :
  setParams E b client req cacheResp cacheURL s = Done req' s' ->
  builders s' = builders s /\ responses s' = responses s
  /\ transports s' = transports s /\ clients s' = clients s
  /\ resourceCache s' = resourceCache s
  /\ transportCache s' = transportCache s /\ trace s' = trace s
  /\ req' = match Headers b with
            | Some l => withHeader l req
            | None => req
            end
  /\ length (headerMaps s') = length (headerMaps s)
  /\ forall i, i <> Request_Header req -> Headers b <> Some i ->
       headerMaps s' !! i = headerMaps s !! i.
Proof.
  unfold setParams, Header_Set, held. intros H.
  run_in H; simpl;
    repeat (split; [ reflexivity | ]);
    (split; [ rewrite ?length_insert; reflexivity | ]);
    intros i Hi Hb; simpl in *;
    rewrite ?list_lookup_insert_ne by congruence; reflexivity.
Qed.

Lemma setParams_frame_witness :
  builders injected = builders plain /\ responses injected = responses plain
  /\ transports injected = transports plain
  /\ clients injected = clients plain
  /\ resourceCache injected = resourceCache plain
  /\ transportCache injected = transportCache plain
  /\ trace injected = trace plain
  /\ withHeader 0%nat getA = withHeader 0%nat getA
  /\ length (headerMaps injected) = length (headerMaps plain)
  /\ forall i, i <> Request_Header getA -> Headers customBuilder <> Some i ->
       headerMaps injected !! i = headerMaps plain !! i.
Proof.
  apply (setParams_frame tagged customBuilder 0%nat getA
           (withHeader 0%nat getA) None "http://api.example.com/a" plain
           injected).
  vm_compute. reflexivity.
Defined.

End RestMore.
